(** * Solar analemma engine: a shallow embedding of [solar.ts] and
    [enuScaling.ts], with the properties of its specification.

    JavaScript numbers are embedded through an interface [Number] (IEEE
    arithmetic, [Math.PI], [Math.sin], [Math.cos]) extended by [NumberLib]
    (the [%] operator, [Math.max], [Math.min], [<], [Math.asin],
    [Math.atan2]).  The code of the repository is written once against the
    interface and read in two models:
    - [R]: exact real arithmetic, the mathematical reading of the formulas;
    - [Binary64.number]: IEEE-754 doubles (the machine reading), with the
      two library functions [Math.sin] and [Math.cos] as parameters.
    Years, day counters and calendar arithmetic are integers ([Z]);
    JavaScript's [%] on integers is [Z.rem].  [new Date().getFullYear()]
    is a parameter [currentYear] of the generators.

    Not embedded: the running minimum and maximum that
    [computeAnalemmaPoints] keeps and never reads, and the block that ends
    both generators, which summarises the finished points for
    [_debugOnce]; neither touches the returned array.

    Around the engine, the file also embeds what calls it: the sink
    [_debugOnce] with its switch, the two Bangkok scripts, and from the
    application and the equation-of-time chart the helpers [clamp],
    [unwrapAz], [azLabelFor], [azimuthToDirection], [getTimeZoneOffset],
    [project], [insetYear], the scales of the views and the solar-noon
    time of the tooltip.  They need [Math.round], [Math.floor],
    [Math.abs], [Math.tan] and [<=], the interface [NumberUI].

    [Binary64Lib.numberLib] completes the binary64 model with [%],
    [Math.max] and [Math.min] on doubles, [Math.asin] and [Math.atan2]
    being parameters; it is where not-a-number lives, and where the
    statements that are exact in [R] are checked against rounding. *)

From Stdlib Require Import ZArith List String Ascii Bool Lia Lra Psatz.
From Stdlib Require Import DecimalString.
From Stdlib Require Import Reals.
From Stdlib Require Import Floats.
Import ListNotations.

Set Implicit Arguments.

(* ------------------------------------------------------------------ *)
(** ** The number interface *)

Class Number (num : Type) : Type := {
  of_Z : Z -> num;
  neg : num -> num;
  add : num -> num -> num;
  sub : num -> num -> num;
  mul : num -> num -> num;
  div : num -> num -> num;
  Math_PI : num;
  Math_sin : num -> num;
  Math_cos : num -> num
}.

Class NumberLib (num : Type) `{Number num} : Type := {
  rem : num -> num -> num;
  ltb : num -> num -> bool;
  Math_max : num -> num -> num;
  Math_min : num -> num -> num;
  Math_asin : num -> num;
  Math_atan2 : num -> num -> num
}.
Arguments NumberLib num {_}.

Declare Scope js_scope.
Delimit Scope js_scope with js.
Notation "x + y" := (add x y) : js_scope.
Notation "x - y" := (sub x y) : js_scope.
Notation "x * y" := (mul x y) : js_scope.
Notation "x / y" := (div x y) : js_scope.
Notation "- x" := (neg x) : js_scope.
Notation "x <? y" := (ltb x y) : js_scope.
Notation "x >? y" := (ltb y x) : js_scope.

(** A decimal literal [m]e-[k], e.g. [dec 6918 6] for [0.006918].  In
    binary64 the quotient of two exactly representable integers is
    correctly rounded, hence is the double the literal denotes. *)
Definition dec {num} `{Number num} (m : Z) (k : nat) : num :=
  div (of_Z m) (of_Z (10 ^ Z.of_nat k)).

(* ------------------------------------------------------------------ *)
(** ** Data model of [solar.ts] *)

Inductive TimeMode (num : Type) : Type :=
| fixedLocalTime (hh mm : num).

Definition kind {num} (t : TimeMode num) : string :=
  match t with fixedLocalTime _ _ => "fixedLocalTime"%string end.
Definition hh {num} (t : TimeMode num) : num :=
  match t with fixedLocalTime h _ => h end.
Definition mm {num} (t : TimeMode num) : num :=
  match t with fixedLocalTime _ m => m end.

Module AnalemmaPoint.
Record t (num : Type) : Type := mk {
  dateISO : string;
  azimuthDeg : num;
  altitudeDeg : num;
  visible : bool;
  E : num;
  N : num;
  U : num
}.
End AnalemmaPoint.

Module EotPoint.
Record t (num : Type) : Type := mk {
  dateISO : string;
  dayOfYear : Z;
  eotMinutes : num;
  obliquityComponent : num;
  eccentricityComponent : num
}.
End EotPoint.

Module AnalemmaInsetPoint.
Record t (num : Type) : Type := mk {
  azimuthDeg : num;
  altitudeDeg : num;
  visible : bool;
  E : num;
  N : num;
  U : num
}.
End AnalemmaInsetPoint.

Record AnalemmaInputs (num : Type) : Type := mkInputs {
  latitudeDeg : num;
  longitudeDeg : num;
  timeMode : TimeMode num;
  tzOffsetHours : num;
  year : option Z
}.

(* ------------------------------------------------------------------ *)
(** ** Calendar index *)

Definition isLeapYear (y : Z) : bool :=
  ((Z.rem y 4 =? 0)%Z && negb (Z.rem y 100 =? 0)%Z) || (Z.rem y 400 =? 0)%Z.

Definition daysInYear (y : Z) : Z :=
  if isLeapYear y then 366%Z else 365%Z.

(** The counter values of [for (let n = 1; n <= nDays; n++)]. *)
Definition loopDays (nDays : Z) : list Z :=
  map Z.of_nat (seq 1 (Z.to_nat nDays)).

(* ------------------------------------------------------------------ *)
(** ** The [Date] built-in used by [dateFromDayOfYear]

    Time values are integers (milliseconds since the epoch); [None] is the
    invalid date, whose time value is [NaN].  The functions are those of
    the ECMAScript specification, with [YearFromTime] made executable. *)

Module JSDate.
Local Open Scope Z_scope.

Definition msPerDay : Z := 86400000.
Definition Day (t : Z) : Z := t / msPerDay.
Definition TimeWithinDay (t : Z) : Z := t mod msPerDay.

Definition DaysInYear (y : Z) : Z :=
  if negb (y mod 4 =? 0) then 365
  else if negb (y mod 100 =? 0) then 366
  else if negb (y mod 400 =? 0) then 365
  else 366.

Definition DayFromYear (y : Z) : Z :=
  365 * (y - 1970) + (y - 1969) / 4 - (y - 1901) / 100 + (y - 1601) / 400.

Definition TimeFromYear (y : Z) : Z := msPerDay * DayFromYear y.

(** The largest [y] with [DayFromYear y <= d]: an estimate from the mean
    length of the Gregorian year, corrected by at most one year. *)
Definition YearFromDay (d : Z) : Z :=
  let y := 1970 + (d * 400) / 146097 in
  if d <? DayFromYear y then y - 1
  else if DayFromYear (y + 1) <=? d then y + 1
  else y.

Definition YearFromTime (t : Z) : Z := YearFromDay (Day t).

Definition InLeapYear (t : Z) : Z :=
  if DaysInYear (YearFromTime t) =? 366 then 1 else 0.

Definition DayWithinYear (t : Z) : Z := Day t - DayFromYear (YearFromTime t).

(** Month number from the day within the year [d] and the leap flag [l]. *)
Definition monthOfDay (l d : Z) : Z :=
  if d <? 31 then 0
  else if d <? 59 + l then 1
  else if d <? 90 + l then 2
  else if d <? 120 + l then 3
  else if d <? 151 + l then 4
  else if d <? 181 + l then 5
  else if d <? 212 + l then 6
  else if d <? 243 + l then 7
  else if d <? 273 + l then 8
  else if d <? 304 + l then 9
  else if d <? 334 + l then 10
  else 11.

(** Day number within the year of the first day of month [m]. *)
Definition monthStart (l m : Z) : Z :=
  match m with
  | 0 => 0
  | 1 => 31
  | 2 => 59 + l
  | 3 => 90 + l
  | 4 => 120 + l
  | 5 => 151 + l
  | 6 => 181 + l
  | 7 => 212 + l
  | 8 => 243 + l
  | 9 => 273 + l
  | 10 => 304 + l
  | _ => 334 + l
  end.

Definition MonthFromTime (t : Z) : Z :=
  monthOfDay (InLeapYear t) (DayWithinYear t).

Definition DateFromTime (t : Z) : Z :=
  DayWithinYear t - monthStart (InLeapYear t) (MonthFromTime t) + 1.

Definition MakeDay (year month date : Z) : Z :=
  let ym := year + month / 12 in
  let mn := month mod 12 in
  let l := if DaysInYear ym =? 366 then 1 else 0 in
  DayFromYear ym + monthStart l mn + date - 1.

Definition MakeDate (day time : Z) : Z := day * msPerDay + time.

Definition TimeClip (time : Z) : option Z :=
  if Z.abs time >? 8640000000000000 then None else Some time.

Definition MakeFullYear (y : Z) : Z :=
  if (0 <=? y) && (y <=? 99) then 1900 + y else y.

(** [Date.UTC(year, month, date)] *)
Definition UTC (year month date : Z) : option Z :=
  TimeClip (MakeDate (MakeDay (MakeFullYear year) month date) 0).

(** [new Date(tv)] *)
Definition new (tv : option Z) : option Z :=
  match tv with
  | Some t => TimeClip t
  | None => None
  end.

Definition setUTCDate (this : option Z) (dt : Z) : option Z :=
  match this with
  | Some t =>
      TimeClip (MakeDate (MakeDay (YearFromTime t) (MonthFromTime t) dt)
                         (TimeWithinDay t))
  | None => None
  end.

Definition getUTCFullYear (this : option Z) : option Z :=
  option_map YearFromTime this.
Definition getUTCMonth (this : option Z) : option Z :=
  option_map MonthFromTime this.
Definition getUTCDate (this : option Z) : option Z :=
  option_map DateFromTime this.
End JSDate.

(** [String(x)] and template interpolation of an integral number;
    [None] is [NaN]. *)
Definition String_of (x : option Z) : string :=
  match x with
  | Some z => NilZero.string_of_int (Z.to_int z)
  | None => "NaN"%string
  end.

Fixpoint fill (n : nat) (c : ascii) (s : string) : string :=
  match n with
  | O => s
  | S n' => String c (fill n' c s)
  end.

(** [s.padStart(targetLength, c)] for a one-character pad string. *)
Definition padStart (s : string) (targetLength : nat) (c : ascii) : string :=
  fill (targetLength - String.length s) c s.

Definition dateFromDayOfYear (year day : Z) : string :=
  let date := JSDate.new (JSDate.UTC year 0 1) in
  let date := JSDate.setUTCDate date day in
  let yyyy := JSDate.getUTCFullYear date in
  let mm := padStart (String_of (option_map (fun m => m + 1)%Z (JSDate.getUTCMonth date))) 2 "0" in
  let dd := padStart (String_of (JSDate.getUTCDate date)) 2 "0" in
  (String_of yyyy ++ "-" ++ mm ++ "-" ++ dd)%string.

(* ------------------------------------------------------------------ *)
(** ** [solar.ts]: ephemeris, hour angle, horizontal transform, series *)

Section Ephemeris.
Context {num : Type} `{Number num}.
Local Open Scope js_scope.

Definition deg2rad (d : num) : num := (d * Math_PI) / of_Z 180.
Definition rad2deg (r : num) : num := (r * of_Z 180) / Math_PI.

(** [const gamma = (2 * Math.PI / nDays) * (n - 1 + 0.5)] *)
Definition gamma (nDays n : Z) : num :=
  (of_Z 2 * Math_PI / of_Z nDays) * (of_Z n - of_Z 1 + dec 5 1).

(** [const decl = ...], the seven-term declination series. *)
Definition decl (gamma : num) : num :=
  dec 6918 6 -
  dec 399912 6 * Math_cos gamma +
  dec 70257 6 * Math_sin gamma -
  dec 6758 6 * Math_cos (of_Z 2 * gamma) +
  dec 907 6 * Math_sin (of_Z 2 * gamma) -
  dec 2697 6 * Math_cos (of_Z 3 * gamma) +
  dec 148 5 * Math_sin (of_Z 3 * gamma).

(** [const eotMin = 229.18 * (...)] of [computeAnalemmaPoints]. *)
Definition eotMin (gamma : num) : num :=
  dec 22918 2 * (
    dec 75 6 +
    dec 1868 6 * Math_cos gamma -
    dec 32077 6 * Math_sin gamma -
    dec 14615 6 * Math_cos (of_Z 2 * gamma) -
    dec 40849 6 * Math_sin (of_Z 2 * gamma)).

Definition obliquityComponent (gamma : num) : num :=
  dec 22918 2 * (
    - dec 32077 6 * Math_sin gamma -
    dec 40849 6 * Math_sin (of_Z 2 * gamma)).

Definition eccentricityComponent (gamma : num) : num :=
  dec 22918 2 * (
    dec 75 6 +
    dec 1868 6 * Math_cos gamma -
    dec 14615 6 * Math_cos (of_Z 2 * gamma)).

(** One iteration of the loop of [computeEquationOfTime]. *)
Definition eotPoint (year nDays n : Z) : EotPoint.t num :=
  let gamma := gamma nDays n in
  let obliquityComponent := obliquityComponent gamma in
  let eccentricityComponent := eccentricityComponent gamma in
  let eotMinutes := obliquityComponent + eccentricityComponent in
  let dateISO := dateFromDayOfYear year n in
  EotPoint.mk dateISO n eotMinutes obliquityComponent eccentricityComponent.

Definition computeEquationOfTime (year : Z) : list (EotPoint.t num) :=
  let nDays := daysInYear year in
  map (eotPoint year nDays) (loopDays nDays).

End Ephemeris.

Section Solar.
Context {num : Type} `{NumberLib num}.
Local Open Scope js_scope.

Definition normalizeDeg (d : num) : num :=
  rem (rem d (of_Z 360) + of_Z 360) (of_Z 360).

(** True solar time, normalised: the lines from [const tz] to the
    second assignment of [trueSolarTimeMin]. *)
Definition trueSolarTimeMin
    (localClockMinutes eotMin longitudeDeg tz : num) : num :=
  let LSTM := of_Z 15 * tz in
  let timeOffsetMin := eotMin + of_Z 4 * (longitudeDeg - LSTM) in
  let trueSolarTimeMin := localClockMinutes + timeOffsetMin in
  rem (rem trueSolarTimeMin (of_Z 1440) + of_Z 1440) (of_Z 1440).

Definition H_deg (localClockMinutes eotMin longitudeDeg tz : num) : num :=
  trueSolarTimeMin localClockMinutes eotMin longitudeDeg tz / of_Z 4 - of_Z 180.

(** The East-North-Up block shared by both generators: from [const E]
    to [const visible]. *)
Record Horizontal : Type := mkHorizontal {
  hAzimuthDeg : num;
  hAltitudeDeg : num;
  hVisible : bool;
  hE : num;
  hN : num;
  hU : num
}.

Definition horizontal (phi decl H : num) : Horizontal :=
  let E := Math_cos decl * Math_sin H in
  let N := Math_cos phi * Math_sin decl - Math_sin phi * Math_cos decl * Math_cos H in
  let U := Math_sin phi * Math_sin decl + Math_cos phi * Math_cos decl * Math_cos H in
  let altitudeDeg := rad2deg (Math_asin (Math_max (- of_Z 1) (Math_min (of_Z 1) U))) in
  let azimuthDeg := normalizeDeg (rad2deg (Math_atan2 E N)) in
  let visible := altitudeDeg >? of_Z 0 in
  mkHorizontal azimuthDeg altitudeDeg visible E N U.

(** [inputs.year ?? new Date().getFullYear()] *)
Definition yearOrCurrent (currentYear : Z) (inputs : AnalemmaInputs num) : Z :=
  match year inputs with
  | Some y => y
  | None => currentYear
  end.

(** [localClockMinutes] of [computeAnalemmaPoints], with its clamping. *)
Definition clampedClockMinutes (inputs : AnalemmaInputs num) : num :=
  let hh := Math_min (of_Z 23) (Math_max (of_Z 0) (hh (timeMode inputs))) in
  let mm := Math_min (of_Z 59) (Math_max (of_Z 0) (mm (timeMode inputs))) in
  hh * of_Z 60 + mm.

(** One iteration of the loop of [computeAnalemmaPoints]. *)
Definition analemmaPoint (inputs : AnalemmaInputs num) (year nDays : Z)
    (phi localClockMinutes : num) (n : Z) : AnalemmaPoint.t num :=
  let gamma := gamma nDays n in
  let decl := decl gamma in
  let eotMin := eotMin gamma in
  let tz := tzOffsetHours inputs in
  let H_deg := H_deg localClockMinutes eotMin (longitudeDeg inputs) tz in
  let H := deg2rad H_deg in
  let h := horizontal phi decl H in
  let dateISO := dateFromDayOfYear year n in
  AnalemmaPoint.mk dateISO (hAzimuthDeg h) (hAltitudeDeg h) (hVisible h)
                   (hE h) (hN h) (hU h).

Definition computeAnalemmaPoints (currentYear : Z)
    (inputs : AnalemmaInputs num) : list (AnalemmaPoint.t num) :=
  let year := yearOrCurrent currentYear inputs in
  let nDays := daysInYear year in
  let phi := deg2rad (latitudeDeg inputs) in
  let localClockMinutes := clampedClockMinutes inputs in
  map (analemmaPoint inputs year nDays phi localClockMinutes) (loopDays nDays).

(** [decl] and [eotMin] of [computeAnalemmaInset], with the switches. *)
Definition insetDecl (includeObliquity : bool) (gamma : num) : num :=
  let decl0 := of_Z 0 in
  if includeObliquity then decl gamma else decl0.

Definition insetEotMin (includeObliquity includeEccentricity : bool)
    (gamma : num) : num :=
  let eotMin := of_Z 0 in
  let eotMin :=
    if includeObliquity then eotMin + obliquityComponent gamma else eotMin in
  let eotMin :=
    if includeEccentricity then eotMin + eccentricityComponent gamma else eotMin in
  eotMin.

(** [localClockMinutes] of [computeAnalemmaInset]: no clamping. *)
Definition insetClockMinutes (inputs : AnalemmaInputs num) : num :=
  hh (timeMode inputs) * of_Z 60 + mm (timeMode inputs).

(** One iteration of the loop of [computeAnalemmaInset]. *)
Definition insetPoint (inputs : AnalemmaInputs num)
    (includeObliquity includeEccentricity : bool) (nDays : Z)
    (phi localClockMinutes : num) (n : Z) : AnalemmaInsetPoint.t num :=
  let gamma := gamma nDays n in
  let decl := insetDecl includeObliquity gamma in
  let eotMin := insetEotMin includeObliquity includeEccentricity gamma in
  let tz := tzOffsetHours inputs in
  let H_deg := H_deg localClockMinutes eotMin (longitudeDeg inputs) tz in
  let H := deg2rad H_deg in
  let h := horizontal phi decl H in
  AnalemmaInsetPoint.mk (hAzimuthDeg h) (hAltitudeDeg h) (hVisible h)
                        (hE h) (hN h) (hU h).

Definition computeAnalemmaInset (currentYear : Z)
    (inputs : AnalemmaInputs num)
    (includeObliquity includeEccentricity : bool)
    : list (AnalemmaInsetPoint.t num) :=
  let year := yearOrCurrent currentYear inputs in
  let nDays := daysInYear year in
  let phi := deg2rad (latitudeDeg inputs) in
  let localClockMinutes := insetClockMinutes inputs in
  map (insetPoint inputs includeObliquity includeEccentricity nDays phi
                  localClockMinutes)
      (loopDays nDays).
End Solar.

(* ------------------------------------------------------------------ *)
(** ** [enuScaling.ts] *)

Record ScalerParams (num : Type) : Type := mkParams {
  eMin : num;
  eMax : num;
  uMin : num;
  uMax : num;
  plotWidthPx : num;
  plotHeightPx : num;
  padFraction : num;
  minPadE : num;
  minPadU : num;
  minSpan : num
}.

Definition Domain (num : Type) : Type := (num * num)%type.

Record Domains (num : Type) : Type := mkDomains {
  eDomain : Domain num;
  uDomain : Domain num
}.

Section EnuScaling.
Context {num : Type} `{NumberLib num}.
Local Open Scope js_scope.

Definition computeEnuDomainsAspectLocked (params : ScalerParams num)
    : Domains num :=
  let safeWidth := Math_max (of_Z 1) (plotWidthPx params) in
  let safeHeight := Math_max (of_Z 1) (plotHeightPx params) in
  let eRange := Math_max (minSpan params) (eMax params - eMin params) in
  let uRange := Math_max (minSpan params) (uMax params - uMin params) in
  let ePad := Math_max (minPadE params) (eRange * padFraction params) in
  let uPad := Math_max (minPadU params) (uRange * padFraction params) in
  let eDomainMin := eMin params - ePad in
  let eDomainMax := eMax params + ePad in
  let uDomainMin := uMin params - uPad in
  let uDomainMax := uMax params + uPad in
  let eMid := (eDomainMin + eDomainMax) / of_Z 2 in
  let uMid := (uDomainMin + uDomainMax) / of_Z 2 in
  let eSpan := Math_max (minSpan params) (eDomainMax - eDomainMin) in
  let uSpan := Math_max (minSpan params) (uDomainMax - uDomainMin) in
  let uSpanForE := eSpan * (safeHeight / safeWidth) in
  let eSpanForU := uSpan * (safeWidth / safeHeight) in
  if uSpan <? uSpanForE then
    let uSpan := uSpanForE in
    let uDomainMin := uMid - uSpan / of_Z 2 in
    let uDomainMax := uMid + uSpan / of_Z 2 in
    mkDomains (eDomainMin, eDomainMax) (uDomainMin, uDomainMax)
  else if eSpan <? eSpanForU then
    let eSpan := eSpanForU in
    let eDomainMin := eMid - eSpan / of_Z 2 in
    let eDomainMax := eMid + eSpan / of_Z 2 in
    mkDomains (eDomainMin, eDomainMax) (uDomainMin, uDomainMax)
  else
    mkDomains (eDomainMin, eDomainMax) (uDomainMin, uDomainMax).
End EnuScaling.

(* ------------------------------------------------------------------ *)
(** ** The real-number model *)

Module Real.
Local Open Scope R_scope.

(** Rounding toward zero, as in the definition of [%]. *)
Definition trunc (x : R) : Z :=
  if Rle_dec 0 x then Int_part x else (- Int_part (- x))%Z.

(** [x % y]: the remainder with the sign of the dividend. *)
Definition fmod (x y : R) : R := x - y * IZR (trunc (x / y)).

Definition lessb (x y : R) : bool := if Rlt_dec x y then true else false.

(** [Math.atan2(y, x)]: the angle of the point [(x, y)], in (-PI, PI]. *)
Definition atan2 (y x : R) : R :=
  if Rlt_dec 0 x then atan (y / x)
  else if Rlt_dec x 0 then
    if Rle_dec 0 y then atan (y / x) + PI else atan (y / x) - PI
  else
    if Rlt_dec 0 y then PI / 2
    else if Rlt_dec y 0 then - (PI / 2)
    else 0.

#[global] Instance number : Number R := {|
  of_Z := IZR;
  neg := Ropp;
  add := Rplus;
  sub := Rminus;
  mul := Rmult;
  div := Rdiv;
  Math_PI := PI;
  Math_sin := sin;
  Math_cos := cos
|}.

#[global] Instance numberLib : NumberLib R := {|
  rem := fmod;
  ltb := lessb;
  Math_max := Rmax;
  Math_min := Rmin;
  Math_asin := asin;
  Math_atan2 := atan2
|}.
End Real.

(* ------------------------------------------------------------------ *)
(** ** The binary64 model of the arithmetic *)

Module Binary64.
Definition from_Z (z : Z) : float :=
  match z with
  | Z0 => PrimFloat.of_uint63 (Uint63.of_Z 0)
  | Zpos _ => PrimFloat.of_uint63 (Uint63.of_Z z)
  | Zneg _ => PrimFloat.opp (PrimFloat.of_uint63 (Uint63.of_Z (- z)))
  end.

(** [Math.PI], the double nearest to the real number. *)
Definition PI : float := 0x1.921fb54442d18p+1%float.

Section Libm.
Variables libm_sin libm_cos : float -> float.

Definition number : Number float := {|
  of_Z := from_Z;
  neg := PrimFloat.opp;
  add := PrimFloat.add;
  sub := PrimFloat.sub;
  mul := PrimFloat.mul;
  div := PrimFloat.div;
  Math_PI := PI;
  Math_sin := libm_sin;
  Math_cos := libm_cos
|}.
End Libm.
End Binary64.


(* ------------------------------------------------------------------ *)
(** ** Specification side: civil dates and their ISO rendering

    These definitions follow the words of the specification ("the ISO
    calendar date reached by adding [day-1] whole days to January 1"),
    not the code; the code is compared with them. *)

Module IsoCalendar.
Local Open Scope Z_scope.

Record date : Type := mkDate { y : Z; m : Z; d : Z }.

Definition gregorianLeap (y : Z) : bool :=
  ((y mod 4 =? 0) && negb (y mod 100 =? 0)) || (y mod 400 =? 0).

Definition monthLength (leap : bool) (m : Z) : Z :=
  match m with
  | 2 => if leap then 29 else 28
  | 4 | 6 | 9 | 11 => 30
  | _ => 31
  end.

Definition nextDay (dt : date) : date :=
  if d dt <? monthLength (gregorianLeap (y dt)) (m dt)
  then mkDate (y dt) (m dt) (d dt + 1)
  else if m dt <? 12 then mkDate (y dt) (m dt + 1) 1
  else mkDate (y dt + 1) 1 1.

Fixpoint addDays (k : nat) (dt : date) : date :=
  match k with
  | O => dt
  | S k' => nextDay (addDays k' dt)
  end.

Definition digit (z : Z) : ascii := ascii_of_nat (48 + Z.to_nat (z mod 10)).

(** [YYYY-MM-DD], for a year of four digits. *)
Definition iso8601 (dt : date) : string :=
  String (digit (y dt / 1000)) (String (digit (y dt / 100))
    (String (digit (y dt / 10)) (String (digit (y dt))
      (String "-" (String (digit (m dt / 10)) (String (digit (m dt))
        (String "-" (String (digit (d dt / 10)) (String (digit (d dt))
          EmptyString))))))))).
End IsoCalendar.

(** The date the specification assigns to day [n] of [year]. *)
Definition isoDayOfYear (year n : Z) : string :=
  IsoCalendar.iso8601
    (IsoCalendar.addDays (Z.to_nat (n - 1)) (IsoCalendar.mkDate year 1 1)).

(* ------------------------------------------------------------------ *)
(** ** Auxiliary definitions of the proofs *)

Section CalendarAux.
Local Open Scope Z_scope.

Definition Zrange (lo len : Z) : list Z :=
  map Z.of_nat (seq (Z.to_nat lo) (Z.to_nat len)).

Definition leapFlag (b : bool) : Z := if b then 1 else 0.

(** Month and day of the month of day [k] (from 0) of a year. *)
Definition monthOfK (b : bool) (k : Z) : Z := JSDate.monthOfDay (leapFlag b) k + 1.
Definition dayOfK (b : bool) (k : Z) : Z :=
  k - JSDate.monthStart (leapFlag b) (JSDate.monthOfDay (leapFlag b) k) + 1.

(** Day [k + 1] is the calendar successor of day [k]. *)
Definition stepOK (b : bool) (k : Z) : bool :=
  let m := monthOfK b k in
  let d := dayOfK b k in
  if d <? IsoCalendar.monthLength b m
  then (monthOfK b (k + 1) =? m) && (dayOfK b (k + 1) =? d + 1)
  else (m <? 12) && (monthOfK b (k + 1) =? m + 1) && (dayOfK b (k + 1) =? 1).

(** The last four lines of [dateFromDayOfYear], on a time value. *)
Definition renderDate (date : option Z) : string :=
  let yyyy := JSDate.getUTCFullYear date in
  let mm := padStart (String_of (option_map (fun m => m + 1)%Z (JSDate.getUTCMonth date))) 2 "0" in
  let dd := padStart (String_of (JSDate.getUTCDate date)) 2 "0" in
  (String_of yyyy ++ "-" ++ mm ++ "-" ++ dd)%string.

(** Years that [Date.UTC] takes as they are and [TimeClip] accepts. *)
Definition plainYear (year : Z) : Prop :=
  (year < 0 \/ 99 < year) /\ -270000 <= year <= 270000.

Definition pad2 (v : Z) : string :=
  String (IsoCalendar.digit (v / 10)) (String (IsoCalendar.digit v) EmptyString).

Definition pad4 (v : Z) : string :=
  String (IsoCalendar.digit (v / 1000)) (String (IsoCalendar.digit (v / 100))
    (String (IsoCalendar.digit (v / 10)) (String (IsoCalendar.digit v) EmptyString))).
End CalendarAux.

Section RealAux.
Local Open Scope R_scope.

(** The mathematical remainder: [x] reduced modulo [m] into [0, m). *)
Definition Rmodulo (x m : R) : R := x - m * IZR (Int_part (x / m)).

(** The padded domain of one axis, before the aspect lock: the raw span
    floored at [minSpan], each end moved out by
    [max(minPad, span * padFraction)]. *)
Definition paddedDomain (lo hi minPad padFraction minSpan : R) : Domain R :=
  let span := Rmax minSpan (hi - lo) in
  let pad := Rmax minPad (span * padFraction) in
  (lo - pad, hi + pad).

Definition paddedE (p : ScalerParams R) : Domain R :=
  paddedDomain (eMin p) (eMax p) (minPadE p) (padFraction p) (minSpan p).
Definition paddedU (p : ScalerParams R) : Domain R :=
  paddedDomain (uMin p) (uMax p) (minPadU p) (padFraction p) (minSpan p).

Definition width (d : Domain R) : R := snd d - fst d.
Definition midpoint (d : Domain R) : R := (fst d + snd d) / 2.
Definition safeWidth (p : ScalerParams R) : R := Rmax 1 (plotWidthPx p).
Definition safeHeight (p : ScalerParams R) : R := Rmax 1 (plotHeightPx p).

(** The angle [PI / 366]: the orbital angle of 1 January of a leap year. *)
Definition x366 : R := PI / 366.

(** The invariants of a horizontal position. *)
Definition wellFormed (azimuthDeg altitudeDeg : R) (visible : bool) (E N U : R)
    : Prop :=
  Rabs (E * E + N * N + U * U - 1) <= 1 / 1000000000 /\
  -90 <= altitudeDeg <= 90 /\
  0 <= azimuthDeg < 360 /\
  (visible = true <-> altitudeDeg > 0).

(** The point a generator emits for a horizontal position. *)
Definition analemmaOf (dateISO : string) (h : @Horizontal R) : AnalemmaPoint.t R :=
  AnalemmaPoint.mk dateISO (hAzimuthDeg h) (hAltitudeDeg h) (hVisible h)
                   (hE h) (hN h) (hU h).
Definition insetOf (h : @Horizontal R) : AnalemmaInsetPoint.t R :=
  AnalemmaInsetPoint.mk (hAzimuthDeg h) (hAltitudeDeg h) (hVisible h)
                        (hE h) (hN h) (hU h).

(** The inputs with the clock time clamped to [0,23]:[0,59]. *)
Definition clampTime (inputs : AnalemmaInputs R) : AnalemmaInputs R :=
  mkInputs (latitudeDeg inputs) (longitudeDeg inputs)
    (fixedLocalTime (Rmin 23 (Rmax 0 (hh (timeMode inputs))))
                    (Rmin 59 (Rmax 0 (mm (timeMode inputs)))))
    (tzOffsetHours inputs) (year inputs).

(** Scenario A: the equator, clock time 12:00 on the zone meridian, 2024. *)
Definition equatorNoon2024 : AnalemmaInputs R :=
  mkInputs 0 0 (fixedLocalTime 12 0) 0 (Some 2024%Z).

(** The inset at a clock time of 24:00. *)
Definition midnight24 : AnalemmaInputs R :=
  mkInputs 0 0 (fixedLocalTime 24 0) 0 (Some 2024%Z).

(** The callers' padding constants with a one-unit minimum span, on a
    single observed point. *)
Definition pointParams : ScalerParams R :=
  mkParams 0 0 0 0 200 100 (1 / 10) (1 / 10) (5 / 100) 1.

(** Scenario D with the callers' padding constants. *)
Definition scenarioD : ScalerParams R :=
  mkParams (-1) 1 0 1 200 100 (1 / 10) (1 / 10) (5 / 100) (1 / 1000000).
End RealAux.

(** Binary64 samples for 13 June 2024, day 165 of 366. *)
Module Day165.
(** A library sampled at the two angles one day needs: [at_g] at [g],
    [at_2g] at every other argument. *)
Definition sampled (g at_g at_2g : float) (x : float) : float :=
  if PrimFloat.eqb x g then at_g else at_2g.

(** The orbital angle of the day; [gamma] calls neither library function. *)
Definition g : float :=
  @gamma float (Binary64.number (fun x => x) (fun x => x)) 366 165.

(** The doubles nearest to the sine and cosine of [g] and of [2 * g]:
    0.31228055688579476, -0.949989922994501, -0.5933267643772321 and
    0.8049617075821959. *)
Definition sin_g : float := 0x1.3fc6796c012f1p-2%float.
Definition cos_g : float := (-0x1.e665144594f62p-1)%float.
Definition sin_2g : float := (-0x1.2fc88691aef49p-1)%float.
Definition cos_2g : float := 0x1.9c23f0e13218fp-1%float.

Definition number (s1 c1 s2 c2 : float) : Number float :=
  Binary64.number (sampled g s1 s2) (sampled g c1 c2).

(** The doubles within two units in the last place of [x]. *)
Definition near (x : float) : list float :=
  [PrimFloat.next_down (PrimFloat.next_down x); PrimFloat.next_down x; x;
   PrimFloat.next_up x; PrimFloat.next_up (PrimFloat.next_up x)].

(** Does [eotMinutes] of [computeEquationOfTime] equal [eotMin] of
    [computeAnalemmaPoints] on day 165? *)
Definition splitAgrees (s1 c1 s2 c2 : float) : bool :=
  let M := number s1 c1 s2 c2 in
  PrimFloat.eqb (EotPoint.eotMinutes (@eotPoint float M 2024 366 165))
                (@eotMin float M (@gamma float M 366 165)).
End Day165.

(* ------------------------------------------------------------------ *)
(** ** The rest of the binary64 model: [%], [Math.max], [Math.min]

    [Math.asin] and [Math.atan2] are parameters, as [Math.sin] and
    [Math.cos] are. *)

Module Binary64Lib.

(** [x % y] on doubles: the remainder of the truncating division, which
    is exact and has the sign of the dividend.  Both operands are scaled
    to integers with the smaller of the two exponents. *)
Definition fmod (x y : float) : float :=
  match Prim2SF x, Prim2SF y with
  | S754_nan, _ => PrimFloat.nan
  | _, S754_nan => PrimFloat.nan
  | S754_infinity _, _ => PrimFloat.nan
  | _, S754_zero _ => PrimFloat.nan
  | S754_zero _, _ => x
  | S754_finite _ _ _, S754_infinity _ => x
  | S754_finite sx mx ex, S754_finite _ my ey =>
      let e := Z.min ex ey in
      let r := Z.rem (Zpos mx * 2 ^ (ex - e)) (Zpos my * 2 ^ (ey - e)) in
      let v := Z.ldexp (Binary64.from_Z r) e in
      if sx then PrimFloat.opp v else v
  end.

(** [Math.max] and [Math.min]: NaN if an argument is NaN, and -0 below
    +0. *)
Definition max (x y : float) : float :=
  if PrimFloat.is_nan x || PrimFloat.is_nan y then PrimFloat.nan
  else if PrimFloat.ltb x y then y
  else if PrimFloat.ltb y x then x
  else if PrimFloat.get_sign x then y else x.

Definition min (x y : float) : float :=
  if PrimFloat.is_nan x || PrimFloat.is_nan y then PrimFloat.nan
  else if PrimFloat.ltb x y then x
  else if PrimFloat.ltb y x then y
  else if PrimFloat.get_sign x then x else y.

Section Libm.
Variables libm_sin libm_cos libm_asin : float -> float.
Variable libm_atan2 : float -> float -> float.

Definition numberLib : @NumberLib float (Binary64.number libm_sin libm_cos) := {|
  rem := fmod;
  ltb := PrimFloat.ltb;
  Math_max := max;
  Math_min := min;
  Math_asin := libm_asin;
  Math_atan2 := libm_atan2
|}.
End Libm.
End Binary64Lib.

(** A JavaScript object passed as a time mode, as the code reads it: the
    fields [hh] and [mm] may be missing, and a missing field reads as
    [undefined].  The code never reads [kind]; it uses [hh] and [mm] only
    in arithmetic ([Math.max(0, hh)], [hh * 60 + mm]), where
    [undefined] is converted to NaN. *)
Record TimeModeObject : Type := mkTimeModeObject {
  objKind : string;
  objHh : option float;
  objMm : option float
}.

Definition ToNumber (v : option float) : float :=
  match v with
  | Some x => x
  | None => PrimFloat.nan
  end.

Definition asTimeMode (o : TimeModeObject) : TimeMode float :=
  fixedLocalTime (ToNumber (objHh o)) (ToNumber (objMm o)).

(** [{ kind: 'solarNoon' }], the time mode that [test-analemma.js]
    passes. *)
Definition solarNoonObject : TimeModeObject :=
  mkTimeModeObject "solarNoon" None None.

(** Does the equation of time of [computeAnalemmaInset], with both
    components, equal [eotMin] of [computeAnalemmaPoints] on day 165? *)
Definition insetAgreesOnDay165 (s1 c1 s2 c2 : float) : bool :=
  let M := Day165.number s1 c1 s2 c2 in
  PrimFloat.eqb (@insetEotMin float M true true (@gamma float M 366 165))
                (@eotMin float M (@gamma float M 366 165)).

(* ------------------------------------------------------------------ *)
(** ** More of the number interface: what the scripts and the callers use *)

Class NumberUI (num : Type) `{NumberLib num} : Type := {
  leb : num -> num -> bool;
  Math_round : num -> num;
  Math_floor : num -> num;
  Math_abs : num -> num;
  Math_tan : num -> num
}.
Arguments NumberUI num {_ _}.

Notation "x <=? y" := (leb x y) : js_scope.
Notation "x >=? y" := (leb y x) : js_scope.

Module RealUI.
Local Open Scope R_scope.

Definition lesseqb (x y : R) : bool := if Rle_dec x y then true else false.

(** [Math.floor] and [Math.round] (halves go up). *)
Definition floor (x : R) : R := IZR (Int_part x).
Definition round (x : R) : R := IZR (Int_part (x + 1 / 2)).

#[global] Instance numberUI : NumberUI R := {|
  leb := lesseqb;
  Math_round := round;
  Math_floor := floor;
  Math_abs := Rabs;
  Math_tan := tan
|}.
End RealUI.

(* ------------------------------------------------------------------ *)
(** ** [test-bangkok-fixed.js]: the script beside the module

    One row per iteration of [for (let n = 1; n <= 365; n += 30)]: the four
    numbers the script prints (before [toFixed]).  The declination and
    equation-of-time expressions of the script are, token for token, those
    of [computeAnalemmaPoints], so [decl] and [eotMin] are used for them. *)

Record ScriptRow (num : Type) : Type := mkRow {
  rowDeclDeg : num;
  rowH_deg : num;
  rowAltitudeDeg : num;
  rowA : num
}.

Section TestBangkokFixed.
Context {num : Type} `{NumberUI num}.
Local Open Scope js_scope.

(** [const phi = deg2rad(13.7524938)] and [const baseHours = 12] *)
Definition scriptPhi : num := deg2rad (dec 137524938 7).
Definition baseHours : num := of_Z 12.

(** The body of the loop; [fixed] tells the script with the added 180
    degrees from the one without ([const A = normalizeDeg(azFromSouth)]). *)
Definition scriptRow (fixed : bool) (n : Z) : ScriptRow num :=
  let gamma := (of_Z 2 * Math_PI / of_Z 365) * (of_Z n - of_Z 1 + dec 5 1) in
  let decl := decl gamma in
  let eotMin := eotMin gamma in
  let H_deg := of_Z 15 * (baseHours - of_Z 12) - (eotMin / of_Z 4) in
  let H := deg2rad H_deg in
  let sin_h := Math_sin scriptPhi * Math_sin decl
               + Math_cos scriptPhi * Math_cos decl * Math_cos H in
  let h := Math_asin (Math_max (- of_Z 1) (Math_min (of_Z 1) sin_h)) in
  let altitudeDeg := rad2deg h in
  let sinH := Math_sin H in
  let cosH := Math_cos H in
  let sinPhi := Math_sin scriptPhi in
  let cosPhi := Math_cos scriptPhi in
  let tanDecl := Math_tan decl in
  let y := sinH in
  let x := cosH * sinPhi - tanDecl * cosPhi in
  let azFromSouth := rad2deg (Math_atan2 y x) in
  let A := if fixed then normalizeDeg (azFromSouth + of_Z 180)
           else normalizeDeg azFromSouth in
  mkRow (rad2deg decl) H_deg altitudeDeg A.

(** The values of [n]: 1, 31, ..., 361. *)
Definition scriptDays : list Z := map (fun k => 1 + 30 * Z.of_nat k)%Z (seq 0 13).
End TestBangkokFixed.

(* ------------------------------------------------------------------ *)
(** ** The callers in the application *)

Section Callers.
Context {num : Type} `{NumberUI num}.
Local Open Scope js_scope.

(** [function clamp(n, min, max)] *)
Definition clamp (n min max : num) : num := Math_min max (Math_max min n).

(** [azLabelFor] and [unwrapAz] of the azimuth-altitude view *)
Definition azLabelFor (azUnwrappedDeg : num) : num :=
  let norm := rem (rem azUnwrappedDeg (of_Z 360) + of_Z 360) (of_Z 360) in
  norm.

Definition unwrapAz (refAz azDeg : num) : num :=
  let d := rem (azDeg - refAz + of_Z 540) (of_Z 360) - of_Z 180 in
  refAz + d.

Definition azimuthToDirection (az : num) : string :=
  let normalized := rem (rem az (of_Z 360) + of_Z 360) (of_Z 360) in
  if (normalized >=? dec 3375 1) || (normalized <? dec 225 1) then "North"
  else if (normalized >=? dec 225 1) && (normalized <? dec 675 1) then "Northeast"
  else if (normalized >=? dec 675 1) && (normalized <? dec 1125 1) then "East"
  else if (normalized >=? dec 1125 1) && (normalized <? dec 1575 1) then "Southeast"
  else if (normalized >=? dec 1575 1) && (normalized <? dec 2025 1) then "South"
  else if (normalized >=? dec 2025 1) && (normalized <? dec 2475 1) then "Southwest"
  else if (normalized >=? dec 2475 1) && (normalized <? dec 2925 1) then "West"
  else "Northwest".

(** [getTimeZoneOffset]; its [console.log] lines write text only and its
    [catch] branch is unreachable from arithmetic. *)
Definition getTimeZoneOffset (lat lon : num) : num :=
  let idealOffset := lon / of_Z 15 in
  let wholeHour := Math_round idealOffset in
  let halfHour := Math_floor idealOffset + dec 5 1 in
  let wholeHourDiff := Math_abs (idealOffset - wholeHour) in
  let halfHourDiff := Math_abs (idealOffset - halfHour) in
  let result :=
    if (halfHourDiff <? dec 1 1) && (halfHourDiff <? wholeHourDiff)
    then halfHour else wholeHour in
  Math_max (- of_Z 12) (Math_min (of_Z 14) result).

(** [xScale] and [yScale] of the East-Up view, over the domains of
    [computeEnuDomainsAspectLocked]. *)
Definition enuXScale (padding plotWidthPx : num) (eDomain : Domain num)
    (e : num) : num :=
  let span := Math_max (dec 1 6) (snd eDomain - fst eDomain) in
  padding + ((e - fst eDomain) / span) * plotWidthPx.

Definition enuYScale (padding plotHeightPx : num) (uDomain : Domain num)
    (u : num) : num :=
  let span := Math_max (dec 1 6) (snd uDomain - fst uDomain) in
  padding + (of_Z 1 - (u - fst uDomain) / span) * plotHeightPx.

(** The East-Up view: its padding, its plot box and the parameters it
    passes to the scaler. *)
Definition viewPadding : num := of_Z 40.
Definition viewPlotWidthPx (w : num) : num :=
  Math_max (of_Z 1) (w - of_Z 2 * viewPadding).
Definition viewPlotHeightPx (h : num) : num :=
  Math_max (of_Z 1) (h - of_Z 2 * viewPadding).

Definition enuViewParams (eMin eMax uMin uMax plotWidthPx plotHeightPx : num)
    : ScalerParams num :=
  mkParams eMin eMax uMin uMax plotWidthPx plotHeightPx
           (dec 1 1) (dec 1 1) (dec 5 2) (dec 1 6).

(** The inset of the equation-of-time chart: its box and its scales. *)
Definition insetWidth (w : num) : num := Math_min (w * dec 14 2) (of_Z 115).
Definition insetHeight (h : num) : num := Math_min (h * dec 28 2) (of_Z 115).
Definition insetX (w : num) : num := w - of_Z 50 - insetWidth w - of_Z 20.
Definition insetY (h : num) : num := h - of_Z 50 - insetHeight h - of_Z 5.

Definition insetXScale (insetX insetWidth : num) (eDomain : Domain num)
    (e : num) : num :=
  let eScaleMin := fst eDomain in
  let eScaleMax := snd eDomain in
  insetX + ((e - eScaleMin) / (eScaleMax - eScaleMin)) * insetWidth.

Definition insetYScale (insetY insetHeight : num) (uDomain : Domain num)
    (u : num) : num :=
  let uScaleMin := fst uDomain in
  let uScaleMax := snd uDomain in
  insetY + (of_Z 1 - (u - uScaleMin) / (uScaleMax - uScaleMin)) * insetHeight.

(** [project] of the polar view and of the sky dome, with its radius. *)
Definition domeRadius (w h padding : num) : num :=
  Math_max (of_Z 1) (Math_min w h / of_Z 2 - padding).

Definition project (cx cy R azDeg altDeg : num) : num * num :=
  let theta := (azDeg * Math_PI) / of_Z 180 in
  let r := R * (of_Z 1 - altDeg / of_Z 90) in
  let x := cx + r * Math_sin theta in
  let y := cy - r * Math_cos theta in
  (x, y).
End Callers.

(** The unit vector the camera-angle code rebuilds from a point's azimuth
    and altitude (the body of [for (const p of vis)]). *)
Section CameraVector.
Context {num : Type} `{NumberLib num}.
Local Open Scope js_scope.

Definition cameraVector (p : AnalemmaPoint.t num) : num * num * num :=
  let azRad := (AnalemmaPoint.azimuthDeg p * Math_PI) / of_Z 180 in
  let altRad := (AnalemmaPoint.altitudeDeg p * Math_PI) / of_Z 180 in
  let U := Math_sin altRad in
  let H := Math_cos altRad in
  let E := H * Math_sin azRad in
  let N := H * Math_cos azRad in
  (E, N, U).
End CameraVector.

(* ------------------------------------------------------------------ *)
(** ** The debug sink of [solar.ts]

    [_debugPrintedKeys] is the module-level [Set]; the console is the list
    of the payloads logged so far.  The environment says what
    [_debugEnabled] can read. *)

Inductive LocalStorage : Type :=
| storageUndefined
| storageThrows
| storageItem (analemmaDebug : option string).

Record DebugEnv : Type := mkDebugEnv {
  debugFlag : bool;
  localStorage : LocalStorage
}.

Definition _debugEnabled (env : DebugEnv) : bool :=
  if debugFlag env then true
  else match localStorage env with
       | storageUndefined => false
       | storageThrows => false
       | storageItem (Some v) => String.eqb v "1"
       | storageItem None => false
       end.

Record DebugState (A : Type) : Type := mkDebugState {
  _debugPrintedKeys : list string;
  console : list A
}.

Definition setHas (s : list string) (key : string) : bool :=
  existsb (String.eqb key) s.

Definition _debugOnce {A : Type} (env : DebugEnv) (key : string) (payload : A)
    (st : DebugState A) : DebugState A :=
  if negb (_debugEnabled env) then st
  else if setHas (_debugPrintedKeys st) key then st
  else mkDebugState (_debugPrintedKeys st ++ [key]) (console st ++ [payload]).

(** A run of calls, from the left. *)
Definition debugRun {A : Type} (env : DebugEnv) (calls : list (string * A))
    (st : DebugState A) : DebugState A :=
  fold_left (fun st call => _debugOnce env (fst call) (snd call) st) calls st.

(** The calls that are the first of their key after the keys in [seen]. *)
Fixpoint firstCalls {A : Type} (seen : list string) (calls : list (string * A))
    : list (string * A) :=
  match calls with
  | [] => []
  | call :: rest =>
      if setHas seen (fst call) then firstCalls seen rest
      else call :: firstCalls (seen ++ [fst call]) rest
  end.

(* ------------------------------------------------------------------ *)
(** ** Reading the dates back: [parseInt], [substring], [slice]

    Strings are ASCII here, as the dates are; the value is exact (a JS
    number is, up to 2^53), and [None] is [NaN]. *)

Section Parse.
Local Open Scope Z_scope.

Definition isWhiteSpace (c : ascii) : bool :=
  let n := Z.of_nat (nat_of_ascii c) in
  ((9 <=? n) && (n <=? 13)) || (n =? 32).

Fixpoint trimStart (s : string) : string :=
  match s with
  | String c t => if isWhiteSpace c then trimStart t else s
  | EmptyString => s
  end.

Definition digitValue (c : ascii) : option Z :=
  let n := Z.of_nat (nat_of_ascii c) in
  if (48 <=? n) && (n <=? 57) then Some (n - 48)
  else if (97 <=? n) && (n <=? 122) then Some (n - 87)
  else if (65 <=? n) && (n <=? 90) then Some (n - 55)
  else None.

(** The value of the longest prefix of digits of radix [R]. *)
Fixpoint parseDigits (R : Z) (acc : option Z) (s : string) : option Z :=
  match s with
  | String c t =>
      match digitValue c with
      | Some d =>
          if d <? R
          then parseDigits R (Some (R * match acc with Some a => a | None => 0 end + d)) t
          else acc
      | None => acc
      end
  | EmptyString => acc
  end.

Definition hasHexPrefix (s : string) : bool :=
  match s with
  | String "0" (String "x" _) => true
  | String "0" (String "X" _) => true
  | _ => false
  end.

(** [parseInt(s, radix)]; [radix = 0] stands for a missing radix. *)
Definition parseInt (s : string) (radix : Z) : option Z :=
  let S := trimStart s in
  let sign := match S with String "-" _ => -1 | _ => 1 end in
  let S := match S with
           | String "-" t => t
           | String "+" t => t
           | _ => S
           end in
  if negb (radix =? 0) && ((radix <? 2) || (36 <? radix)) then None
  else
    let stripPrefix := (radix =? 0) || (radix =? 16) in
    let R := if radix =? 0 then 10 else radix in
    let R' := if stripPrefix && hasHexPrefix S then 16 else R in
    let S' := if stripPrefix && hasHexPrefix S then substring 2 (String.length S) S else S in
    option_map (Z.mul sign) (parseDigits R' None S').

(** [s.substring(start, end)] and [s.slice(start, end)] for indices that
    are not negative. *)
Definition js_substring (s : string) (i j : nat) : string :=
  substring (Nat.min i j) (Nat.max i j - Nat.min i j) s.

Definition js_slice (s : string) (i j : nat) : string :=
  substring i (j - i) s.
End Parse.

(** [insetYear] of the equation-of-time chart. *)
Definition insetYear {num : Type} (currentYear : Z) (points : list (EotPoint.t num)) : Z :=
  match points with
  | [] => currentYear
  | p0 :: _ =>
      match parseInt (js_slice (EotPoint.dateISO p0) 0 4) 10 with
      | Some y => y
      | None => currentYear
      end
  end.

(** [month] and [day] as the label code of the East-Up view reads them. *)
Definition labelMonth {num : Type} (p : AnalemmaPoint.t num) : option Z :=
  parseInt (js_substring (AnalemmaPoint.dateISO p) 5 7) 0.
Definition labelDay {num : Type} (p : AnalemmaPoint.t num) : option Z :=
  parseInt (js_substring (AnalemmaPoint.dateISO p) 8 10) 0.

(** The position of a point of the main series, without its date. *)
Definition position {num : Type} (p : AnalemmaPoint.t num) : AnalemmaInsetPoint.t num :=
  AnalemmaInsetPoint.mk (AnalemmaPoint.azimuthDeg p) (AnalemmaPoint.altitudeDeg p)
    (AnalemmaPoint.visible p)
    (AnalemmaPoint.E p) (AnalemmaPoint.N p) (AnalemmaPoint.U p).

(** Equality test on parse results. *)
Definition optZ_eqb (a b : option Z) : bool :=
  match a, b with
  | Some x, Some y => (x =? y)%Z
  | None, None => true
  | _, _ => false
  end.


(** The eight compass points the code names, with their bearings in
    degrees. *)
Definition compassPoints : list (string * Z) :=
  [("North"%string, 0%Z); ("Northeast"%string, 45%Z); ("East"%string, 90%Z);
   ("Southeast"%string, 135%Z); ("South"%string, 180%Z);
   ("Southwest"%string, 225%Z); ("West"%string, 270%Z);
   ("Northwest"%string, 315%Z)].

(** The solar-noon time of the tooltip of the equation-of-time chart:
    its hour and its minute, before they are printed. *)
Section Tooltip.
Context {num : Type} `{NumberUI num}.
Local Open Scope js_scope.

Definition solarNoonHour (eot : num) : num :=
  of_Z 12 + Math_floor (eot / of_Z 60).
Definition solarNoonMin (eot : num) : num :=
  Math_abs (Math_round (rem eot (of_Z 60))).
End Tooltip.

(** The azimuth domain of the azimuth-altitude view, from the least and
    the greatest unwrapped azimuth: from [const azSpan] to the end of the
    [if (azDomainSpan < MIN_AZ_SPAN_DEG)] block. *)
Section AzimuthDomain.
Context {num : Type} `{NumberLib num}.
Local Open Scope js_scope.

Record AzDomain : Type := mkAzDomain {
  azDomainMin : num;
  azDomainMax : num;
  azDomainSpan : num
}.

Definition azimuthDomain (azMin azMax : num) : AzDomain :=
  let azSpan := Math_max (dec 1 6) (azMax - azMin) in
  let azPad := Math_max (of_Z 10) (azSpan * dec 15 2) in
  let azDomainMin := azMin - azPad in
  let azDomainMax := azMax + azPad in
  let azDomainSpan := Math_max (dec 1 6) (azDomainMax - azDomainMin) in
  let MIN_AZ_SPAN_DEG := of_Z 120 in
  if azDomainSpan <? MIN_AZ_SPAN_DEG then
    let mid := (azDomainMin + azDomainMax) / of_Z 2 in
    let azDomainMin := mid - MIN_AZ_SPAN_DEG / of_Z 2 in
    let azDomainMax := mid + MIN_AZ_SPAN_DEG / of_Z 2 in
    let azDomainSpan := Math_max (dec 1 6) (azDomainMax - azDomainMin) in
    mkAzDomain azDomainMin azDomainMax azDomainSpan
  else mkAzDomain azDomainMin azDomainMax azDomainSpan.

Definition azXScale (padding plotWidthPx : num) (d : AzDomain)
    (azUnwrappedDeg : num) : num :=
  padding + ((azUnwrappedDeg - azDomainMin d) / azDomainSpan d) * plotWidthPx.
End AzimuthDomain.

Unset Implicit Arguments.

(* ================================================================== *)
(** * Properties *)

(* ------------------------------------------------------------------ *)
(** ** The definitions on concrete inputs *)

Section Examples.
Local Open Scope Z_scope.

Example isLeapYear_examples :
  isLeapYear 2024 = true /\ isLeapYear 2023 = false /\
  isLeapYear 1900 = false /\ isLeapYear 2000 = true /\ isLeapYear (-4) = true.
Proof. repeat split; reflexivity. Qed.

Example dateFromDayOfYear_examples :
  dateFromDayOfYear 2024 60 = "2024-02-29"%string /\
  dateFromDayOfYear 2023 60 = "2023-03-01"%string /\
  dateFromDayOfYear 2023 365 = "2023-12-31"%string /\
  dateFromDayOfYear 999 1 = "999-01-01"%string /\
  dateFromDayOfYear (-5) 1 = "-5-01-01"%string /\
  dateFromDayOfYear 300000 1 = "NaN-NaN-NaN"%string.
Proof. repeat split; vm_compute; reflexivity. Qed.

Example isoDayOfYear_examples :
  isoDayOfYear 2024 60 = "2024-02-29"%string /\
  isoDayOfYear 2023 365 = "2023-12-31"%string.
Proof. split; vm_compute; reflexivity. Qed.

(** In binary64 [dec] yields the double that the decimal literal of the
    source denotes (the nearest one). *)
Local Set Warnings "-inexact-float".
Example binary64_literals :
  let lit := @dec float (Binary64.number (fun x => x) (fun x => x)) in
  lit 5 1%nat = 0.5%float /\
  lit 22918 2%nat = 229.18%float /\
  lit 6918 6%nat = 0.006918%float /\
  lit 399912 6%nat = 0.399912%float /\
  lit 70257 6%nat = 0.070257%float /\
  lit 6758 6%nat = 0.006758%float /\
  lit 907 6%nat = 0.000907%float /\
  lit 2697 6%nat = 0.002697%float /\
  lit 148 5%nat = 0.00148%float /\
  lit 75 6%nat = 0.000075%float /\
  lit 1868 6%nat = 0.001868%float /\
  lit 32077 6%nat = 0.032077%float /\
  lit 14615 6%nat = 0.014615%float /\
  lit 40849 6%nat = 0.040849%float.
Proof. cbv zeta. repeat split; vm_compute; reflexivity. Qed.

Example binary64_gamma : Day165.g = 0x1.6978d49a633bap+1%float.
Proof. vm_compute. reflexivity. Qed.
End Examples.

(* ------------------------------------------------------------------ *)
(** ** The loop *)

Section Loop.
Local Open Scope Z_scope.

Lemma loopDays_length (nDays : Z) : List.length (loopDays nDays) = Z.to_nat nDays.
Proof. unfold loopDays. rewrite length_map, length_seq. reflexivity. Qed.

Lemma loopDays_nth (nDays n : Z) :
  1 <= n <= nDays -> nth_error (loopDays nDays) (Z.to_nat (n - 1)) = Some n.
Proof.
  intros Hn. unfold loopDays.
  rewrite nth_error_map, nth_error_seq.
  destruct (Nat.ltb_spec (Z.to_nat (n - 1)) (Z.to_nat nDays)) as [_ | Hge]; [|lia].
  cbn [option_map]. f_equal. lia.
Qed.

Lemma loop_nth {A : Type} (body : Z -> A) (nDays n : Z) :
  1 <= n <= nDays ->
  nth_error (map body (loopDays nDays)) (Z.to_nat (n - 1)) = Some (body n).
Proof.
  intros Hn. rewrite nth_error_map, loopDays_nth by assumption. reflexivity.
Qed.

Lemma loop_length {A : Type} (body : Z -> A) (nDays : Z) :
  0 <= nDays -> Z.of_nat (List.length (map body (loopDays nDays))) = nDays.
Proof. intros Hn. rewrite length_map, loopDays_length. lia. Qed.

Lemma Zrange_forallb (P : Z -> bool) (lo len : Z) :
  0 <= lo ->
  forallb P (Zrange lo len) = true ->
  forall z, lo <= z < lo + len -> P z = true.
Proof.
  intros Hlo HP z Hz. rewrite forallb_forall in HP. apply HP.
  apply in_map_iff. exists (Z.to_nat z). split; [lia|].
  apply in_seq. lia.
Qed.
End Loop.

(* ------------------------------------------------------------------ *)
(** ** The calendar *)

Section Calendar.
Local Open Scope Z_scope.

Lemma daysInYear_cases (y : Z) : daysInYear y = 365 \/ daysInYear y = 366.
Proof. unfold daysInYear. destruct (isLeapYear y); auto. Qed.

Lemma DaysInYear_diff (y : Z) :
  JSDate.DayFromYear (y + 1) - JSDate.DayFromYear y = JSDate.DaysInYear y.
Proof.
  unfold JSDate.DayFromYear, JSDate.DaysInYear.
  destruct (y mod 4 =? 0) eqn:E4; destruct (y mod 100 =? 0) eqn:E100;
  destruct (y mod 400 =? 0) eqn:E400; cbn [negb];
  rewrite ?Z.eqb_eq, ?Z.eqb_neq in *; Z.div_mod_to_equations; lia.
Qed.

(** [YearFromDay] meets the definition of [YearFromTime]: it is the year
    whose days contain [d]. *)
Lemma YearFromDay_spec (y d : Z) :
  JSDate.DayFromYear y <= d < JSDate.DayFromYear (y + 1) ->
  JSDate.YearFromDay d = y.
Proof.
  unfold JSDate.YearFromDay, JSDate.DayFromYear. intros Hd.
  cbv zeta.
  match goal with |- context [d <? ?b] => destruct (Z.ltb_spec d b) end.
  - Z.div_mod_to_equations; lia.
  - match goal with |- context [?a <=? d] => destruct (Z.leb_spec a d) end;
      Z.div_mod_to_equations; lia.
Qed.

(** [YearFromDay d] is the largest year that starts on or before [d]. *)
Lemma YearFromDay_largest (d : Z) :
  JSDate.DayFromYear (JSDate.YearFromDay d) <= d /\
  forall y : Z, JSDate.DayFromYear y <= d -> y <= JSDate.YearFromDay d.
Proof.
  assert (Hmono : forall a b : Z,
             a <= b -> JSDate.DayFromYear a <= JSDate.DayFromYear b).
  { intros a b Hab. unfold JSDate.DayFromYear. Z.div_mod_to_equations. lia. }
  assert (Hin : JSDate.DayFromYear (JSDate.YearFromDay d) <= d
                < JSDate.DayFromYear (JSDate.YearFromDay d + 1)).
  { unfold JSDate.YearFromDay, JSDate.DayFromYear. cbv zeta.
    match goal with |- context [d <? ?b] => destruct (Z.ltb_spec d b) end.
    - Z.div_mod_to_equations; lia.
    - match goal with |- context [?a <=? d] => destruct (Z.leb_spec a d) end;
        Z.div_mod_to_equations; lia. }
  split; [lia|]. intros y Hy.
  destruct (Z.le_gt_cases y (JSDate.YearFromDay d)) as [Hle | Hgt];
    [exact Hle|].
  pose proof (Hmono (JSDate.YearFromDay d + 1) y ltac:(lia)). lia.
Qed.

Lemma rem_mod_zero (y k : Z) : 0 < k -> (Z.rem y k =? 0) = (y mod k =? 0).
Proof.
  intros Hk. apply eq_true_iff_eq.
  rewrite !Z.eqb_eq, Z.rem_divide, Z.mod_divide by lia. tauto.
Qed.

Lemma gregorianLeap_isLeapYear (y : Z) :
  IsoCalendar.gregorianLeap y = isLeapYear y.
Proof.
  unfold IsoCalendar.gregorianLeap, isLeapYear.
  rewrite !rem_mod_zero by lia. reflexivity.
Qed.

Lemma daysInYear_DaysInYear (y : Z) : daysInYear y = JSDate.DaysInYear y.
Proof.
  unfold daysInYear, isLeapYear, JSDate.DaysInYear.
  rewrite !rem_mod_zero by lia.
  destruct (y mod 4 =? 0) eqn:E4; destruct (y mod 100 =? 0) eqn:E100;
  destruct (y mod 400 =? 0) eqn:E400; cbn [negb andb orb]; try reflexivity;
  rewrite ?Z.eqb_eq, ?Z.eqb_neq in *; exfalso; Z.div_mod_to_equations; lia.
Qed.

Lemma DayFromYear_bounds (y : Z) :
  -270000 <= y <= 270000 -> -99400000 <= JSDate.DayFromYear y <= 99400000.
Proof. unfold JSDate.DayFromYear. intros. Z.div_mod_to_equations. lia. Qed.

Lemma Day_of_days (D : Z) : JSDate.Day (D * JSDate.msPerDay) = D.
Proof. unfold JSDate.Day, JSDate.msPerDay. apply Z.div_mul. lia. Qed.

Lemma TimeWithinDay_of_days (D : Z) :
  JSDate.TimeWithinDay (D * JSDate.msPerDay) = 0.
Proof. unfold JSDate.TimeWithinDay, JSDate.msPerDay. apply Z.mod_mul. lia. Qed.

Lemma TimeClip_days (D : Z) :
  -100000000 <= D <= 100000000 ->
  JSDate.TimeClip (D * JSDate.msPerDay) = Some (D * JSDate.msPerDay).
Proof.
  intros HD. unfold JSDate.TimeClip, JSDate.msPerDay.
  destruct (Z.gtb_spec (Z.abs (D * 86400000)) 8640000000000000);
    [lia | reflexivity].
Qed.

(** What [dateFromDayOfYear] renders: the day [day - 1] days from the first
    day of [year], whatever [day] is. *)
Lemma dateFromDayOfYear_render (year day : Z) :
  plainYear year -> -500000 <= day <= 500000 ->
  dateFromDayOfYear year day =
  renderDate (Some ((JSDate.DayFromYear year + day - 1) * JSDate.msPerDay)).
Proof.
  intros [Hleg Hrange] Hday.
  pose proof (DayFromYear_bounds year Hrange) as HD.
  pose proof (DaysInYear_diff year) as Hdiff.
  pose proof (daysInYear_cases year) as Hcases.
  rewrite daysInYear_DaysInYear in Hcases.
  unfold dateFromDayOfYear.
  fold (renderDate (JSDate.setUTCDate (JSDate.new (JSDate.UTC year 0 1)) day)).
  f_equal.
  assert (HU : JSDate.UTC year 0 1 =
               Some (JSDate.DayFromYear year * JSDate.msPerDay)).
  { unfold JSDate.UTC, JSDate.MakeFullYear, JSDate.MakeDay, JSDate.MakeDate.
    replace ((0 <=? year) && (year <=? 99)) with false
      by (symmetry; apply andb_false_iff; rewrite Z.leb_gt, Z.leb_gt; lia).
    cbv zeta. change (0 / 12) with 0. change (0 mod 12) with 0.
    cbn [JSDate.monthStart].
    rewrite (Z.add_0_r year).
    replace (JSDate.DayFromYear year + 0 + 1 - 1)
      with (JSDate.DayFromYear year) by lia.
    rewrite Z.add_0_r. apply TimeClip_days. lia. }
  rewrite HU. unfold JSDate.new. rewrite TimeClip_days by lia.
  unfold JSDate.setUTCDate.
  assert (HY : JSDate.YearFromTime (JSDate.DayFromYear year * JSDate.msPerDay)
               = year).
  { unfold JSDate.YearFromTime. rewrite Day_of_days.
    apply YearFromDay_spec. lia. }
  assert (HM : JSDate.MonthFromTime (JSDate.DayFromYear year * JSDate.msPerDay)
               = 0).
  { unfold JSDate.MonthFromTime, JSDate.DayWithinYear.
    rewrite HY, Day_of_days, Z.sub_diag.
    unfold JSDate.monthOfDay. reflexivity. }
  rewrite HY, HM, TimeWithinDay_of_days.
  unfold JSDate.MakeDay, JSDate.MakeDate. cbv zeta.
  change (0 / 12) with 0. change (0 mod 12) with 0. cbn [JSDate.monthStart].
  rewrite !Z.add_0_r. apply TimeClip_days. lia.
Qed.

Lemma renderDate_in_year (year k : Z) :
  -270000 <= year <= 270000 -> 0 <= k < daysInYear year ->
  renderDate (Some ((JSDate.DayFromYear year + k) * JSDate.msPerDay)) =
  (String_of (Some year) ++ "-" ++
   padStart (String_of (Some (monthOfK (isLeapYear year) k))) 2 "0" ++ "-" ++
   padStart (String_of (Some (dayOfK (isLeapYear year) k))) 2 "0")%string.
Proof.
  intros Hy Hk.
  pose proof (DaysInYear_diff year) as Hdiff.
  rewrite <- daysInYear_DaysInYear in Hdiff.
  set (t := (JSDate.DayFromYear year + k) * JSDate.msPerDay).
  assert (HY : JSDate.YearFromTime t = year).
  { unfold JSDate.YearFromTime, t. rewrite Day_of_days.
    apply YearFromDay_spec. lia. }
  assert (HW : JSDate.DayWithinYear t = k).
  { unfold JSDate.DayWithinYear. rewrite HY. unfold t.
    rewrite Day_of_days. lia. }
  assert (HL : JSDate.InLeapYear t = leapFlag (isLeapYear year)).
  { unfold JSDate.InLeapYear. rewrite HY, <- daysInYear_DaysInYear.
    unfold daysInYear. destruct (isLeapYear year); reflexivity. }
  unfold renderDate, JSDate.getUTCFullYear, JSDate.getUTCMonth,
    JSDate.getUTCDate.
  cbn [option_map]. cbv zeta.
  unfold JSDate.DateFromTime, JSDate.MonthFromTime. rewrite HY, HW, HL.
  reflexivity.
Qed.

Lemma stepOK_all (b : bool) (k : Z) :
  0 <= k -> k + 1 < (if b then 366 else 365) -> stepOK b k = true.
Proof.
  intros H0 H1. destruct b.
  - apply (Zrange_forallb (stepOK true) 0 365);
      [lia | vm_compute; reflexivity | lia].
  - apply (Zrange_forallb (stepOK false) 0 364);
      [lia | vm_compute; reflexivity | lia].
Qed.

(** Counting days from 1 January stays on the table of the code. *)
Lemma addDays_in_year (year : Z) (k : nat) :
  Z.of_nat k < daysInYear year ->
  IsoCalendar.addDays k (IsoCalendar.mkDate year 1 1) =
  IsoCalendar.mkDate year (monthOfK (isLeapYear year) (Z.of_nat k))
                          (dayOfK (isLeapYear year) (Z.of_nat k)).
Proof.
  induction k as [|k IH]; intros Hk.
  - destruct (isLeapYear year); reflexivity.
  - cbn [IsoCalendar.addDays]. rewrite IH by lia.
    unfold IsoCalendar.nextDay.
    cbn [IsoCalendar.y IsoCalendar.m IsoCalendar.d].
    rewrite gregorianLeap_isLeapYear.
    assert (Hs : stepOK (isLeapYear year) (Z.of_nat k) = true).
    { apply stepOK_all; [lia|]. unfold daysInYear in Hk.
      destruct (isLeapYear year); lia. }
    unfold stepOK in Hs. cbv zeta in Hs.
    replace (Z.of_nat (S k)) with (Z.of_nat k + 1) by lia.
    destruct (dayOfK (isLeapYear year) (Z.of_nat k) <?
              IsoCalendar.monthLength (isLeapYear year)
                (monthOfK (isLeapYear year) (Z.of_nat k))).
    + apply andb_true_iff in Hs. destruct Hs as [Hm Hd].
      apply Z.eqb_eq in Hm, Hd. rewrite Hm, Hd. reflexivity.
    + apply andb_true_iff in Hs. destruct Hs as [Hs Hd].
      apply andb_true_iff in Hs. destruct Hs as [Hlt Hm].
      rewrite Hlt. apply Z.eqb_eq in Hm, Hd. rewrite Hm, Hd. reflexivity.
Qed.

Lemma iso8601_pads (dt : IsoCalendar.date) :
  IsoCalendar.iso8601 dt =
  (pad4 (IsoCalendar.y dt) ++ "-" ++ pad2 (IsoCalendar.m dt) ++ "-" ++
   pad2 (IsoCalendar.d dt))%string.
Proof. reflexivity. Qed.

Lemma String_of_pad4 (v : Z) : 1000 <= v <= 9999 -> String_of (Some v) = pad4 v.
Proof.
  intros Hv. apply String.eqb_eq.
  apply (Zrange_forallb
           (fun v => String.eqb (String_of (Some v)) (pad4 v)) 1000 9000);
    [lia | vm_compute; reflexivity | lia].
Qed.

Lemma padStart_pad2 (v : Z) :
  0 <= v <= 99 -> padStart (String_of (Some v)) 2 "0" = pad2 v.
Proof.
  intros Hv. apply String.eqb_eq.
  apply (Zrange_forallb
           (fun v => String.eqb (padStart (String_of (Some v)) 2 "0") (pad2 v))
           0 100);
    [lia | vm_compute; reflexivity | lia].
Qed.

Lemma monthOfK_dayOfK_range (b : bool) (k : Z) :
  0 <= k < (if b then 366 else 365) ->
  1 <= monthOfK b k <= 12 /\ 1 <= dayOfK b k <= 31.
Proof.
  intros Hk.
  set (P := fun b k => (1 <=? monthOfK b k) && (monthOfK b k <=? 12) &&
                       (1 <=? dayOfK b k) && (dayOfK b k <=? 31)).
  assert (HP : P b k = true).
  { destruct b.
    - apply (Zrange_forallb (P true) 0 366);
        [lia | vm_compute; reflexivity | lia].
    - apply (Zrange_forallb (P false) 0 365);
        [lia | vm_compute; reflexivity | lia]. }
  unfold P in HP. rewrite !andb_true_iff, !Z.leb_le in HP. lia.
Qed.

(** In range, and for a year of four digits, the code renders the date
    of the specification. *)
Lemma dateFromDayOfYear_iso (year n : Z) :
  1000 <= year <= 9999 -> 1 <= n <= daysInYear year ->
  dateFromDayOfYear year n = isoDayOfYear year n.
Proof.
  intros Hy Hn. unfold isoDayOfYear.
  pose proof (daysInYear_cases year) as Hc.
  rewrite dateFromDayOfYear_render by (unfold plainYear; lia).
  replace (JSDate.DayFromYear year + n - 1)
    with (JSDate.DayFromYear year + (n - 1)) by lia.
  rewrite renderDate_in_year by lia.
  rewrite addDays_in_year by lia.
  rewrite Z2Nat.id by lia.
  rewrite iso8601_pads. cbn [IsoCalendar.y IsoCalendar.m IsoCalendar.d].
  destruct (monthOfK_dayOfK_range (isLeapYear year) (n - 1)) as [Hm Hd].
  { unfold daysInYear in Hn. destruct (isLeapYear year); lia. }
  rewrite String_of_pad4 by lia.
  rewrite !padStart_pad2 by lia.
  reflexivity.
Qed.

Lemma addDays_plus (a b : nat) (dt : IsoCalendar.date) :
  IsoCalendar.addDays (a + b) dt = IsoCalendar.addDays a (IsoCalendar.addDays b dt).
Proof.
  induction a as [|a IH]; [reflexivity|].
  cbn [Nat.add IsoCalendar.addDays]. rewrite IH. reflexivity.
Qed.

Lemma addDays_whole_year (year : Z) :
  IsoCalendar.addDays (Z.to_nat (daysInYear year)) (IsoCalendar.mkDate year 1 1) =
  IsoCalendar.mkDate (year + 1) 1 1.
Proof.
  pose proof (daysInYear_cases year) as Hc.
  replace (Z.to_nat (daysInYear year)) with (S (Z.to_nat (daysInYear year - 1)))
    by lia.
  cbn [IsoCalendar.addDays]. rewrite addDays_in_year by lia.
  rewrite Z2Nat.id by lia.
  unfold IsoCalendar.nextDay. cbn [IsoCalendar.y IsoCalendar.m IsoCalendar.d].
  rewrite gregorianLeap_isLeapYear. unfold daysInYear.
  destruct (isLeapYear year); reflexivity.
Qed.

(** Counting past 31 December continues in the next year. *)
Lemma isoDayOfYear_next (year n : Z) :
  1 <= n ->
  isoDayOfYear year (daysInYear year + n) = isoDayOfYear (year + 1) n.
Proof.
  intros Hn. pose proof (daysInYear_cases year) as Hc. unfold isoDayOfYear.
  replace (Z.to_nat (daysInYear year + n - 1))
    with (Z.to_nat (n - 1) + Z.to_nat (daysInYear year))%nat by lia.
  rewrite addDays_plus, addDays_whole_year. reflexivity.
Qed.

(** A day past the end of the year is a day of the next year; a day
    before its start is a day of the previous year. *)
Lemma dateFromDayOfYear_next (year n : Z) :
  plainYear year -> plainYear (year + 1) -> 1 <= n <= daysInYear (year + 1) ->
  dateFromDayOfYear year (daysInYear year + n) = dateFromDayOfYear (year + 1) n.
Proof.
  intros Hy Hy1 Hn.
  pose proof (daysInYear_cases year) as Hc.
  pose proof (daysInYear_cases (year + 1)) as Hc1.
  rewrite !dateFromDayOfYear_render by (assumption || lia).
  pose proof (DaysInYear_diff year) as Hdiff.
  rewrite <- daysInYear_DaysInYear in Hdiff.
  do 3 f_equal. lia.
Qed.

Lemma dateFromDayOfYear_previous (year n : Z) :
  plainYear year -> plainYear (year - 1) -> 1 <= n <= daysInYear (year - 1) ->
  dateFromDayOfYear year (n - daysInYear (year - 1)) =
  dateFromDayOfYear (year - 1) n.
Proof.
  intros Hy Hy1 Hn.
  pose proof (daysInYear_cases year) as Hc.
  pose proof (daysInYear_cases (year - 1)) as Hc1.
  rewrite !dateFromDayOfYear_render by (assumption || lia).
  pose proof (DaysInYear_diff (year - 1)) as Hdiff.
  rewrite <- daysInYear_DaysInYear in Hdiff.
  replace (year - 1 + 1) with year in Hdiff by lia.
  do 3 f_equal. lia.
Qed.
End Calendar.

(* ------------------------------------------------------------------ *)
(** ** Real arithmetic: the remainder *)

Section RealArith.
Local Open Scope R_scope.

Lemma Int_part_bounds (x : R) : IZR (Int_part x) <= x < IZR (Int_part x) + 1.
Proof. destruct (base_Int_part x). lra. Qed.

Lemma Int_part_unique (x : R) (z : Z) :
  IZR z <= x < IZR z + 1 -> Int_part x = z.
Proof. intros Hz. symmetry. apply Int_part_spec. lra. Qed.

Lemma trunc_nonneg (x : R) : 0 <= x -> Real.trunc x = Int_part x.
Proof.
  intros Hx. unfold Real.trunc.
  destruct (Rle_dec 0 x); [reflexivity | contradiction].
Qed.

Lemma trunc_unit (x : R) (z : Z) :
  (0 <= z)%Z -> IZR z <= x < IZR z + 1 -> Real.trunc x = z.
Proof.
  intros Hz Hx. rewrite trunc_nonneg.
  - apply Int_part_unique. exact Hx.
  - apply IZR_le in Hz. lra.
Qed.

Lemma div_unit_interval (x m lo : R) :
  0 < m -> lo * m <= x < (lo + 1) * m -> lo <= x / m < lo + 1.
Proof.
  intros Hm Hx. split.
  - apply (Rmult_le_reg_r m); [lra|].
    unfold Rdiv. rewrite Rmult_assoc, Rinv_l by lra. lra.
  - apply (Rmult_lt_reg_r m); [lra|].
    unfold Rdiv. rewrite Rmult_assoc, Rinv_l by lra. lra.
Qed.

Lemma Rmodulo_range (x m : R) : 0 < m -> 0 <= Rmodulo x m < m.
Proof.
  intros Hm. unfold Rmodulo.
  pose proof (Int_part_bounds (x / m)) as [Hlo Hhi].
  assert (Hx : x = m * (x / m)) by (field; lra).
  split; nra.
Qed.

Lemma Rmodulo_unique (x m r : R) (j : Z) :
  0 < m -> r = x - m * IZR j -> 0 <= r < m -> r = Rmodulo x m.
Proof.
  intros Hm Hr Hrange. unfold Rmodulo.
  replace (Int_part (x / m)) with j; [exact Hr|].
  symmetry. apply Int_part_unique.
  assert (Hx : x / m = r / m + IZR j) by (subst r; field; lra).
  rewrite Hx.
  pose proof (div_unit_interval r m 0 Hm) as Hq.
  lra.
Qed.

(** [x % m] is [x] less a multiple of [m], keeps the sign of [x] and is
    smaller than [m] in magnitude. *)
Lemma fmod_spec (x m : R) :
  0 < m ->
  exists j : Z, Real.fmod x m = x - m * IZR j /\
    ((0 <= x /\ 0 <= Real.fmod x m < m) \/
     (x < 0 /\ - m < Real.fmod x m <= 0)).
Proof.
  intros Hm. unfold Real.fmod. exists (Real.trunc (x / m)).
  split; [reflexivity|].
  assert (Hx : x = m * (x / m)) by (field; lra).
  unfold Real.trunc. destruct (Rle_dec 0 (x / m)) as [Hq | Hq].
  - left. pose proof (Int_part_bounds (x / m)) as [Hlo Hhi].
    assert (0 <= x) by nra. split; [assumption|]. split; nra.
  - right. pose proof (Int_part_bounds (- (x / m))) as [Hlo Hhi].
    rewrite opp_IZR.
    assert (x < 0) by nra. split; [assumption|]. split; nra.
Qed.

Lemma fmod_small (x m : R) : 0 < m -> 0 <= x < m -> Real.fmod x m = x.
Proof.
  intros Hm Hx. unfold Real.fmod.
  rewrite (trunc_unit (x / m) 0); [simpl; lra | lia |].
  simpl. apply div_unit_interval; lra.
Qed.

Lemma fmod_once (x m : R) : 0 < m -> m <= x < 2 * m -> Real.fmod x m = x - m.
Proof.
  intros Hm Hx. unfold Real.fmod.
  rewrite (trunc_unit (x / m) 1); [simpl; lra | lia |].
  simpl. apply div_unit_interval; lra.
Qed.

(** The idiom [((x % m) + m) % m] is the mathematical remainder. *)
Lemma normalise_Rmodulo (x m : R) :
  0 < m -> Real.fmod (Real.fmod x m + m) m = Rmodulo x m.
Proof.
  intros Hm. destruct (fmod_spec x m Hm) as [j [Hj Hcase]].
  destruct Hcase as [[Hx Hr] | [Hx Hr]].
  - rewrite fmod_once by lra.
    apply (Rmodulo_unique x m _ j); [assumption | lra | lra].
  - destruct (Req_dec (Real.fmod x m) 0) as [Hz | Hnz].
    + rewrite fmod_once by lra.
      apply (Rmodulo_unique x m _ j); [assumption | lra | lra].
    + rewrite fmod_small by lra.
      apply (Rmodulo_unique x m _ (j - 1));
        [assumption | rewrite minus_IZR; lra | lra].
Qed.
End RealArith.

(* ------------------------------------------------------------------ *)
(** ** The code in the real model *)

Section RealModel.
Local Open Scope R_scope.

Lemma deg2rad_R (d : R) : deg2rad d = d * PI / 180.
Proof. reflexivity. Qed.

Lemma rad2deg_R (r : R) : rad2deg r = r * 180 / PI.
Proof. reflexivity. Qed.

Lemma normalizeDeg_R (d : R) : normalizeDeg d = Rmodulo d 360.
Proof. unfold normalizeDeg. cbn. apply normalise_Rmodulo. lra. Qed.


Lemma gamma_R (nDays n : Z) :
  gamma nDays n = (2 * PI / IZR nDays) * (IZR n - 1 + 0.5).
Proof. reflexivity. Qed.

Lemma decl_R (g : R) :
  decl g =
  0.006918 - 0.399912 * cos g + 0.070257 * sin g - 0.006758 * cos (2 * g)
  + 0.000907 * sin (2 * g) - 0.002697 * cos (3 * g) + 0.00148 * sin (3 * g).
Proof. reflexivity. Qed.

Lemma eotMin_R (g : R) :
  eotMin g =
  229.18 * (0.000075 + 0.001868 * cos g - 0.032077 * sin g
            - 0.014615 * cos (2 * g) - 0.040849 * sin (2 * g)).
Proof. reflexivity. Qed.

Lemma obliquityComponent_R (g : R) :
  obliquityComponent g =
  229.18 * (-0.032077 * sin g - 0.040849 * sin (2 * g)).
Proof.
  change (obliquityComponent g)
    with (229.18 * (- (0.032077) * sin g - 0.040849 * sin (2 * g))).
  lra.
Qed.

Lemma eccentricityComponent_R (g : R) :
  eccentricityComponent g =
  229.18 * (0.000075 + 0.001868 * cos g - 0.014615 * cos (2 * g)).
Proof. reflexivity. Qed.

Lemma trueSolarTimeMin_R (lcm eot lon tz : R) :
  trueSolarTimeMin lcm eot lon tz =
  Rmodulo (lcm + eot + 4 * (lon - 15 * tz)) 1440.
Proof.
  unfold trueSolarTimeMin. cbn. rewrite normalise_Rmodulo by lra.
  f_equal. ring.
Qed.

Lemma H_deg_R (lcm eot lon tz : R) :
  H_deg lcm eot lon tz =
  Rmodulo (lcm + eot + 4 * (lon - 15 * tz)) 1440 / 4 - 180.
Proof. unfold H_deg. rewrite trueSolarTimeMin_R. reflexivity. Qed.

Lemma ltb_R (x y : R) : (ltb x y = true) <-> x < y.
Proof.
  cbn. unfold Real.lessb.
  destruct (Rlt_dec x y); split; intros; auto; discriminate.
Qed.

Lemma horizontal_R (phi delta H : R) :
  let E := cos delta * sin H in
  let N := cos phi * sin delta - sin phi * cos delta * cos H in
  let U := sin phi * sin delta + cos phi * cos delta * cos H in
  let altitudeDeg := asin (Rmax (-1) (Rmin 1 U)) * 180 / PI in
  let azimuthDeg := Rmodulo (Real.atan2 E N * 180 / PI) 360 in
  horizontal phi delta H =
  mkHorizontal azimuthDeg altitudeDeg (Real.lessb 0 altitudeDeg) E N U.
Proof.
  intros E N U altitudeDeg azimuthDeg.
  unfold horizontal. rewrite normalizeDeg_R. reflexivity.
Qed.

Lemma sin_cos_unit (x : R) : sin x * sin x + cos x * cos x = 1.
Proof. pose proof (sin2_cos2 x) as H. unfold Rsqr in H. exact H. Qed.

Lemma unit_vector (sp cp sd cd sH cH : R) :
  sp * sp + cp * cp = 1 -> sd * sd + cd * cd = 1 -> sH * sH + cH * cH = 1 ->
  (cd * sH) * (cd * sH)
  + (cp * sd - sp * cd * cH) * (cp * sd - sp * cd * cH)
  + (sp * sd + cp * cd * cH) * (sp * sd + cp * cd * cH) = 1.
Proof.
  intros Hp Hd HH.
  replace ((cd * sH) * (cd * sH)
           + (cp * sd - sp * cd * cH) * (cp * sd - sp * cd * cH)
           + (sp * sd + cp * cd * cH) * (sp * sd + cp * cd * cH))
    with (cd * cd * (sH * sH + cH * cH * (sp * sp + cp * cp))
          + sd * sd * (sp * sp + cp * cp)) by ring.
  rewrite Hp, Rmult_1_r, HH, !Rmult_1_r. lra.
Qed.

Lemma degrees_of_quarter_turn (a : R) :
  - (PI / 2) <= a <= PI / 2 -> -90 <= a * 180 / PI <= 90.
Proof.
  intros [Hlo Hhi]. pose proof PI_RGT_0 as Hpi. split.
  - apply (Rmult_le_reg_r PI); [assumption|].
    unfold Rdiv. rewrite Rmult_assoc, Rinv_l by lra. lra.
  - apply (Rmult_le_reg_r PI); [assumption|].
    unfold Rdiv. rewrite Rmult_assoc, Rinv_l by lra. lra.
Qed.

(** Every horizontal position the transform returns is well formed. *)
Lemma horizontal_wellFormed (phi delta H : R) :
  let h := horizontal phi delta H in
  wellFormed (hAzimuthDeg h) (hAltitudeDeg h) (hVisible h) (hE h) (hN h) (hU h).
Proof.
  cbv zeta. rewrite horizontal_R.
  cbn [hAzimuthDeg hAltitudeDeg hVisible hE hN hU].
  unfold wellFormed. repeat split.
  - rewrite unit_vector by apply sin_cos_unit.
    rewrite Rminus_diag, Rabs_R0. lra.
  - apply degrees_of_quarter_turn, asin_bound.
  - apply degrees_of_quarter_turn, asin_bound.
  - apply Rmodulo_range. lra.
  - apply Rmodulo_range. lra.
  - unfold Real.lessb. destruct (Rlt_dec 0 _); [lra | discriminate].
  - intros Halt. unfold Real.lessb. destruct (Rlt_dec 0 _); [reflexivity | lra].
Qed.
End RealModel.

(* ------------------------------------------------------------------ *)
(** ** The aspect-locked scaler in the real model *)

Section Scaler.
Local Open Scope R_scope.

(** The function, case by case, in terms of the padded domains. *)
Lemma computeEnuDomainsAspectLocked_R (p : ScalerParams R) :
  let eSpan := Rmax (minSpan p) (width (paddedE p)) in
  let uSpan := Rmax (minSpan p) (width (paddedU p)) in
  let uSpanForE := eSpan * (safeHeight p / safeWidth p) in
  let eSpanForU := uSpan * (safeWidth p / safeHeight p) in
  computeEnuDomainsAspectLocked p =
  if Rlt_dec uSpan uSpanForE then
    mkDomains (paddedE p)
      (midpoint (paddedU p) - uSpanForE / 2,
       midpoint (paddedU p) + uSpanForE / 2)
  else if Rlt_dec eSpan eSpanForU then
    mkDomains
      (midpoint (paddedE p) - eSpanForU / 2,
       midpoint (paddedE p) + eSpanForU / 2)
      (paddedU p)
  else mkDomains (paddedE p) (paddedU p).
Proof.
  cbv zeta. unfold computeEnuDomainsAspectLocked. cbn.
  unfold Real.lessb, width, midpoint, paddedE, paddedU, paddedDomain,
    safeHeight, safeWidth.
  cbn [fst snd].
  repeat match goal with
         | |- context [Rlt_dec ?a ?b] => destruct (Rlt_dec a b)
         end; reflexivity.
Qed.

Lemma safe_positive (p : ScalerParams R) : 1 <= safeWidth p /\ 1 <= safeHeight p.
Proof. unfold safeWidth, safeHeight. split; apply Rmax_l. Qed.

Lemma aspect_ratio_balance (W Hh e u : R) :
  0 < W -> 0 < Hh -> ~ u < e * (Hh / W) -> ~ e < u * (W / Hh) ->
  e / W = u / Hh.
Proof.
  intros HW HH H1 H2.
  assert (Hu : e * (Hh / W) <= u) by lra.
  assert (He : u * (W / Hh) <= e) by lra.
  assert (Hu' : e / W <= u / Hh).
  { apply (Rmult_le_reg_r Hh); [assumption|].
    replace (u / Hh * Hh) with u by (field; lra).
    replace (e / W * Hh) with (e * (Hh / W)) by (field; lra). assumption. }
  assert (He' : u / Hh <= e / W).
  { apply (Rmult_le_reg_r W); [assumption|].
    replace (e / W * W) with e by (field; lra).
    replace (u / Hh * W) with (u * (W / Hh)) by (field; lra). assumption. }
  lra.
Qed.
End Scaler.

(* ------------------------------------------------------------------ *)
(** ** Small angles *)

Section Numerics.
Local Open Scope R_scope.

Lemma PI_lower : 3 < PI.
Proof. pose proof PI2_3_2. lra. Qed.

Lemma small_sin (y : R) : 0 < y -> y < 1 -> 0 < sin y < y.
Proof.
  intros H0 H1. split.
  - apply sin_gt_0; [assumption | pose proof PI_lower; lra].
  - apply sin_lt_x; assumption.
Qed.

Lemma small_cos (y : R) : 0 < y -> y < 1 -> 1 - y * y / 2 < cos y <= 1.
Proof.
  intros H0 H1. split.
  - replace y with (2 * (y / 2)) at 3 by field.
    rewrite cos_2a_sin.
    destruct (small_sin (y / 2)) as [Hs0 Hs1]; [lra | lra |].
    nra.
  - apply COS_bound.
Qed.

Lemma sin_cubic_lower (a : R) : 0 <= a -> a <= 1 -> a - a * a * a / 6 <= sin a.
Proof.
  intros H0 H1.
  destruct (SIN a) as [Hlb _]; [assumption | pose proof PI_lower; lra |].
  unfold sin_lb, sin_approx, sin_term in Hlb. simpl in Hlb.
  assert (Ha5 : 0 <= a * a * a * a * a * (1 / 120 - a * a / 5040)).
  { apply Rmult_le_pos; [|nra].
    repeat apply Rmult_le_pos; assumption. }
  lra.
Qed.

Lemma atan_below (t y : R) :
  - (PI / 2) < y < PI / 2 -> t < tan y -> atan t < y.
Proof.
  intros Hy Ht. rewrite <- (atan_tan y Hy). apply atan_increasing. assumption.
Qed.

Lemma tan_above_sin (y : R) : 0 < y -> y < 1 -> sin y <= tan y.
Proof.
  intros H0 H1. unfold tan.
  destruct (small_cos y H0 H1) as [Hc0 Hc1].
  destruct (small_sin y H0 H1) as [Hs0 Hs1].
  assert (Hc : 0 < cos y) by nra.
  apply (Rmult_le_reg_r (cos y)); [assumption|].
  unfold Rdiv. rewrite Rmult_assoc, Rinv_l by lra. nra.
Qed.

Lemma atan_small (t : R) : 0 < t -> t < 9 / 100 -> 0 < atan t < 1 / 10.
Proof.
  intros H0 H1. split.
  - rewrite <- atan_0. apply atan_increasing. assumption.
  - apply atan_below.
    + pose proof PI_lower. lra.
    + apply Rlt_le_trans with (sin (1 / 10)).
      * pose proof (sin_cubic_lower (1 / 10)). lra.
      * apply tan_above_sin; lra.
Qed.

Lemma ratio_small (e n : R) :
  - (3 / 100) < e < 0 -> 37 / 100 < n -> 0 < - e / n < 9 / 100.
Proof.
  intros He Hn. split.
  - apply Rdiv_lt_0_compat; lra.
  - apply (Rmult_lt_reg_r n); [lra|].
    unfold Rdiv. rewrite Rmult_assoc, Rinv_l by lra. lra.
Qed.

Lemma degrees_small (a : R) : 0 < a < 1 / 10 -> 0 < a * 180 / PI < 6.
Proof.
  intros Ha. pose proof PI_lower as Hpi. split.
  - apply Rdiv_lt_0_compat; lra.
  - apply (Rmult_lt_reg_r PI); [lra|].
    unfold Rdiv. rewrite Rmult_assoc, Rinv_l by lra. nra.
Qed.

(** The Sun slightly west of due south: azimuth just above 180. *)
Lemma azimuth_south (e n : R) :
  - (3 / 100) < e < 0 -> n < - (37 / 100) ->
  180 < Rmodulo (Real.atan2 e n * 180 / PI) 360 < 186.
Proof.
  intros He Hn. unfold Real.atan2.
  destruct (Rlt_dec 0 n); [lra|]. destruct (Rlt_dec n 0); [|lra].
  destruct (Rle_dec 0 e); [lra|].
  replace (e / n) with (- e / - n) by (field; lra).
  destruct (ratio_small e (- n)) as [Ht0 Ht1]; [lra | lra |].
  pose proof (atan_small _ Ht0 Ht1) as Ha.
  pose proof (degrees_small _ Ha) as Hd.
  set (a := atan (- e / - n)) in *.
  rewrite <- (Rmodulo_unique ((a - PI) * 180 / PI) 360 (a * 180 / PI + 180) (-1)).
  - lra.
  - lra.
  - simpl. field. apply PI_neq0.
  - lra.
Qed.

(** The Sun slightly west of due north: azimuth just below 360. *)
Lemma azimuth_north (e n : R) :
  - (3 / 100) < e < 0 -> 37 / 100 < n ->
  354 < Rmodulo (Real.atan2 e n * 180 / PI) 360 < 360.
Proof.
  intros He Hn. unfold Real.atan2.
  destruct (Rlt_dec 0 n); [|lra].
  replace (e / n) with (- (- e / n)) by (field; lra).
  rewrite atan_opp.
  destruct (ratio_small e n) as [Ht0 Ht1]; [lra | lra |].
  pose proof (atan_small _ Ht0 Ht1) as Ha.
  pose proof (degrees_small _ Ha) as Hd.
  set (a := atan (- e / n)) in *.
  rewrite <- (Rmodulo_unique (- a * 180 / PI) 360 (360 - a * 180 / PI) (-1)).
  - lra.
  - lra.
  - simpl. field. apply PI_neq0.
  - lra.
Qed.
End Numerics.

(* ------------------------------------------------------------------ *)
(** ** Scenario A: the equator at noon, 1 January and 1 July 2024 *)

Section ScenarioA.
Local Open Scope R_scope.

Lemma x366_range : 3 / 366 < x366 <= 4 / 366.
Proof. unfold x366. pose proof PI_lower. pose proof PI_4. lra. Qed.

Lemma trig_x366 (k : R) :
  1 <= k <= 3 ->
  0 < sin (k * x366) < 33 / 1000 /\ 999 / 1000 < cos (k * x366) <= 1.
Proof.
  intros Hk. pose proof x366_range as Hx.
  assert (H0 : 0 < k * x366) by nra.
  assert (H1 : k * x366 < 33 / 1000) by nra.
  destruct (small_sin (k * x366)) as [Hs0 Hs1]; [lra | lra |].
  destruct (small_cos (k * x366)) as [Hc0 Hc1]; [lra | lra |].
  repeat split; try lra. nra.
Qed.

Lemma gamma_jan1 : gamma 366 1 = x366.
Proof. rewrite gamma_R. unfold x366. lra. Qed.

Lemma gamma_jul1 : gamma 366 183 = PI - x366.
Proof. rewrite gamma_R. unfold x366. lra. Qed.

Lemma cos_PI_minus (x : R) : cos (PI - x) = - cos x.
Proof.
  replace (PI - x) with (- x + PI) by ring.
  rewrite neg_cos, cos_neg. reflexivity.
Qed.

Lemma trig_2PI_minus (x : R) :
  cos (2 * PI - x) = cos x /\ sin (2 * PI - x) = - sin x.
Proof.
  replace (2 * PI - x) with (- x + 2 * INR 1 * PI) by (simpl; ring).
  rewrite cos_period, sin_period, cos_neg, sin_neg. split; reflexivity.
Qed.

Lemma trig_3PI_minus (x : R) :
  cos (3 * PI - x) = - cos x /\ sin (3 * PI - x) = sin x.
Proof.
  replace (3 * PI - x) with ((PI - x) + 2 * INR 1 * PI) by (simpl; ring).
  rewrite cos_period, sin_period, cos_PI_minus, sin_PI_x. split; reflexivity.
Qed.

Ltac trig_bounds :=
  destruct (trig_x366 1) as [[? ?] [? ?]]; [lra|];
  destruct (trig_x366 2) as [[? ?] [? ?]]; [lra|];
  destruct (trig_x366 3) as [[? ?] [? ?]]; [lra|];
  rewrite Rmult_1_l in *.

Lemma decl_jan1 : -0.41 < decl (gamma 366 1) < -0.39.
Proof. rewrite gamma_jan1, decl_R. trig_bounds. lra. Qed.

Lemma eotMin_jan1 : -5 < eotMin (gamma 366 1) < 0.
Proof. rewrite gamma_jan1, eotMin_R. trig_bounds. lra. Qed.

Lemma decl_jul1 : 0.39 < decl (gamma 366 183) < 0.41.
Proof.
  rewrite gamma_jul1, decl_R.
  replace (2 * (PI - x366)) with (2 * PI - 2 * x366) by ring.
  replace (3 * (PI - x366)) with (3 * PI - 3 * x366) by ring.
  rewrite cos_PI_minus, sin_PI_x.
  destruct (trig_2PI_minus (2 * x366)) as [-> ->].
  destruct (trig_3PI_minus (3 * x366)) as [-> ->].
  trig_bounds. lra.
Qed.

Lemma eotMin_jul1 : -5 < eotMin (gamma 366 183) < 0.
Proof.
  rewrite gamma_jul1, eotMin_R.
  replace (2 * (PI - x366)) with (2 * PI - 2 * x366) by ring.
  rewrite cos_PI_minus, sin_PI_x.
  destruct (trig_2PI_minus (2 * x366)) as [-> ->].
  trig_bounds. lra.
Qed.

Lemma deg2rad_0 : deg2rad 0 = 0.
Proof. rewrite deg2rad_R. unfold Rdiv. rewrite !Rmult_0_l. reflexivity. Qed.

(** Clock time 12:00 on the zone meridian: the hour angle is a quarter
    of the equation of time. *)
Lemma H_deg_noon (eot tz : R) :
  -720 <= eot < 720 -> H_deg 720 eot (15 * tz) tz = eot / 4.
Proof.
  intros He. rewrite H_deg_R.
  rewrite <- (Rmodulo_unique (720 + eot + 4 * (15 * tz - 15 * tz)) 1440
                             (720 + eot) 0);
    [lra | lra | simpl; lra | lra].
Qed.

Lemma noon_east_north (delta eot : R) :
  -5 < eot < 0 -> 39 / 100 < Rabs delta < 41 / 100 ->
  let h := horizontal (deg2rad 0) delta (deg2rad (H_deg 720 eot 0 0)) in
  hN h = sin delta /\ - (3 / 100) < hE h < 0 /\ 37 / 100 < Rabs (sin delta).
Proof.
  intros He Hd h. subst h. rewrite horizontal_R. cbn [hN hE].
  replace (H_deg 720 eot 0 0) with (eot / 4)
    by (rewrite <- (H_deg_noon eot 0) by lra; f_equal; lra).
  rewrite deg2rad_0, sin_0, cos_0.
  rewrite deg2rad_R.
  set (H := eot / 4 * PI / 180).
  assert (HH : - (3 / 100) < H < 0).
  { unfold H. pose proof PI_lower. pose proof PI_4. split; nra. }
  assert (HsH : - (3 / 100) < sin H < 0).
  { split.
    - apply Rlt_trans with H; [lra | apply sin_gt_x; lra].
    - apply sin_lt_0_var; pose proof PI_lower; lra. }
  assert (Hcd : 0 < cos delta <= 1).
  { split; [| apply COS_bound].
    apply cos_gt_0; pose proof PI_lower;
      unfold Rabs in Hd; destruct (Rcase_abs delta); lra. }
  assert (HN : 37 / 100 < Rabs (sin delta)).
  { unfold Rabs in Hd. destruct (Rcase_abs delta) as [Hneg | Hpos].
    - pose proof (sin_cubic_lower (- delta)) as Hs. rewrite sin_neg in Hs.
      rewrite Rabs_left by (apply sin_lt_0_var; pose proof PI_lower; lra).
      assert (- delta * - delta * - delta <= 41 / 100 * (41 / 100) * (41 / 100)).
      { repeat apply Rmult_le_compat; nra. }
      lra.
    - pose proof (sin_cubic_lower delta) as Hs.
      rewrite Rabs_right by (left; apply sin_gt_0; pose proof PI_lower; lra).
      assert (delta * delta * delta <= 41 / 100 * (41 / 100) * (41 / 100)).
      { repeat apply Rmult_le_compat; nra. }
      lra. }
  split; [ring|]. split; [nra | exact HN].
Qed.
End ScenarioA.

(* ------------------------------------------------------------------ *)
(** ** The series generators, point by point *)

Section Series.
Local Open Scope R_scope.

Lemma horizontal_azimuth (phi delta H : R) :
  let h := horizontal phi delta H in
  hAzimuthDeg h = Rmodulo (Real.atan2 (hE h) (hN h) * 180 / PI) 360.
Proof. cbv zeta. rewrite horizontal_R. reflexivity. Qed.

Lemma clamp_in_range (lo hi v : R) : lo <= v <= hi -> Rmin hi (Rmax lo v) = v.
Proof.
  intros Hv. rewrite Rmax_right by lra. rewrite Rmin_right by lra. reflexivity.
Qed.

Lemma clamp_idempotent (lo hi v : R) :
  lo <= hi -> Rmin hi (Rmax lo (Rmin hi (Rmax lo v))) = Rmin hi (Rmax lo v).
Proof.
  intros Hlh. apply clamp_in_range. split.
  - apply Rmin_glb; [assumption | apply Rmax_l].
  - apply Rmin_l.
Qed.

Lemma clampedClockMinutes_noon (lat lon tz : R) (y : option Z) :
  clampedClockMinutes (mkInputs lat lon (fixedLocalTime 12 0) tz y) = 720.
Proof.
  unfold clampedClockMinutes. cbn.
  rewrite (clamp_in_range 0 23 12), (clamp_in_range 0 59 0) by lra. lra.
Qed.

(** The first and the 183rd point of scenario A. *)
Lemma scenarioA_points (currentYear : Z) :
  let pts := computeAnalemmaPoints currentYear equatorNoon2024 in
  let body := analemmaPoint equatorNoon2024 2024 366 (deg2rad 0) 720 in
  nth_error pts 0 = Some (body 1%Z) /\ nth_error pts 182 = Some (body 183%Z).
Proof.
  cbv zeta. unfold computeAnalemmaPoints.
  change (clampedClockMinutes equatorNoon2024)
    with (clampedClockMinutes
            (mkInputs 0 0 (fixedLocalTime 12 0) 0 (Some 2024%Z))).
  rewrite clampedClockMinutes_noon.
  change (yearOrCurrent currentYear equatorNoon2024) with 2024%Z.
  change (daysInYear 2024) with 366%Z.
  change (latitudeDeg equatorNoon2024) with 0.
  split.
  - apply (loop_nth _ 366 1). lia.
  - apply (loop_nth _ 366 183). lia.
Qed.
End Series.

(* ------------------------------------------------------------------ *)
(** ** C1: the horizontal transform *)

Section ClaimC1.
Local Open Scope R_scope.

(** C1.  For every latitude, declination and hour angle the transform
    returns [E = cos d * sin H], [N = cos p * sin d - sin p * cos d * cos H],
    [U = sin p * sin d + cos p * cos d * cos H], the altitude as the arcsine
    of [U] clamped to [-1, 1], in degrees, and the azimuth as [atan2(E, N)]
    in degrees reduced into [0, 360); the azimuth is 0 due north, 90 due
    east, 180 due south and 270 due west; every point of
    [computeAnalemmaPoints] is such a transform at the observer's latitude.
    For the equatorial observer at clock noon on the zone meridian in 2024,
    the point of 2024-01-01 has negative declination and azimuth between
    180 and 186 degrees, the point of 2024-07-01 positive declination and
    azimuth between 354 and 360 degrees. *)
Theorem C1_horizontal_transform :
  (forall phi delta H : R,
     let h := horizontal phi delta H in
     hE h = cos delta * sin H /\
     hN h = cos phi * sin delta - sin phi * cos delta * cos H /\
     hU h = sin phi * sin delta + cos phi * cos delta * cos H /\
     hAltitudeDeg h = asin (Rmax (-1) (Rmin 1 (hU h))) * 180 / PI /\
     hAzimuthDeg h = Rmodulo (Real.atan2 (hE h) (hN h) * 180 / PI) 360 /\
     0 <= hAzimuthDeg h < 360) /\
  (Rmodulo (Real.atan2 0 1 * 180 / PI) 360 = 0 /\
   Rmodulo (Real.atan2 1 0 * 180 / PI) 360 = 90 /\
   Rmodulo (Real.atan2 0 (-1) * 180 / PI) 360 = 180 /\
   Rmodulo (Real.atan2 (-1) 0 * 180 / PI) 360 = 270) /\
  (forall (currentYear : Z) (inputs : AnalemmaInputs R),
     Forall (fun p => exists delta H : R,
               let h := horizontal (deg2rad (latitudeDeg inputs)) delta H in
               AnalemmaPoint.E p = hE h /\ AnalemmaPoint.N p = hN h /\
               AnalemmaPoint.U p = hU h /\
               AnalemmaPoint.altitudeDeg p = hAltitudeDeg h /\
               AnalemmaPoint.azimuthDeg p = hAzimuthDeg h)
            (computeAnalemmaPoints currentYear inputs)) /\
  (forall currentYear : Z,
     exists p1 p183 : AnalemmaPoint.t R,
       nth_error (computeAnalemmaPoints currentYear equatorNoon2024) 0 = Some p1 /\
       nth_error (computeAnalemmaPoints currentYear equatorNoon2024) 182 = Some p183 /\
       AnalemmaPoint.dateISO p1 = "2024-01-01"%string /\
       decl (gamma (daysInYear 2024) 1) < 0 /\
       180 < AnalemmaPoint.azimuthDeg p1 < 186 /\
       AnalemmaPoint.dateISO p183 = "2024-07-01"%string /\
       0 < decl (gamma (daysInYear 2024) 183) /\
       354 < AnalemmaPoint.azimuthDeg p183 < 360).
Proof.
  split; [| split; [| split]].
  - intros phi delta H. cbv zeta. rewrite horizontal_R.
    cbn [hE hN hU hAltitudeDeg hAzimuthDeg].
    repeat split; try reflexivity; apply Rmodulo_range; lra.
  - pose proof PI_RGT_0 as Hpi. unfold Real.atan2. repeat split.
    + destruct (Rlt_dec 0 1); [|lra].
      replace (0 / 1) with 0 by field. rewrite atan_0.
      symmetry. apply (Rmodulo_unique _ 360 0 0); [lra | | lra].
      simpl. unfold Rdiv. ring.
    + destruct (Rlt_dec 0 0); [lra|]. destruct (Rlt_dec 0 1); [|lra].
      symmetry. apply (Rmodulo_unique _ 360 90 0); [lra | | lra].
      simpl. field. lra.
    + destruct (Rlt_dec 0 (-1)); [lra|]. destruct (Rlt_dec (-1) 0); [|lra].
      destruct (Rle_dec 0 0); [|lra].
      replace (0 / -1) with 0 by field. rewrite atan_0.
      symmetry. apply (Rmodulo_unique _ 360 180 0); [lra | | lra].
      simpl. field. lra.
    + destruct (Rlt_dec 0 0); [lra|]. destruct (Rlt_dec 0 (-1)); [lra|].
      destruct (Rlt_dec (-1) 0); [|lra].
      symmetry. apply (Rmodulo_unique _ 360 270 (-1)); [lra | | lra].
      simpl. field. lra.
  - intros currentYear inputs. apply Forall_forall. intros p Hp.
    unfold computeAnalemmaPoints in Hp. apply in_map_iff in Hp.
    destruct Hp as [n [Hn _]]. subst p. unfold analemmaPoint.
    cbn [AnalemmaPoint.E AnalemmaPoint.N AnalemmaPoint.U
         AnalemmaPoint.altitudeDeg AnalemmaPoint.azimuthDeg].
    eexists. eexists. cbv zeta. repeat split; reflexivity.
  - intros currentYear.
    destruct (scenarioA_points currentYear) as [H1 H183].
    eexists. eexists. split; [exact H1|]. split; [exact H183|].
    change (daysInYear 2024) with 366%Z.
    pose proof decl_jan1 as Hd1. pose proof eotMin_jan1 as He1.
    pose proof decl_jul1 as Hd7. pose proof eotMin_jul1 as He7.
    unfold analemmaPoint.
    cbn [AnalemmaPoint.dateISO AnalemmaPoint.azimuthDeg].
    change (longitudeDeg equatorNoon2024) with 0.
    change (tzOffsetHours equatorNoon2024) with 0.
    split; [vm_compute; reflexivity|]. split; [lra|].
    split.
    { rewrite horizontal_azimuth.
      destruct (noon_east_north (decl (gamma 366 1)) (eotMin (gamma 366 1)))
        as [HN [HE HA]]; [lra | rewrite Rabs_left by lra; lra |].
      cbv zeta in HN, HE. rewrite HN. apply azimuth_south; [exact HE|].
      rewrite Rabs_left in HA; [lra|].
      apply sin_lt_0_var; pose proof PI_lower; lra. }
    split; [vm_compute; reflexivity|]. split; [lra|].
    rewrite horizontal_azimuth.
    destruct (noon_east_north (decl (gamma 366 183)) (eotMin (gamma 366 183)))
      as [HN [HE HA]]; [lra | rewrite Rabs_right by lra; lra |].
    cbv zeta in HN, HE. rewrite HN. apply azimuth_north; [exact HE|].
    rewrite Rabs_right in HA; [lra|].
    left. apply sin_gt_0; pose proof PI_lower; lra.
Qed.
End ClaimC1.

(* ------------------------------------------------------------------ *)
(** ** C2: the two components of the equation of time *)

Section ClaimC2.
Local Open Scope R_scope.

(** In binary64, whatever [Math.sin] and [Math.cos] return within two
    units in the last place of the correctly rounded values, the sum of
    the two components on 13 June 2024 is not the double that the single
    series gives. *)
Lemma Day165_split_differs (s1 c1 s2 c2 : float) :
  In s1 (Day165.near Day165.sin_g) -> In c1 (Day165.near Day165.cos_g) ->
  In s2 (Day165.near Day165.sin_2g) -> In c2 (Day165.near Day165.cos_2g) ->
  Day165.splitAgrees s1 c1 s2 c2 = false.
Proof.
  intros H1 H2 H3 H4.
  assert (Hall : forallb (fun s1 => forallb (fun c1 => forallb (fun s2 =>
            forallb (fun c2 => negb (Day165.splitAgrees s1 c1 s2 c2))
              (Day165.near Day165.cos_2g)) (Day165.near Day165.sin_2g))
              (Day165.near Day165.cos_g)) (Day165.near Day165.sin_g) = true)
    by (vm_compute; reflexivity).
  rewrite forallb_forall in Hall. specialize (Hall s1 H1).
  rewrite forallb_forall in Hall. specialize (Hall c1 H2).
  rewrite forallb_forall in Hall. specialize (Hall s2 H3).
  rewrite forallb_forall in Hall. specialize (Hall c2 H4).
  apply negb_true_iff in Hall. exact Hall.
Qed.

(** The claim fails in binary64: on day 165 of 2024, with the correctly
    rounded sine and cosine, [eotMinutes] is 0.17318789800632262 and the
    single series of [computeAnalemmaPoints] is 0.17318789800632267. *)
Lemma C2_binary64_counterexample :
  let M := Day165.number Day165.sin_g Day165.cos_g Day165.sin_2g Day165.cos_2g in
  exists p : EotPoint.t float,
    nth_error (@computeEquationOfTime float M 2024) 164 = Some p /\
    EotPoint.dateISO p = "2024-06-13"%string /\
    EotPoint.eotMinutes p = 0x1.62b0563000490p-3%float /\
    @eotMin float M (@gamma float M (daysInYear 2024) 165) =
      0x1.62b0563000492p-3%float /\
    EotPoint.eotMinutes p <> @eotMin float M (@gamma float M (daysInYear 2024) 165).
Proof.
  cbv zeta. eexists. split.
  - unfold computeEquationOfTime. apply (loop_nth _ 366 165). lia.
  - split; [vm_compute; reflexivity|].
    split; [vm_compute; reflexivity|].
    split; [vm_compute; reflexivity|].
    intros Heq. apply (f_equal Prim2SF) in Heq. vm_compute in Heq.
    discriminate Heq.
Qed.

(** C2 (amended).  In every number model [eotMinutes] is the sum of the two
    component fields as the machine adds them.  In real arithmetic the
    components are the two partial sums of the series, and their sum is
    the single series that [computeAnalemmaPoints] uses for the same day. *)
Theorem C2_eot_components :
  (forall (num : Type) (M : Number num) (year : Z),
     Forall (fun p => EotPoint.eotMinutes p =
                      add (EotPoint.obliquityComponent p)
                          (EotPoint.eccentricityComponent p))
            (@computeEquationOfTime num M year)) /\
  (forall year : Z,
     let N := daysInYear year in
     let g := fun n : Z => 2 * PI / IZR N * (IZR n - 1 + 0.5) in
     map (@EotPoint.obliquityComponent R) (computeEquationOfTime year) =
       map (fun n => 229.18 * (-0.032077 * sin (g n) - 0.040849 * sin (2 * g n)))
           (loopDays N) /\
     map (@EotPoint.eccentricityComponent R) (computeEquationOfTime year) =
       map (fun n => 229.18 * (0.000075 + 0.001868 * cos (g n)
                               - 0.014615 * cos (2 * g n)))
           (loopDays N) /\
     map (@EotPoint.eotMinutes R) (computeEquationOfTime year) =
       map (fun n => eotMin (gamma N n)) (loopDays N) /\
     map (fun n => eotMin (gamma N n)) (loopDays N) =
       map (fun n => 229.18 * (0.000075 + 0.001868 * cos (g n)
                               - 0.032077 * sin (g n)
                               - 0.014615 * cos (2 * g n)
                               - 0.040849 * sin (2 * g n)))
           (loopDays N)).
Proof.
  split.
  - intros num M year. apply Forall_forall. intros p Hp.
    unfold computeEquationOfTime in Hp. apply in_map_iff in Hp.
    destruct Hp as [n [Hn _]]. subst p. reflexivity.
  - intros year N g. unfold computeEquationOfTime. fold N.
    rewrite !map_map. split; [| split; [| split]]; apply map_ext; intros n.
    + unfold eotPoint. cbn [EotPoint.obliquityComponent].
      rewrite obliquityComponent_R, gamma_R. reflexivity.
    + unfold eotPoint. cbn [EotPoint.eccentricityComponent].
      rewrite eccentricityComponent_R, gamma_R. reflexivity.
    + unfold eotPoint. cbn [EotPoint.eotMinutes].
      rewrite obliquityComponent_R, eccentricityComponent_R, eotMin_R.
      cbn [add Real.number]. lra.
    + rewrite eotMin_R, gamma_R. reflexivity.
Qed.
End ClaimC2.

(* ------------------------------------------------------------------ *)
(** ** C3: the orbital angle and the declination series *)

Section ClaimC3.
Local Open Scope R_scope.

(** The claim fails for [computeAnalemmaInset] with the obliquity
    switched off: on 1 January 2024 the series is below -0.39 radians and
    the generator uses a declination of 0. *)
Lemma C3_counterexample :
  let g := gamma (daysInYear 2024) 1 in
  insetDecl false g = 0 /\ decl g < -0.39 /\ insetDecl false g <> decl g.
Proof.
  cbv zeta. change (daysInYear 2024) with 366%Z.
  pose proof decl_jan1 as Hd.
  change (@insetDecl R _ false (gamma 366 1)) with 0.
  split; [reflexivity|]. split; lra.
Qed.

(** C3 (amended).  For every year, with [N = daysInYear year], and every
    day [n] of the loop, both generators take the orbital angle
    [g = (2 * PI / N) * (n - 1 + 0.5)].  The points of
    [computeAnalemmaPoints] are the horizontal transforms at the
    declination
    [0.006918 - 0.399912 cos g + 0.070257 sin g - 0.006758 cos 2g
     + 0.000907 sin 2g - 0.002697 cos 3g + 0.00148 sin 3g], and so are the
    points of [computeAnalemmaInset] when the obliquity is included; when
    it is switched off, [computeAnalemmaInset] takes a declination of 0
    instead of the series. *)
Theorem C3_orbital_angle_and_declination :
  forall (currentYear : Z) (inputs : AnalemmaInputs R)
         (includeObliquity includeEccentricity : bool),
    let year := yearOrCurrent currentYear inputs in
    let N := daysInYear year in
    let g := fun n : Z => 2 * PI / IZR N * (IZR n - 1 + 0.5) in
    let series := fun n : Z =>
      0.006918 - 0.399912 * cos (g n) + 0.070257 * sin (g n)
      - 0.006758 * cos (2 * g n) + 0.000907 * sin (2 * g n)
      - 0.002697 * cos (3 * g n) + 0.00148 * sin (3 * g n) in
    let phi := deg2rad (latitudeDeg inputs) in
    let hourAngle := fun (localClockMinutes eotMin : R) =>
      deg2rad (H_deg localClockMinutes eotMin (longitudeDeg inputs)
                     (tzOffsetHours inputs)) in
    computeAnalemmaPoints currentYear inputs =
      map (fun n =>
             analemmaOf (dateFromDayOfYear year n)
               (horizontal phi (series n)
                  (hourAngle (clampedClockMinutes inputs) (eotMin (g n)))))
          (loopDays N) /\
    computeAnalemmaInset currentYear inputs includeObliquity includeEccentricity =
      map (fun n =>
             insetOf
               (horizontal phi (if includeObliquity then series n else 0)
                  (hourAngle (insetClockMinutes inputs)
                     (insetEotMin includeObliquity includeEccentricity (g n)))))
          (loopDays N).
Proof.
  intros currentYear inputs includeObliquity includeEccentricity
         year N g series phi hourAngle.
  split.
  - unfold computeAnalemmaPoints. apply map_ext. intros n.
    unfold analemmaPoint, analemmaOf. fold year N phi.
    rewrite gamma_R, decl_R. reflexivity.
  - unfold computeAnalemmaInset. apply map_ext. intros n.
    unfold insetPoint, insetOf, insetDecl. fold year N phi.
    rewrite gamma_R. destruct includeObliquity.
    + rewrite decl_R. reflexivity.
    + reflexivity.
Qed.
End ClaimC3.

(* ------------------------------------------------------------------ *)
(** ** C4: the hour angle *)

Section ClaimC4.
Local Open Scope R_scope.

(** C4.  For every clock minutes-of-day, equation of time, longitude and
    zone offset, the true solar time is
    [localClockMinutes + eotMinutes + 4 * (longitudeDeg - 15 * tzOffsetHours)]
    reduced modulo 1440 into [0, 1440), the hour angle in degrees is
    [tst / 4 - 180], it is 0 when [tst = 720], and it lies in [-180, 180). *)
Theorem C4_hour_angle :
  forall localClockMinutes eotMinutes longitudeDeg tzOffsetHours : R,
    let x := localClockMinutes + eotMinutes
             + 4 * (longitudeDeg - 15 * tzOffsetHours) in
    let tst := trueSolarTimeMin localClockMinutes eotMinutes longitudeDeg
                                tzOffsetHours in
    let H := H_deg localClockMinutes eotMinutes longitudeDeg tzOffsetHours in
    tst = x - 1440 * IZR (Int_part (x / 1440)) /\
    0 <= tst < 1440 /\
    H = tst / 4 - 180 /\
    (tst = 720 -> H = 0) /\
    -180 <= H < 180.
Proof.
  intros lcm eot lon tz x tst H.
  assert (Htst : tst = Rmodulo x 1440) by apply trueSolarTimeMin_R.
  assert (Hrange : 0 <= tst < 1440)
    by (rewrite Htst; apply Rmodulo_range; lra).
  assert (HH : H = tst / 4 - 180) by reflexivity.
  split; [exact Htst|]. split; [exact Hrange|]. split; [exact HH|].
  split; [intros H720; rewrite HH, H720; lra | lra].
Qed.

Lemma C4_hour_angle_witness : H_deg 720 0 0 0 = 0.
Proof.
  destruct (C4_hour_angle 720 0 0 0) as [Htst [_ [_ [Hnoon _]]]].
  apply Hnoon. cbv zeta in Htst. rewrite Htst.
  symmetry. apply (Rmodulo_unique _ 1440 720 0); [lra | simpl; lra | lra].
Defined.
End ClaimC4.

(* ------------------------------------------------------------------ *)
(** ** C5: the length and the dates of the series *)

Section ClaimC5.
Local Open Scope Z_scope.

Lemma loopDays_In (nDays n : Z) : In n (loopDays nDays) -> 1 <= n <= nDays.
Proof.
  unfold loopDays. intros Hn. apply in_map_iff in Hn.
  destruct Hn as [k [Hk Hin]]. apply in_seq in Hin. lia.
Qed.

Lemma daysInYear_nonneg (y : Z) : 0 <= daysInYear y.
Proof. destruct (daysInYear_cases y); lia. Qed.

Lemma loop_dates (year : Z) :
  1000 <= year <= 9999 ->
  map (dateFromDayOfYear year) (loopDays (daysInYear year)) =
  map (isoDayOfYear year) (loopDays (daysInYear year)).
Proof.
  intros Hy. apply map_ext_in. intros n Hn. apply loopDays_In in Hn.
  apply dateFromDayOfYear_iso; assumption.
Qed.

(** The claim fails for the year 50: [Date.UTC] reads a year from 0 to 99
    as 1900 plus that year, so the first point is dated 1950-01-01. *)
Lemma C5_counterexample_year_50 :
  nth_error (map (@EotPoint.dateISO R) (computeEquationOfTime 50)) 0 =
    Some "1950-01-01"%string /\
  isoDayOfYear 50 1 = "0050-01-01"%string.
Proof.
  split; [| vm_compute; reflexivity].
  unfold computeEquationOfTime. rewrite map_map.
  change (daysInYear 50) with 365.
  rewrite (loop_nth _ 365 1) by lia.
  unfold eotPoint. cbn [EotPoint.dateISO]. vm_compute. reflexivity.
Qed.

(** C5 (amended).  In every number model and for every year,
    [computeAnalemmaPoints] and [computeEquationOfTime] return exactly
    [daysInYear year] points, 366 under the Gregorian leap rule and 365
    otherwise; the [dayOfYear] fields of [computeEquationOfTime] are
    1, 2, ..., [daysInYear year] in this order and the n-th point of
    either series carries the date that [dateFromDayOfYear] gives to day
    [n]; and, for a year from 1000 to 9999, these dates are, in this order,
    the ISO dates reached by adding 0, 1, ... whole days to January 1 of
    the year. *)
Theorem C5_series_length_and_dates :
  forall (num : Type) (M : Number num) (L : @NumberLib num M)
         (currentYear : Z) (inputs : AnalemmaInputs num) (y : Z),
    let year := yearOrCurrent currentYear inputs in
    let days := fun N : Z => map Z.of_nat (seq 1 (Z.to_nat N)) in
    Z.of_nat (List.length (computeAnalemmaPoints currentYear inputs)) =
      daysInYear year /\
    Z.of_nat (List.length (@computeEquationOfTime num M y)) = daysInYear y /\
    daysInYear y =
      (if ((Z.rem y 4 =? 0) && negb (Z.rem y 100 =? 0)) || (Z.rem y 400 =? 0)
       then 366 else 365) /\
    map (@EotPoint.dayOfYear num) (computeEquationOfTime y) =
      days (daysInYear y) /\
    map (@EotPoint.dateISO num) (computeEquationOfTime y) =
      map (dateFromDayOfYear y) (days (daysInYear y)) /\
    map (@AnalemmaPoint.dateISO num) (computeAnalemmaPoints currentYear inputs) =
      map (dateFromDayOfYear year) (days (daysInYear year)) /\
    (1000 <= y <= 9999 ->
     map (@EotPoint.dateISO num) (computeEquationOfTime y) =
       map (isoDayOfYear y) (days (daysInYear y))) /\
    (1000 <= year <= 9999 ->
     map (@AnalemmaPoint.dateISO num) (computeAnalemmaPoints currentYear inputs) =
       map (isoDayOfYear year) (days (daysInYear year))).
Proof.
  intros num M L currentYear inputs y year days.
  split; [| split; [| split; [| split; [| split; [| split; [| split]]]]]].
  - unfold computeAnalemmaPoints. apply loop_length, daysInYear_nonneg.
  - unfold computeEquationOfTime. apply loop_length, daysInYear_nonneg.
  - reflexivity.
  - unfold computeEquationOfTime. rewrite map_map.
    change (days (daysInYear y)) with (loopDays (daysInYear y)).
    rewrite <- (map_id (loopDays (daysInYear y))) at 2.
    apply map_ext. intros n. reflexivity.
  - unfold computeEquationOfTime. rewrite map_map.
    apply map_ext. intros n. reflexivity.
  - unfold computeAnalemmaPoints. rewrite map_map.
    apply map_ext. intros n. reflexivity.
  - intros Hy. unfold computeEquationOfTime. rewrite map_map.
    change (days (daysInYear y)) with (loopDays (daysInYear y)).
    rewrite <- (loop_dates y Hy). apply map_ext. intros n. reflexivity.
  - intros Hy. unfold computeAnalemmaPoints. rewrite map_map. fold year.
    change (days (daysInYear year)) with (loopDays (daysInYear year)).
    rewrite <- (loop_dates year Hy). apply map_ext. intros n. reflexivity.
Qed.

Lemma C5_series_length_and_dates_witness :
  map (@EotPoint.dateISO R) (computeEquationOfTime 2024) =
    map (isoDayOfYear 2024) (map Z.of_nat (seq 1 (Z.to_nat (daysInYear 2024)))) /\
  map (@AnalemmaPoint.dateISO R) (computeAnalemmaPoints 2026 equatorNoon2024) =
    map (isoDayOfYear 2024) (map Z.of_nat (seq 1 (Z.to_nat (daysInYear 2024)))).
Proof.
  destruct (C5_series_length_and_dates R _ _ 2026 equatorNoon2024 2024)
    as [_ [_ [_ [_ [_ [_ [Heot Hmain]]]]]]].
  split.
  - apply Heot. lia.
  - apply Hmain. change (yearOrCurrent 2026 equatorNoon2024) with 2024. lia.
Defined.
End ClaimC5.

(* ------------------------------------------------------------------ *)
(** ** C6: the invariants of the emitted points *)

Section ClaimC6.
Local Open Scope R_scope.

Lemma analemmaPoints_wellFormed (currentYear : Z) (inputs : AnalemmaInputs R) :
  Forall (fun p =>
            wellFormed (AnalemmaPoint.azimuthDeg p) (AnalemmaPoint.altitudeDeg p)
                       (AnalemmaPoint.visible p)
                       (AnalemmaPoint.E p) (AnalemmaPoint.N p) (AnalemmaPoint.U p))
         (computeAnalemmaPoints currentYear inputs).
Proof.
  apply Forall_forall. intros p Hp.
  unfold computeAnalemmaPoints in Hp. apply in_map_iff in Hp.
  destruct Hp as [n [Hn _]]. subst p. unfold analemmaPoint.
  cbn [AnalemmaPoint.azimuthDeg AnalemmaPoint.altitudeDeg
       AnalemmaPoint.visible AnalemmaPoint.E AnalemmaPoint.N AnalemmaPoint.U].
  apply horizontal_wellFormed.
Qed.

Lemma insetPoints_wellFormed (currentYear : Z) (inputs : AnalemmaInputs R)
    (includeObliquity includeEccentricity : bool) :
  Forall (fun p =>
            wellFormed (AnalemmaInsetPoint.azimuthDeg p)
                       (AnalemmaInsetPoint.altitudeDeg p)
                       (AnalemmaInsetPoint.visible p)
                       (AnalemmaInsetPoint.E p) (AnalemmaInsetPoint.N p)
                       (AnalemmaInsetPoint.U p))
         (computeAnalemmaInset currentYear inputs includeObliquity
                               includeEccentricity).
Proof.
  apply Forall_forall. intros p Hp.
  unfold computeAnalemmaInset in Hp. apply in_map_iff in Hp.
  destruct Hp as [n [Hn _]]. subst p. unfold insetPoint.
  cbn [AnalemmaInsetPoint.azimuthDeg AnalemmaInsetPoint.altitudeDeg
       AnalemmaInsetPoint.visible AnalemmaInsetPoint.E AnalemmaInsetPoint.N
       AnalemmaInsetPoint.U].
  apply horizontal_wellFormed.
Qed.

(** C6.  Every point of [computeAnalemmaPoints] and of
    [computeAnalemmaInset] has [E^2 + N^2 + U^2] within 1e-9 of 1, its
    altitude in [-90, 90], its azimuth in [0, 360), and is flagged visible
    exactly when its altitude is positive. *)
Theorem C6_point_invariants :
  forall (currentYear : Z) (inputs : AnalemmaInputs R)
         (includeObliquity includeEccentricity : bool),
    Forall (fun p =>
              wellFormed (AnalemmaPoint.azimuthDeg p) (AnalemmaPoint.altitudeDeg p)
                         (AnalemmaPoint.visible p)
                         (AnalemmaPoint.E p) (AnalemmaPoint.N p) (AnalemmaPoint.U p))
           (computeAnalemmaPoints currentYear inputs) /\
    Forall (fun p =>
              wellFormed (AnalemmaInsetPoint.azimuthDeg p)
                         (AnalemmaInsetPoint.altitudeDeg p)
                         (AnalemmaInsetPoint.visible p)
                         (AnalemmaInsetPoint.E p) (AnalemmaInsetPoint.N p)
                         (AnalemmaInsetPoint.U p))
           (computeAnalemmaInset currentYear inputs includeObliquity
                                 includeEccentricity).
Proof.
  intros currentYear inputs includeObliquity includeEccentricity. split.
  - apply analemmaPoints_wellFormed.
  - apply insetPoints_wellFormed.
Qed.
End ClaimC6.

(* ------------------------------------------------------------------ *)
(** ** C7: the aspect lock *)

Section ClaimC7.
Local Open Scope R_scope.

Ltac Rmax_eval :=
  repeat match goal with
         | |- context [Rmax ?a ?b] =>
             first [ rewrite (Rmax_left a b) by lra
                   | rewrite (Rmax_right a b) by lra ]
         end.

Lemma ratio_exclusive (a b r s : R) :
  r * s = 1 -> 0 < r -> b < a * r -> a < b * s -> False.
Proof.
  intros Hrs Hr Hb Ha.
  pose proof (Rmult_lt_compat_r r _ _ Hr Ha) as H.
  assert (Hb' : b * s * r = b)
    by (rewrite Rmult_assoc, (Rmult_comm s r), Hrs, Rmult_1_r; reflexivity).
  lra.
Qed.

(** The three cases of the function. *)
Lemma scaler_cases (p : ScalerParams R) :
  let out := computeEnuDomainsAspectLocked p in
  let eSpan := Rmax (minSpan p) (width (paddedE p)) in
  let uSpan := Rmax (minSpan p) (width (paddedU p)) in
  let W := safeWidth p in
  let Hh := safeHeight p in
  (uSpan < eSpan * (Hh / W) /\
   eDomain out = paddedE p /\
   width (uDomain out) = eSpan * (Hh / W) /\
   midpoint (uDomain out) = midpoint (paddedU p)) \/
  (~ uSpan < eSpan * (Hh / W) /\ eSpan < uSpan * (W / Hh) /\
   uDomain out = paddedU p /\
   width (eDomain out) = uSpan * (W / Hh) /\
   midpoint (eDomain out) = midpoint (paddedE p)) \/
  (~ uSpan < eSpan * (Hh / W) /\ ~ eSpan < uSpan * (W / Hh) /\
   eDomain out = paddedE p /\ uDomain out = paddedU p).
Proof.
  cbv zeta. rewrite computeEnuDomainsAspectLocked_R. cbv zeta.
  destruct (Rlt_dec _ _) as [Hu | Hu].
  - left. cbn [eDomain uDomain]. unfold width, midpoint. cbn [fst snd].
    repeat split; [exact Hu | lra | lra].
  - destruct (Rlt_dec _ _) as [He | He].
    + right. left. cbn [eDomain uDomain]. unfold width, midpoint. cbn [fst snd].
      repeat split; [exact Hu | exact He | lra | lra].
    + right. right. cbn [eDomain uDomain].
      repeat split; [exact Hu | exact He].
Qed.

Lemma pointParams_domains :
  computeEnuDomainsAspectLocked pointParams =
  mkDomains (-1, 1) (- (1 / 10), 1 / 10).
Proof.
  rewrite computeEnuDomainsAspectLocked_R. cbv zeta.
  unfold midpoint, width, paddedE, paddedU, paddedDomain, safeWidth,
    safeHeight, pointParams.
  cbn [eMin eMax uMin uMax plotWidthPx plotHeightPx padFraction minPadE
       minPadU minSpan fst snd].
  Rmax_eval. cbn [fst snd]. Rmax_eval.
  destruct (Rlt_dec _ _) as [Hu | Hu]; [lra|].
  destruct (Rlt_dec _ _) as [He | He]; [|lra].
  f_equal; f_equal; lra.
Qed.

(** The claim fails on a single observed point with a one-unit minimum
    span: the E domain is stretched to 2 units over 200 pixels, the U
    domain keeps 0.2 units over 100 pixels. *)
Lemma C7_counterexample :
  let out := computeEnuDomainsAspectLocked pointParams in
  (snd (eDomain out) - fst (eDomain out)) / Rmax 1 (plotWidthPx pointParams) = 1 / 100 /\
  (snd (uDomain out) - fst (uDomain out)) / Rmax 1 (plotHeightPx pointParams) = 1 / 500 /\
  (snd (eDomain out) - fst (eDomain out)) / Rmax 1 (plotWidthPx pointParams) <>
  (snd (uDomain out) - fst (uDomain out)) / Rmax 1 (plotHeightPx pointParams).
Proof.
  cbv zeta. rewrite pointParams_domains.
  cbn [eDomain uDomain fst snd plotWidthPx plotHeightPx pointParams].
  Rmax_eval. repeat split; lra.
Qed.

(** C7 (amended).  For every input, with the returned spans floored at
    [minSpan] as the code floors the padded spans, the two axes have equal
    units per pixel; at most one axis is changed, it keeps its midpoint and
    only grows.  When both padded spans are at least [minSpan], the
    returned domains themselves have equal units per pixel, and the axis
    that is expanded is the one whose padded span is smaller than the
    other axis demands, the other domain being returned unchanged. *)
Theorem C7_aspect_lock :
  forall p : ScalerParams R,
    let out := computeEnuDomainsAspectLocked p in
    let W := safeWidth p in
    let Hh := safeHeight p in
    Rmax (minSpan p) (width (eDomain out)) / W =
      Rmax (minSpan p) (width (uDomain out)) / Hh /\
    (eDomain out = paddedE p \/ uDomain out = paddedU p) /\
    midpoint (eDomain out) = midpoint (paddedE p) /\
    midpoint (uDomain out) = midpoint (paddedU p) /\
    (minSpan p <= width (paddedE p) -> minSpan p <= width (paddedU p) ->
     width (eDomain out) / W = width (uDomain out) / Hh /\
     width (paddedE p) <= width (eDomain out) /\
     width (paddedU p) <= width (uDomain out) /\
     (width (paddedU p) < width (paddedE p) * (Hh / W) ->
      eDomain out = paddedE p /\
      width (uDomain out) = width (paddedE p) * (Hh / W)) /\
     (width (paddedE p) < width (paddedU p) * (W / Hh) ->
      uDomain out = paddedU p /\
      width (eDomain out) = width (paddedU p) * (W / Hh))).
Proof.
  intros p out W Hh.
  destruct (safe_positive p) as [HW HH]. fold W in HW. fold Hh in HH.
  pose proof (scaler_cases p) as Hcases. cbv zeta in Hcases.
  fold out W Hh in Hcases.
  set (eSpan := Rmax (minSpan p) (width (paddedE p))) in *.
  set (uSpan := Rmax (minSpan p) (width (paddedU p))) in *.
  assert (HeS : minSpan p <= eSpan) by apply Rmax_l.
  assert (HuS : minSpan p <= uSpan) by apply Rmax_l.
  assert (Hratio : Hh / W * (W / Hh) = 1) by (field; lra).
  assert (HrE : 0 < Hh / W) by (apply Rdiv_lt_0_compat; lra).
  assert (HrU : 0 < W / Hh) by (apply Rdiv_lt_0_compat; lra).
  destruct Hcases as [[Hu [HE [HwU HmU]]]
                     | [[Hu [He [HU [HwE HmE]]]] | [Hu [He [HE HU]]]]].
  - rewrite HE, HwU. fold eSpan.
    split; [rewrite Rmax_right by lra; field; lra|].
    split; [left; reflexivity|]. split; [reflexivity|]. split; [exact HmU|].
    intros HmE HmU'. unfold eSpan, uSpan in *.
    rewrite (Rmax_right _ _ HmE) in *. rewrite (Rmax_right _ _ HmU') in *.
    split; [field; lra|]. split; [lra|]. split; [lra|].
    split; [intros _; split; reflexivity|].
    intros Hlt. exfalso.
    exact (ratio_exclusive _ _ _ _ Hratio HrE Hu Hlt).
  - rewrite HU, HwE. fold uSpan.
    split; [rewrite Rmax_right by lra; field; lra|].
    split; [right; reflexivity|]. split; [exact HmE|]. split; [reflexivity|].
    intros HmE' HmU. unfold eSpan, uSpan in *.
    rewrite (Rmax_right _ _ HmE') in *. rewrite (Rmax_right _ _ HmU) in *.
    split; [field; lra|]. split; [lra|]. split; [lra|].
    split; [intros Hlt; exfalso; lra|].
    intros _. split; reflexivity.
  - rewrite HE, HU. fold eSpan uSpan.
    split; [apply aspect_ratio_balance; lra|].
    split; [left; reflexivity|]. split; [reflexivity|]. split; [reflexivity|].
    intros HmE HmU. unfold eSpan, uSpan in *.
    rewrite (Rmax_right _ _ HmE) in *. rewrite (Rmax_right _ _ HmU) in *.
    split; [apply aspect_ratio_balance; lra|]. split; [lra|]. split; [lra|].
    split; intros Hlt; exfalso; lra.
Qed.

Lemma C7_aspect_lock_witness :
  let out := computeEnuDomainsAspectLocked scenarioD in
  width (eDomain out) / safeWidth scenarioD =
  width (uDomain out) / safeHeight scenarioD.
Proof.
  destruct (C7_aspect_lock scenarioD) as [_ [_ [_ [_ Hlock]]]].
  apply Hlock.
  - unfold width, paddedE, paddedDomain, scenarioD.
    cbn [eMin eMax minPadE padFraction minSpan fst snd].
    Rmax_eval. cbn [fst snd]. lra.
  - unfold width, paddedU, paddedDomain, scenarioD.
    cbn [uMin uMax minPadU padFraction minSpan fst snd].
    Rmax_eval. cbn [fst snd]. lra.
Defined.
End ClaimC7.

(* ------------------------------------------------------------------ *)
(** ** C8: clamping of the clock time *)

Section ClaimC8.
Local Open Scope R_scope.

Lemma clampedClockMinutes_clampTime (inputs : AnalemmaInputs R) :
  clampedClockMinutes (clampTime inputs) = clampedClockMinutes inputs.
Proof.
  unfold clampedClockMinutes, clampTime.
  cbn [timeMode hh mm Math_min Math_max Real.numberLib of_Z Real.number].
  rewrite !clamp_idempotent by lra. reflexivity.
Qed.

Lemma inset_first_point (currentYear : Z) (inputs : AnalemmaInputs R) :
  year inputs = Some 2024%Z ->
  nth_error (computeAnalemmaInset currentYear inputs false false) 0 =
  Some (insetOf (horizontal (deg2rad (latitudeDeg inputs)) 0
                   (deg2rad (H_deg (insetClockMinutes inputs) 0
                                   (longitudeDeg inputs) (tzOffsetHours inputs))))).
Proof.
  intros Hy. unfold computeAnalemmaInset, yearOrCurrent. rewrite Hy.
  change (daysInYear 2024) with 366%Z.
  rewrite (loop_nth _ 366 1) by lia. reflexivity.
Qed.

(** C8.  The main generator clamps the clock time: its output is its
    output for the clamped hour and minute.  The component-filtered
    generator does not: at 24:00 it computes from 1440 minutes where the
    clamped time gives 1380, and its first point has [E = 0] against
    [E > 0] for the clamped time, so the two series differ. *)
Theorem C8_inset_not_clamped :
  (forall (currentYear : Z) (inputs : AnalemmaInputs R),
     computeAnalemmaPoints currentYear inputs =
     computeAnalemmaPoints currentYear (clampTime inputs)) /\
  (forall currentYear : Z,
     insetClockMinutes midnight24 = 1440 /\
     insetClockMinutes (clampTime midnight24) = 1380 /\
     (exists p q : AnalemmaInsetPoint.t R,
        nth_error (computeAnalemmaInset currentYear midnight24 false false) 0
          = Some p /\
        nth_error (computeAnalemmaInset currentYear (clampTime midnight24)
                                        false false) 0 = Some q /\
        AnalemmaInsetPoint.E p = 0 /\ 0 < AnalemmaInsetPoint.E q) /\
     computeAnalemmaInset currentYear midnight24 false false <>
     computeAnalemmaInset currentYear (clampTime midnight24) false false).
Proof.
  split.
  - intros currentYear inputs. unfold computeAnalemmaPoints.
    rewrite clampedClockMinutes_clampTime. reflexivity.
  - intros currentYear.
    assert (H24 : insetClockMinutes midnight24 = 1440)
      by (unfold insetClockMinutes; cbn; lra).
    assert (H23 : insetClockMinutes (clampTime midnight24) = 1380).
    { unfold insetClockMinutes, clampTime. cbn.
      rewrite (Rmax_right 0 24), (Rmin_left 23 24), (Rmax_left 0 0),
        (Rmin_right 59 0) by lra. lra. }
    pose proof (inset_first_point currentYear midnight24 eq_refl) as Hp.
    pose proof (inset_first_point currentYear (clampTime midnight24) eq_refl)
      as Hq.
    rewrite H24 in Hp. rewrite H23 in Hq.
    change (latitudeDeg (clampTime midnight24)) with 0 in Hq.
    change (longitudeDeg (clampTime midnight24)) with 0 in Hq.
    change (tzOffsetHours (clampTime midnight24)) with 0 in Hq.
    change (latitudeDeg midnight24) with 0 in Hp.
    change (longitudeDeg midnight24) with 0 in Hp.
    change (tzOffsetHours midnight24) with 0 in Hp.
    assert (HEp : AnalemmaInsetPoint.E
                    (insetOf (horizontal (deg2rad 0) 0
                                (deg2rad (H_deg 1440 0 0 0)))) = 0).
    { unfold insetOf. cbn [AnalemmaInsetPoint.E]. rewrite horizontal_R.
      cbn [hE]. rewrite H_deg_R.
      rewrite <- (Rmodulo_unique (1440 + 0 + 4 * (0 - 15 * 0)) 1440 0 1);
        [| lra | simpl; lra | lra].
      rewrite deg2rad_R.
      replace ((0 / 4 - 180) * PI / 180) with (- PI) by (field; lra).
      rewrite sin_neg, sin_PI. ring. }
    assert (HEq : 0 < AnalemmaInsetPoint.E
                        (insetOf (horizontal (deg2rad 0) 0
                                    (deg2rad (H_deg 1380 0 0 0))))).
    { unfold insetOf. cbn [AnalemmaInsetPoint.E]. rewrite horizontal_R.
      cbn [hE]. rewrite H_deg_R.
      rewrite <- (Rmodulo_unique (1380 + 0 + 4 * (0 - 15 * 0)) 1440 1380 0);
        [| lra | simpl; lra | lra].
      rewrite deg2rad_R, cos_0, Rmult_1_l.
      pose proof PI_RGT_0 as Hpi.
      apply sin_gt_0; lra. }
    split; [exact H24|]. split; [exact H23|]. split.
    + eexists. eexists. split; [exact Hp|]. split; [exact Hq|].
      split; [exact HEp | exact HEq].
    + intros Heq. rewrite Heq, Hq in Hp.
      assert (HE : AnalemmaInsetPoint.E
                     (insetOf (horizontal (deg2rad 0) 0
                                 (deg2rad (H_deg 1380 0 0 0)))) =
                   AnalemmaInsetPoint.E
                     (insetOf (horizontal (deg2rad 0) 0
                                 (deg2rad (H_deg 1440 0 0 0)))))
        by congruence.
      rewrite HEp in HE. lra.
Qed.
End ClaimC8.

(* ------------------------------------------------------------------ *)
(** ** Not-a-number in the binary64 model *)

Section NotANumber.
Local Open Scope float_scope.

Lemma Prim2SF_nan : Prim2SF PrimFloat.nan = S754_nan.
Proof. reflexivity. Qed.

Lemma add_nan_l (x : float) : PrimFloat.nan + x = PrimFloat.nan.
Proof. apply Prim2SF_inj. rewrite add_spec, Prim2SF_nan. reflexivity. Qed.

Lemma add_nan_r (x : float) : x + PrimFloat.nan = PrimFloat.nan.
Proof.
  apply Prim2SF_inj. rewrite add_spec, Prim2SF_nan.
  destruct (Prim2SF x); reflexivity.
Qed.

Lemma sub_nan_r (x : float) : x - PrimFloat.nan = PrimFloat.nan.
Proof.
  apply Prim2SF_inj. rewrite sub_spec, Prim2SF_nan.
  destruct (Prim2SF x); reflexivity.
Qed.

Lemma mul_nan_r (x : float) : x * PrimFloat.nan = PrimFloat.nan.
Proof.
  apply Prim2SF_inj. rewrite mul_spec, Prim2SF_nan.
  destruct (Prim2SF x); reflexivity.
Qed.

Section Libm.
Variables libm_sin libm_cos libm_asin : float -> float.
Variable libm_atan2 : float -> float -> float.
Hypothesis sin_nan : libm_sin PrimFloat.nan = PrimFloat.nan.
Hypothesis cos_nan : libm_cos PrimFloat.nan = PrimFloat.nan.
Hypothesis asin_nan : libm_asin PrimFloat.nan = PrimFloat.nan.
Hypothesis atan2_nan : libm_atan2 PrimFloat.nan PrimFloat.nan = PrimFloat.nan.

Let M : Number float := Binary64.number libm_sin libm_cos.
Let L : @NumberLib float M :=
  Binary64Lib.numberLib libm_sin libm_cos libm_asin libm_atan2.

(** Without a clock time there is no hour angle. *)
Lemma H_deg_nan (eot lon tz : float) :
  @deg2rad float M (@H_deg float M L PrimFloat.nan eot lon tz) = PrimFloat.nan.
Proof.
  unfold H_deg, trueSolarTimeMin, deg2rad.
  cbn [add sub mul div rem of_Z Math_PI M L Binary64.number
       Binary64Lib.numberLib].
  rewrite add_nan_l. reflexivity.
Qed.

(** Without an hour angle there is no position. *)
Lemma horizontal_nan (phi delta : float) :
  @horizontal float M L phi delta PrimFloat.nan =
  mkHorizontal PrimFloat.nan PrimFloat.nan false
               PrimFloat.nan PrimFloat.nan PrimFloat.nan.
Proof.
  unfold horizontal, normalizeDeg, rad2deg.
  cbn [add sub mul div neg rem ltb of_Z Math_PI Math_sin Math_cos Math_max
       Math_min Math_asin Math_atan2 M L Binary64.number
       Binary64Lib.numberLib].
  rewrite sin_nan, cos_nan.
  rewrite !mul_nan_r, sub_nan_r, add_nan_r.
  change (Binary64Lib.max (- Binary64.from_Z 1)
            (Binary64Lib.min (Binary64.from_Z 1) PrimFloat.nan))
    with PrimFloat.nan.
  rewrite asin_nan, atan2_nan. reflexivity.
Qed.

Lemma solarNoon_points (currentYear : Z) (lat lon tz : float) (y : option Z) :
  let inputs := mkInputs lat lon (asTimeMode solarNoonObject) tz y in
  let year := yearOrCurrent currentYear inputs in
  @computeAnalemmaPoints float M L currentYear inputs =
  map (fun n => AnalemmaPoint.mk (dateFromDayOfYear year n)
                  PrimFloat.nan PrimFloat.nan false
                  PrimFloat.nan PrimFloat.nan PrimFloat.nan)
      (loopDays (daysInYear year)).
Proof.
  intros inputs year. unfold computeAnalemmaPoints. fold year.
  apply map_ext. intros n. unfold analemmaPoint.
  change (@clampedClockMinutes float M L inputs) with PrimFloat.nan.
  rewrite H_deg_nan, horizontal_nan. reflexivity.
Qed.
End Libm.
End NotANumber.

(* ------------------------------------------------------------------ *)
(** ** C9: the time mode *)

Section ClaimC9.
Local Open Scope R_scope.

Lemma eotMin_bound (g : R) : -20.6 <= eotMin g <= 20.6.
Proof.
  rewrite eotMin_R.
  pose proof (SIN_bound g). pose proof (COS_bound g).
  pose proof (SIN_bound (2 * g)). pose proof (COS_bound (2 * g)).
  lra.
Qed.

(** C9 (code bug).  A series asked for solar noon is not computed.  The
    claim wants it computed as hour 12, minute 0: 720 clock minutes, a
    well-formed series of [daysInYear year] points, with an hour angle on
    the zone meridian of a quarter of the equation of time, within 5.2
    degrees of 0 (real arithmetic).  The code reads [hh] and [mm] of the
    object [{ kind: 'solarNoon' }], which has neither: whatever the
    library functions return, as long as they return NaN at NaN, the clock
    minutes are NaN and not 720, and every one of the [daysInYear year]
    points has NaN for its azimuth, altitude, East, North and Up, is
    flagged invisible, and its azimuth passes neither test of the range
    from 0 to 360. *)
Theorem C9_solar_noon_is_not_computed :
  forall (libm_sin libm_cos libm_asin : float -> float)
         (libm_atan2 : float -> float -> float),
    libm_sin PrimFloat.nan = PrimFloat.nan ->
    libm_cos PrimFloat.nan = PrimFloat.nan ->
    libm_asin PrimFloat.nan = PrimFloat.nan ->
    libm_atan2 PrimFloat.nan PrimFloat.nan = PrimFloat.nan ->
    (forall (currentYear : Z) (lat lon tz : float) (y : option Z),
       let M := Binary64.number libm_sin libm_cos in
       let L := Binary64Lib.numberLib libm_sin libm_cos libm_asin libm_atan2 in
       let inputs := mkInputs lat lon (asTimeMode solarNoonObject) tz y in
       let points := @computeAnalemmaPoints float M L currentYear inputs in
       objKind solarNoonObject = "solarNoon"%string /\
       @clampedClockMinutes float M L inputs = PrimFloat.nan /\
       PrimFloat.eqb (@clampedClockMinutes float M L inputs)
                     (Binary64.from_Z 720) = false /\
       Z.of_nat (List.length points) =
         daysInYear (yearOrCurrent currentYear inputs) /\
       Forall (fun p =>
                 AnalemmaPoint.azimuthDeg p = PrimFloat.nan /\
                 AnalemmaPoint.altitudeDeg p = PrimFloat.nan /\
                 AnalemmaPoint.visible p = false /\
                 AnalemmaPoint.E p = PrimFloat.nan /\
                 AnalemmaPoint.N p = PrimFloat.nan /\
                 AnalemmaPoint.U p = PrimFloat.nan /\
                 PrimFloat.leb (Binary64.from_Z 0) (AnalemmaPoint.azimuthDeg p)
                   = false /\
                 PrimFloat.ltb (AnalemmaPoint.azimuthDeg p) (Binary64.from_Z 360)
                   = false)
              points) /\
    (forall (currentYear : Z) (lat lon tz : R) (y : option Z),
       let inputs := mkInputs lat lon (fixedLocalTime 12 0) tz y in
       clampedClockMinutes inputs = 720 /\
       Z.of_nat (List.length (computeAnalemmaPoints currentYear inputs)) =
         daysInYear (yearOrCurrent currentYear inputs) /\
       Forall (fun p =>
                 wellFormed (AnalemmaPoint.azimuthDeg p)
                            (AnalemmaPoint.altitudeDeg p) (AnalemmaPoint.visible p)
                            (AnalemmaPoint.E p) (AnalemmaPoint.N p)
                            (AnalemmaPoint.U p))
              (computeAnalemmaPoints currentYear inputs)) /\
    (forall g tz : R,
       H_deg 720 (eotMin g) (15 * tz) tz = eotMin g / 4 /\
       Rabs (eotMin g / 4) <= 5.2).
Proof.
  intros libm_sin libm_cos libm_asin libm_atan2 Hsin Hcos Hasin Hatan2.
  split; [| split].
  - intros currentYear lat lon tz y M L inputs points.
    assert (Hpts := solarNoon_points libm_sin libm_cos libm_asin libm_atan2
                      Hsin Hcos Hasin Hatan2 currentYear lat lon tz y).
    cbv zeta in Hpts. fold M L inputs points in Hpts.
    split; [reflexivity|]. split; [reflexivity|]. split; [reflexivity|].
    split.
    + unfold points, computeAnalemmaPoints. apply loop_length, daysInYear_nonneg.
    + rewrite Hpts. apply Forall_forall. intros p Hp.
      apply in_map_iff in Hp. destruct Hp as [n [Hn _]]. subst p.
      cbn [AnalemmaPoint.azimuthDeg AnalemmaPoint.altitudeDeg
           AnalemmaPoint.visible AnalemmaPoint.E AnalemmaPoint.N
           AnalemmaPoint.U].
      repeat split; reflexivity.
  - intros currentYear lat lon tz y inputs.
    split; [apply clampedClockMinutes_noon|].
    split.
    + unfold computeAnalemmaPoints. apply loop_length, daysInYear_nonneg.
    + apply analemmaPoints_wellFormed.
  - intros g tz. pose proof (eotMin_bound g) as Hb. split.
    + apply H_deg_noon. lra.
    + apply Rabs_le. lra.
Qed.

Lemma C9_solar_noon_is_not_computed_witness :
  let M := Binary64.number (fun x => x) (fun x => x) in
  let L := Binary64Lib.numberLib (fun x => x) (fun x => x) (fun x => x)
             (fun y x => y) in
  let inputs := mkInputs (Binary64.from_Z 0) (Binary64.from_Z 0)
                  (asTimeMode solarNoonObject) (Binary64.from_Z 0)
                  (Some 2024%Z) in
  @clampedClockMinutes float M L inputs = PrimFloat.nan /\
  Z.of_nat (List.length (@computeAnalemmaPoints float M L 2026 inputs)) = 366%Z /\
  Forall (fun p => AnalemmaPoint.azimuthDeg p = PrimFloat.nan /\
                   AnalemmaPoint.visible p = false)
         (@computeAnalemmaPoints float M L 2026 inputs).
Proof.
  destruct (C9_solar_noon_is_not_computed
              (fun x => x) (fun x => x) (fun x => x) (fun y x => y)
              eq_refl eq_refl eq_refl eq_refl) as [Hbug _].
  destruct (Hbug 2026%Z (Binary64.from_Z 0) (Binary64.from_Z 0)
                 (Binary64.from_Z 0) (Some 2024%Z))
    as [_ [Hclock [_ [Hlen Hall]]]].
  split; [exact Hclock|]. split; [exact Hlen|].
  apply Forall_forall. intros p Hp.
  rewrite Forall_forall in Hall. destruct (Hall p Hp) as [Haz [_ [Hvis _]]].
  split; assumption.
Defined.
End ClaimC9.

(* ------------------------------------------------------------------ *)
(** ** C10: a day outside the year *)

Section ClaimC10.
Local Open Scope Z_scope.

(** The claim fails: day 367 of 2024 and day 0 of 2024 are outside
    [1, 366], and [dateFromDayOfYear] returns calendar dates for them. *)
Lemma C10_counterexample :
  daysInYear 2024 = 366 /\
  dateFromDayOfYear 2024 367 = "2025-01-01"%string /\
  dateFromDayOfYear 2024 0 = "2023-12-31"%string.
Proof. repeat split; vm_compute; reflexivity. Qed.

(** C10 (amended).  For a year from 1001 to 9998, [dateFromDayOfYear] does
    not fail on a day outside [1, daysInYear year].  For a day up to a year
    past the end it returns the ISO date reached by adding [day - 1] whole
    days to January 1 of the year, which is that of day [n] of the next
    year when the day is [daysInYear year + n]; for a day up to a year
    before day 1 it returns the ISO date of the previous year that lies as
    many days back. *)
Theorem C10_out_of_range_day_rolls_over :
  forall year n : Z,
    1001 <= year <= 9998 ->
    (1 <= n <= daysInYear (year + 1) ->
     dateFromDayOfYear year (daysInYear year + n) =
       isoDayOfYear year (daysInYear year + n) /\
     dateFromDayOfYear year (daysInYear year + n) = isoDayOfYear (year + 1) n) /\
    (1 <= n <= daysInYear (year - 1) ->
     dateFromDayOfYear year (n - daysInYear (year - 1)) =
       isoDayOfYear (year - 1) n).
Proof.
  intros year n Hy. split; intros Hn.
  - rewrite isoDayOfYear_next by lia.
    rewrite dateFromDayOfYear_next by (unfold plainYear; lia).
    split; apply dateFromDayOfYear_iso; lia.
  - rewrite dateFromDayOfYear_previous by (unfold plainYear; lia).
    apply dateFromDayOfYear_iso; lia.
Qed.

Lemma C10_out_of_range_day_rolls_over_witness :
  dateFromDayOfYear 2024 (daysInYear 2024 + 1) = isoDayOfYear (2024 + 1) 1 /\
  dateFromDayOfYear 2024 (365 - daysInYear (2024 - 1)) =
    isoDayOfYear (2024 - 1) 365.
Proof.
  destruct (C10_out_of_range_day_rolls_over 2024 1) as [Hnext _]; [lia|].
  destruct (C10_out_of_range_day_rolls_over 2024 365) as [_ Hprev]; [lia|].
  split.
  - apply Hnext. change (daysInYear (2024 + 1)) with 365. lia.
  - apply Hprev. change (daysInYear (2024 - 1)) with 365. lia.
Defined.
End ClaimC10.

(* ------------------------------------------------------------------ *)
(** ** Angles *)

Section Angles.
Local Open Scope R_scope.

Lemma Rmodulo_shift (x m : R) (k : Z) :
  0 < m -> Rmodulo (x + m * IZR k) m = Rmodulo x m.
Proof.
  intros Hm. symmetry.
  apply (Rmodulo_unique (x + m * IZR k) m _ (Int_part (x / m) + k)).
  - assumption.
  - unfold Rmodulo. rewrite plus_IZR. ring.
  - apply Rmodulo_range. assumption.
Qed.

Lemma Rmodulo_small (x m : R) : 0 <= x < m -> Rmodulo x m = x.
Proof.
  intros Hx. symmetry. apply (Rmodulo_unique x m x 0); [lra | simpl; ring | lra].
Qed.

(** X1: degrees to radians and back is the identity, both ways. *)
Theorem deg2rad_rad2deg_round_trip (x : R) :
  rad2deg (deg2rad x) = x /\ deg2rad (rad2deg x) = x.
Proof.
  rewrite !deg2rad_R, !rad2deg_R. pose proof PI_RGT_0 as Hpi.
  split; field; lra.
Qed.

End Angles.

(* ------------------------------------------------------------------ *)
(** ** The inset against the main series *)

Section Inset.
Local Open Scope R_scope.

Lemma insetEotMin_full (g : R) : insetEotMin true true g = eotMin g.
Proof.
  unfold insetEotMin. rewrite obliquityComponent_R, eccentricityComponent_R, eotMin_R.
  change (of_Z 0) with 0. change add with Rplus. lra.
Qed.

Lemma insetClockMinutes_in_range (inputs : AnalemmaInputs R) :
  0 <= hh (timeMode inputs) <= 23 -> 0 <= mm (timeMode inputs) <= 59 ->
  insetClockMinutes inputs = clampedClockMinutes inputs.
Proof.
  intros Hh Hm. unfold insetClockMinutes, clampedClockMinutes. cbn.
  rewrite (clamp_in_range 0 23), (clamp_in_range 0 59) by assumption.
  reflexivity.
Qed.

Lemma inset_full_positions (currentYear : Z) (inputs : AnalemmaInputs R) :
  0 <= hh (timeMode inputs) <= 23 -> 0 <= mm (timeMode inputs) <= 59 ->
  computeAnalemmaInset currentYear inputs true true =
  map position (computeAnalemmaPoints currentYear inputs).
Proof.
  intros Hh Hm. unfold computeAnalemmaInset, computeAnalemmaPoints.
  rewrite map_map. rewrite insetClockMinutes_in_range by assumption.
  apply map_ext. intros n.
  unfold insetPoint, analemmaPoint, position, insetDecl.
  cbn [AnalemmaPoint.azimuthDeg AnalemmaPoint.altitudeDeg AnalemmaPoint.visible
       AnalemmaPoint.E AnalemmaPoint.N AnalemmaPoint.U].
  rewrite insetEotMin_full. reflexivity.
Qed.

Lemma inset_eot_differs_on_day165 (s1 c1 s2 c2 : float) :
  In s1 (Day165.near Day165.sin_g) -> In c1 (Day165.near Day165.cos_g) ->
  In s2 (Day165.near Day165.sin_2g) -> In c2 (Day165.near Day165.cos_2g) ->
  insetAgreesOnDay165 s1 c1 s2 c2 = false.
Proof.
  intros H1 H2 H3 H4.
  assert (Hall : forallb (fun s1 => forallb (fun c1 => forallb (fun s2 =>
            forallb (fun c2 => negb (insetAgreesOnDay165 s1 c1 s2 c2))
              (Day165.near Day165.cos_2g)) (Day165.near Day165.sin_2g))
              (Day165.near Day165.cos_g)) (Day165.near Day165.sin_g) = true)
    by (vm_compute; reflexivity).
  rewrite forallb_forall in Hall. specialize (Hall s1 H1).
  rewrite forallb_forall in Hall. specialize (Hall c1 H2).
  rewrite forallb_forall in Hall. specialize (Hall s2 H3).
  rewrite forallb_forall in Hall. specialize (Hall c2 H4).
  apply negb_true_iff in Hall. exact Hall.
Qed.

(** X3: in exact real arithmetic, with both components switched on and a
    clock time in range, the inset is the main analemma: the same
    positions in the same order.  On doubles the two generators do not
    start from the same equation of time: on 13 June 2024 the sum of the
    two components that the inset uses is not the double that the single
    series of the main generator gives, whatever [Math.sin] and
    [Math.cos] return within two units in the last place. *)
Theorem inset_full_is_main (currentYear : Z) (inputs : AnalemmaInputs R)
    (s1 c1 s2 c2 : float) :
  0 <= hh (timeMode inputs) <= 23 -> 0 <= mm (timeMode inputs) <= 59 ->
  In s1 (Day165.near Day165.sin_g) -> In c1 (Day165.near Day165.cos_g) ->
  In s2 (Day165.near Day165.sin_2g) -> In c2 (Day165.near Day165.cos_2g) ->
  computeAnalemmaInset currentYear inputs true true =
    map position (computeAnalemmaPoints currentYear inputs) /\
  insetAgreesOnDay165 s1 c1 s2 c2 = false.
Proof.
  intros Hh Hm H1 H2 H3 H4. split.
  - apply inset_full_positions; assumption.
  - apply inset_eot_differs_on_day165; assumption.
Qed.

Lemma inset_full_is_main_witness :
  computeAnalemmaInset 2026 equatorNoon2024 true true =
    map position (computeAnalemmaPoints 2026 equatorNoon2024) /\
  insetAgreesOnDay165 Day165.sin_g Day165.cos_g Day165.sin_2g Day165.cos_2g
    = false.
Proof.
  apply inset_full_is_main;
    [ cbn; lra | cbn; lra
    | right; right; left; reflexivity | right; right; left; reflexivity
    | right; right; left; reflexivity | right; right; left; reflexivity ].
Defined.

(** X4: with the obliquity switched off the sun stays on the celestial
    equator, whatever the eccentricity switch: every position is
    perpendicular to the polar axis, [sin phi * U + cos phi * N = 0].  With
    both components switched off the inset does not move at all: every day
    has the position of the mean sun at the clock time. *)
Theorem inset_without_obliquity
    (currentYear : Z) (inputs : AnalemmaInputs R) (includeEccentricity : bool) :
  let phi := deg2rad (latitudeDeg inputs) in
  let H := deg2rad (H_deg (insetClockMinutes inputs) 0 (longitudeDeg inputs)
                          (tzOffsetHours inputs)) in
  Forall (fun p =>
            sin phi * AnalemmaInsetPoint.U p + cos phi * AnalemmaInsetPoint.N p = 0)
         (computeAnalemmaInset currentYear inputs false includeEccentricity) /\
  Forall (fun p => p = insetOf (horizontal phi 0 H))
         (computeAnalemmaInset currentYear inputs false false).
Proof.
  cbv zeta. split.
  - apply Forall_forall. intros p Hp.
    unfold computeAnalemmaInset in Hp. apply in_map_iff in Hp.
    destruct Hp as [n [Hn _]]. subst p. unfold insetPoint, insetDecl.
    cbn [AnalemmaInsetPoint.U AnalemmaInsetPoint.N].
    rewrite horizontal_R. cbn [hU hN].
    change (of_Z 0) with 0. rewrite sin_0, cos_0. ring.
  - apply Forall_forall. intros p Hp.
    unfold computeAnalemmaInset in Hp. apply in_map_iff in Hp.
    destruct Hp as [n [Hn _]]. subst p. reflexivity.
Qed.
End Inset.

(* ------------------------------------------------------------------ *)
(** ** The scaler and the scales of its callers *)

Section Scales.
Local Open Scope R_scope.

Ltac Rmax_lra :=
  repeat match goal with
         | |- context [Rmax ?a ?b] =>
             first [ rewrite (Rmax_left a b) by lra
                   | rewrite (Rmax_right a b) by lra ]
         end.

(** The returned domains contain the padded ones. *)
Lemma scaler_contains_padded (p : ScalerParams R) :
  let out := computeEnuDomainsAspectLocked p in
  fst (eDomain out) <= fst (paddedE p) /\ snd (paddedE p) <= snd (eDomain out) /\
  fst (uDomain out) <= fst (paddedU p) /\ snd (paddedU p) <= snd (uDomain out).
Proof.
  cbv zeta. rewrite computeEnuDomainsAspectLocked_R. cbv zeta.
  pose proof (Rmax_r (minSpan p) (width (paddedE p))) as HeS.
  pose proof (Rmax_r (minSpan p) (width (paddedU p))) as HuS.
  unfold width, midpoint in *.
  destruct (Rlt_dec _ _) as [Hu | Hu].
  - cbn [eDomain uDomain fst snd]. repeat split; lra.
  - destruct (Rlt_dec _ _) as [He | He].
    + cbn [eDomain uDomain fst snd]. repeat split; lra.
    + cbn [eDomain uDomain fst snd]. repeat split; lra.
Qed.

Lemma scaler_margins (p : ScalerParams R) :
  0 <= minPadE p -> 0 <= minPadU p ->
  let out := computeEnuDomainsAspectLocked p in
  fst (eDomain out) <= eMin p - minPadE p /\
  eMax p + minPadE p <= snd (eDomain out) /\
  fst (uDomain out) <= uMin p - minPadU p /\
  uMax p + minPadU p <= snd (uDomain out).
Proof.
  intros HpE HpU. cbv zeta.
  destruct (scaler_contains_padded p) as [H1 [H2 [H3 H4]]].
  unfold paddedE, paddedU, paddedDomain in *. cbn [fst snd] in *.
  pose proof (Rmax_l (minPadE p)
                (Rmax (minSpan p) (eMax p - eMin p) * padFraction p)).
  pose proof (Rmax_l (minPadU p)
                (Rmax (minSpan p) (uMax p - uMin p) * padFraction p)).
  repeat split; lra.
Qed.

(** X5: when the minimum pads are not negative, the returned domains keep
    the data range with at least the minimum pad on each side, whichever
    axis is expanded. *)
Theorem scaler_keeps_data_inside (p : ScalerParams R) :
  0 <= minPadE p -> 0 <= minPadU p ->
  let out := computeEnuDomainsAspectLocked p in
  fst (eDomain out) <= eMin p - minPadE p /\
  eMax p + minPadE p <= snd (eDomain out) /\
  fst (uDomain out) <= uMin p - minPadU p /\
  uMax p + minPadU p <= snd (uDomain out).
Proof. apply scaler_margins. Qed.

Lemma scaler_keeps_data_inside_witness :
  let out := computeEnuDomainsAspectLocked scenarioD in
  fst (eDomain out) <= -1 - 1 / 10 /\ 1 + 1 / 10 <= snd (eDomain out) /\
  fst (uDomain out) <= 0 - 5 / 100 /\ 1 + 5 / 100 <= snd (uDomain out).
Proof.
  apply (scaler_keeps_data_inside scenarioD); cbn; lra.
Defined.

(** With the callers' constants and a plot box of at least one pixel each
    way, the domains are locked and keep the data inside. *)
Lemma callers_domains (emin emax umin umax W Hh : R) :
  emin <= emax -> umin <= umax -> 1 <= W -> 1 <= Hh ->
  let out := computeEnuDomainsAspectLocked
               (enuViewParams emin emax umin umax W Hh) in
  fst (eDomain out) <= emin - 1 / 10 /\ emax + 1 / 10 <= snd (eDomain out) /\
  fst (uDomain out) <= umin - 5 / 100 /\ umax + 5 / 100 <= snd (uDomain out) /\
  width (eDomain out) / W = width (uDomain out) / Hh.
Proof.
  intros He Hu HW HH. cbv zeta.
  set (p := enuViewParams emin emax umin umax W Hh).
  destruct (scaler_margins p) as [H1 [H2 [H3 H4]]];
    [cbn; lra | cbn; lra |].
  cbn [eMin eMax uMin uMax minPadE minPadU p enuViewParams] in H1, H2, H3, H4.
  change (dec 1 1) with (1 / 10) in *. change (dec 5 2) with (5 / 100) in *.
  split; [lra|]. split; [lra|]. split; [lra|]. split; [lra|].
  assert (HsW : safeWidth p = W)
    by (unfold safeWidth; cbn; apply Rmax_right; assumption).
  assert (HsH : safeHeight p = Hh)
    by (unfold safeHeight; cbn; apply Rmax_right; assumption).
  assert (HwE : 2 / 10 <= width (paddedE p)).
  { unfold width, paddedE, paddedDomain. cbn [fst snd p enuViewParams
      eMin eMax minPadE padFraction minSpan].
    change (dec 1 1) with (1 / 10).
    pose proof (Rmax_l (1 / 10) (Rmax (dec 1 6) (emax - emin) * (1 / 10))). lra. }
  assert (HwU : 1 / 10 <= width (paddedU p)).
  { unfold width, paddedU, paddedDomain. cbn [fst snd p enuViewParams
      uMin uMax minPadU padFraction minSpan].
    change (dec 5 2) with (5 / 100).
    pose proof (Rmax_l (5 / 100) (Rmax (dec 1 6) (umax - umin) * dec 1 1)). lra. }
  assert (Hms : minSpan p = 1 / 1000000) by reflexivity.
  pose proof (scaler_cases p) as Hcases. cbv zeta in Hcases.
  rewrite HsW, HsH in Hcases.
  rewrite (Rmax_right (minSpan p) (width (paddedE p))) in Hcases by lra.
  rewrite (Rmax_right (minSpan p) (width (paddedU p))) in Hcases by lra.
  destruct Hcases as [[Hlt [HE [HwU' HmU]]]
                     | [[Hnlt [Hlt [HU [HwE' HmE]]]] | [Hn1 [Hn2 [HE HU]]]]].
  - rewrite HE, HwU'. field; lra.
  - rewrite HU, HwE'. field; lra.
  - rewrite HE, HU. apply aspect_ratio_balance; lra.
Qed.

(** Two linear scales over locked domains have the same slope and keep
    the data strictly inside the box. *)
Lemma locked_scales (ox oy W Hh e0 e1 u0 u1 emin emax umin umax : R) :
  0 < W -> 0 < Hh ->
  e0 < emin -> emin <= emax -> emax < e1 ->
  u0 < umin -> umin <= umax -> umax < u1 ->
  (e1 - e0) / W = (u1 - u0) / Hh ->
  let X := fun e => ox + (e - e0) / (e1 - e0) * W in
  let Y := fun u => oy + (1 - (u - u0) / (u1 - u0)) * Hh in
  exists k : R, 0 < k /\
    (forall a b, X b - X a = k * (b - a)) /\
    (forall a b, Y a - Y b = k * (b - a)) /\
    (forall e, emin <= e <= emax -> ox < X e < ox + W) /\
    (forall u, umin <= u <= umax -> oy < Y u < oy + Hh).
Proof.
  intros HW HH He0 He He1 Hu0 Hu Hu1 Hlock X Y.
  exists (W / (e1 - e0)).
  assert (Hk : W / (e1 - e0) = Hh / (u1 - u0)).
  { replace (W / (e1 - e0)) with (/ ((e1 - e0) / W)) by (field; lra).
    rewrite Hlock. field; lra. }
  assert (Hkpos : 0 < W / (e1 - e0)) by (apply Rdiv_lt_0_compat; lra).
  split; [assumption|].
  split; [intros a b; unfold X; field; lra|].
  split; [intros a b; unfold Y; rewrite Hk; field; lra|].
  split.
  - intros e Hin. unfold X.
    assert (Hq : 0 < (e - e0) / (e1 - e0) < 1).
    { split; [apply Rdiv_lt_0_compat; lra|].
      apply (Rmult_lt_reg_r (e1 - e0)); [lra|].
      unfold Rdiv. rewrite Rmult_assoc, Rinv_l by lra. lra. }
    nra.
  - intros u Hin. unfold Y.
    assert (Hq : 0 < (u - u0) / (u1 - u0) < 1).
    { split; [apply Rdiv_lt_0_compat; lra|].
      apply (Rmult_lt_reg_r (u1 - u0)); [lra|].
      unfold Rdiv. rewrite Rmult_assoc, Rinv_l by lra. lra. }
    nra.
Qed.

(** X6: in the East-Up view, whatever the size of the window, one unit of
    East and one unit of Up take the same number of pixels, and every
    value of the data range falls strictly inside the plot box. *)
Theorem enu_view_is_not_stretched (w h emin emax umin umax : R) :
  emin <= emax -> umin <= umax ->
  let W := viewPlotWidthPx w in
  let Hh := viewPlotHeightPx h in
  let out := computeEnuDomainsAspectLocked
               (enuViewParams emin emax umin umax W Hh) in
  let xScale := enuXScale viewPadding W (eDomain out) in
  let yScale := enuYScale viewPadding Hh (uDomain out) in
  exists k : R, 0 < k /\
    (forall e1 e2, xScale e2 - xScale e1 = k * (e2 - e1)) /\
    (forall u1 u2, yScale u1 - yScale u2 = k * (u2 - u1)) /\
    (forall e, emin <= e <= emax ->
               viewPadding < xScale e < viewPadding + W) /\
    (forall u, umin <= u <= umax ->
               viewPadding < yScale u < viewPadding + Hh).
Proof.
  intros He Hu W Hh out xScale yScale.
  assert (HW : 1 <= W) by apply Rmax_l.
  assert (HH : 1 <= Hh) by apply Rmax_l.
  destruct (callers_domains emin emax umin umax W Hh He Hu HW HH)
    as [H1 [H2 [H3 [H4 Hlock]]]].
  fold out in H1, H2, H3, H4, Hlock. unfold width in Hlock.
  set (e0 := fst (eDomain out)) in *. set (e1 := snd (eDomain out)) in *.
  set (u0 := fst (uDomain out)) in *. set (u1 := snd (uDomain out)) in *.
  assert (HxS : xScale = fun e => 40 + (e - e0) / (e1 - e0) * W).
  { unfold xScale, enuXScale. fold e0 e1.
    change ((fun e => 40 + (e - e0) / Rmax (1 / 1000000) (e1 - e0) * W)
            = (fun e => 40 + (e - e0) / (e1 - e0) * W)).
    rewrite Rmax_right by lra. reflexivity. }
  assert (HyS : yScale = fun u => 40 + (1 - (u - u0) / (u1 - u0)) * Hh).
  { unfold yScale, enuYScale. fold u0 u1.
    change ((fun u => 40 + (1 - (u - u0) / Rmax (1 / 1000000) (u1 - u0)) * Hh)
            = (fun u => 40 + (1 - (u - u0) / (u1 - u0)) * Hh)).
    rewrite Rmax_right by lra. reflexivity. }
  rewrite HxS, HyS. change viewPadding with 40.
  apply (locked_scales 40 40 W Hh e0 e1 u0 u1 emin emax umin umax); lra.
Qed.

Lemma enu_view_is_not_stretched_witness :
  let W := viewPlotWidthPx 800 in
  let Hh := viewPlotHeightPx 560 in
  let out := computeEnuDomainsAspectLocked (enuViewParams (-1) 1 0 1 W Hh) in
  let xScale := enuXScale viewPadding W (eDomain out) in
  let yScale := enuYScale viewPadding Hh (uDomain out) in
  exists k : R, 0 < k /\
    (forall e1 e2, xScale e2 - xScale e1 = k * (e2 - e1)) /\
    (forall u1 u2, yScale u1 - yScale u2 = k * (u2 - u1)) /\
    (forall e, -1 <= e <= 1 -> viewPadding < xScale e < viewPadding + W) /\
    (forall u, 0 <= u <= 1 -> viewPadding < yScale u < viewPadding + Hh).
Proof.
  apply (enu_view_is_not_stretched 800 560 (-1) 1 0 1); lra.
Defined.

(** X7: the inset of the equation-of-time chart is not stretched either,
    once its box is at least one pixel each way (a chart at least 8 pixels
    wide and 4 pixels high). *)
Theorem inset_is_not_stretched (w h emin emax umin umax : R) :
  emin <= emax -> umin <= umax -> 8 <= w -> 4 <= h ->
  let out := computeEnuDomainsAspectLocked
               (enuViewParams emin emax umin umax (insetWidth w) (insetHeight h)) in
  let xScale := insetXScale (insetX w) (insetWidth w) (eDomain out) in
  let yScale := insetYScale (insetY h) (insetHeight h) (uDomain out) in
  exists k : R, 0 < k /\
    (forall e1 e2, xScale e2 - xScale e1 = k * (e2 - e1)) /\
    (forall u1 u2, yScale u1 - yScale u2 = k * (u2 - u1)) /\
    (forall e, emin <= e <= emax ->
               insetX w < xScale e < insetX w + insetWidth w) /\
    (forall u, umin <= u <= umax ->
               insetY h < yScale u < insetY h + insetHeight h).
Proof.
  intros He Hu Hw Hh out xScale yScale.
  assert (HW : 1 <= insetWidth w).
  { unfold insetWidth. change (1 <= Rmin (w * (14 / 100)) 115).
    apply Rmin_glb; lra. }
  assert (HH : 1 <= insetHeight h).
  { unfold insetHeight. change (1 <= Rmin (h * (28 / 100)) 115).
    apply Rmin_glb; lra. }
  destruct (callers_domains emin emax umin umax _ _ He Hu HW HH)
    as [H1 [H2 [H3 [H4 Hlock]]]].
  fold out in H1, H2, H3, H4, Hlock. unfold width in Hlock.
  unfold xScale, yScale, insetXScale, insetYScale.
  apply (locked_scales (insetX w) (insetY h) (insetWidth w) (insetHeight h)
           _ _ _ _ emin emax umin umax); lra.
Qed.

Lemma inset_is_not_stretched_witness :
  let out := computeEnuDomainsAspectLocked
               (enuViewParams (-1) 1 0 1 (insetWidth 800) (insetHeight 400)) in
  let xScale := insetXScale (insetX 800) (insetWidth 800) (eDomain out) in
  let yScale := insetYScale (insetY 400) (insetHeight 400) (uDomain out) in
  exists k : R, 0 < k /\
    (forall e1 e2, xScale e2 - xScale e1 = k * (e2 - e1)) /\
    (forall u1 u2, yScale u1 - yScale u2 = k * (u2 - u1)) /\
    (forall e, -1 <= e <= 1 ->
               insetX 800 < xScale e < insetX 800 + insetWidth 800) /\
    (forall u, 0 <= u <= 1 ->
               insetY 400 < yScale u < insetY 400 + insetHeight 400).
Proof.
  apply (inset_is_not_stretched 800 400 (-1) 1 0 1); lra.
Defined.
End Scales.

(* ------------------------------------------------------------------ *)
(** ** The dates of a series *)

Section Dates.
Local Open Scope Z_scope.

Lemma append_cancel (s a b : string) : (s ++ a)%string = (s ++ b)%string -> a = b.
Proof.
  induction s as [|c s IH]; cbn; intros Heq; [exact Heq|].
  injection Heq as Heq. apply IH. exact Heq.
Qed.

Lemma pad2_injective (v w : Z) :
  0 <= v <= 99 -> 0 <= w <= 99 -> pad2 v = pad2 w -> v = w.
Proof.
  intros Hv Hw Heq.
  set (P := fun v => forallb (fun w => negb (String.eqb (pad2 v) (pad2 w)) || (v =? w))
                             (Zrange 0 100)).
  assert (HP : P v = true).
  { apply (Zrange_forallb P 0 100); [lia | vm_compute; reflexivity | lia]. }
  unfold P in HP.
  pose proof (Zrange_forallb _ 0 100 ltac:(lia) HP w ltac:(lia)) as Hvw.
  cbv beta in Hvw. rewrite Heq, String.eqb_refl in Hvw. cbn in Hvw.
  apply Z.eqb_eq. exact Hvw.
Qed.

(** The date of day [n] of a year, by month and day of the month. *)
Lemma dateFromDayOfYear_in_year (year n : Z) :
  plainYear year -> 1 <= n <= daysInYear year ->
  dateFromDayOfYear year n =
  (String_of (Some year) ++ "-" ++ pad2 (monthOfK (isLeapYear year) (n - 1))
   ++ "-" ++ pad2 (dayOfK (isLeapYear year) (n - 1)))%string.
Proof.
  intros Hy Hn. pose proof (daysInYear_cases year) as Hc.
  rewrite dateFromDayOfYear_render by (assumption || lia).
  replace (JSDate.DayFromYear year + n - 1)
    with (JSDate.DayFromYear year + (n - 1)) by lia.
  rewrite renderDate_in_year by (unfold plainYear in Hy; lia).
  destruct (monthOfK_dayOfK_range (isLeapYear year) (n - 1)) as [Hm Hd].
  { unfold daysInYear in Hn. destruct (isLeapYear year); lia. }
  rewrite !padStart_pad2 by lia. reflexivity.
Qed.

Lemma dayOfK_monthOfK_inverse (b : bool) (k : Z) :
  k = JSDate.monthStart (leapFlag b) (monthOfK b k - 1) + dayOfK b k - 1.
Proof.
  unfold dayOfK, monthOfK.
  replace (JSDate.monthOfDay (leapFlag b) k + 1 - 1)
    with (JSDate.monthOfDay (leapFlag b) k) by lia.
  lia.
Qed.

Lemma dateFromDayOfYear_injective (year n n' : Z) :
  plainYear year -> 1 <= n <= daysInYear year -> 1 <= n' <= daysInYear year ->
  dateFromDayOfYear year n = dateFromDayOfYear year n' -> n = n'.
Proof.
  intros Hy Hn Hn' Heq.
  rewrite !dateFromDayOfYear_in_year in Heq by assumption.
  apply append_cancel in Heq.
  set (b := isLeapYear year) in *.
  unfold pad2 in Heq. cbn [append] in Heq.
  injection Heq as Hm1 Hm2 Hd1 Hd2.
  assert (Hr : forall k, 1 <= k <= daysInYear year ->
             1 <= monthOfK b (k - 1) <= 12 /\ 1 <= dayOfK b (k - 1) <= 31).
  { intros k Hk. apply monthOfK_dayOfK_range.
    unfold daysInYear in Hk. fold b in Hk. destruct b; lia. }
  destruct (Hr n Hn) as [Hm Hd]. destruct (Hr n' Hn') as [Hm' Hd'].
  assert (HM : pad2 (monthOfK b (n - 1)) = pad2 (monthOfK b (n' - 1))).
  { unfold pad2. rewrite Hm1, Hm2. reflexivity. }
  assert (HD : pad2 (dayOfK b (n - 1)) = pad2 (dayOfK b (n' - 1))).
  { unfold pad2. rewrite Hd1, Hd2. reflexivity. }
  apply pad2_injective in HM; [| lia | lia].
  apply pad2_injective in HD; [| lia | lia].
  pose proof (dayOfK_monthOfK_inverse b (n - 1)) as H1.
  pose proof (dayOfK_monthOfK_inverse b (n' - 1)) as H2.
  rewrite HM, HD in H1. lia.
Qed.

Lemma loopDays_NoDup (nDays : Z) : NoDup (loopDays nDays).
Proof.
  unfold loopDays. apply NoDup_map_NoDup_ForallPairs; [| apply seq_NoDup].
  intros a b _ _ Hab. lia.
Qed.

Lemma loopDays_last (nDays : Z) (A : Type) (f : Z -> A) (d : A) :
  1 <= nDays -> last (map f (loopDays nDays)) d = f nDays.
Proof.
  intros HN. unfold loopDays.
  replace (Z.to_nat nDays) with (S (Z.to_nat (nDays - 1))) by lia.
  rewrite seq_S, !map_app. cbn [map]. rewrite last_last.
  f_equal. lia.
Qed.

Lemma loopDays_head (nDays : Z) (A : Type) (f : Z -> A) :
  1 <= nDays -> hd_error (map f (loopDays nDays)) = Some (f 1).
Proof.
  intros HN. unfold loopDays.
  replace (Z.to_nat nDays) with (S (Z.to_nat (nDays - 1))) by lia.
  reflexivity.
Qed.

Lemma loop_dates_span (year : Z) :
  plainYear year ->
  let dates := map (dateFromDayOfYear year) (loopDays (daysInYear year)) in
  hd_error dates = Some (String_of (Some year) ++ "-01-01")%string /\
  last dates ""%string = (String_of (Some year) ++ "-12-31")%string /\
  NoDup dates.
Proof.
  intros Hy dates. pose proof (daysInYear_cases year) as Hc.
  split; [| split].
  - unfold dates. rewrite loopDays_head by lia. f_equal.
    rewrite dateFromDayOfYear_in_year by (assumption || lia).
    destruct (isLeapYear year); reflexivity.
  - unfold dates. rewrite loopDays_last by lia.
    rewrite dateFromDayOfYear_in_year by (assumption || lia).
    unfold daysInYear. destruct (isLeapYear year); reflexivity.
  - unfold dates. apply NoDup_map_NoDup_ForallPairs; [| apply loopDays_NoDup].
    intros a b Ha Hb Hab. apply loopDays_In in Ha, Hb.
    apply (dateFromDayOfYear_injective year); assumption.
Qed.

(** X8: for a year that [Date.UTC] takes as it is, both series span the
    year: the first point is dated 1 January, the last 31 December, and no
    two points carry the same date. *)
Theorem series_span_the_year :
  forall (num : Type) (M : Number num) (L : @NumberLib num M)
         (currentYear : Z) (inputs : AnalemmaInputs num) (y : Z),
    let year := yearOrCurrent currentYear inputs in
    let main := map (@AnalemmaPoint.dateISO num)
                    (computeAnalemmaPoints currentYear inputs) in
    let eot := map (@EotPoint.dateISO num) (@computeEquationOfTime num M y) in
    (plainYear year ->
     hd_error main = Some (String_of (Some year) ++ "-01-01")%string /\
     last main ""%string = (String_of (Some year) ++ "-12-31")%string /\
     NoDup main) /\
    (plainYear y ->
     hd_error eot = Some (String_of (Some y) ++ "-01-01")%string /\
     last eot ""%string = (String_of (Some y) ++ "-12-31")%string /\
     NoDup eot).
Proof.
  intros num M L currentYear inputs y year main eot. split.
  - intros Hy.
    assert (Hmain : main = map (dateFromDayOfYear year) (loopDays (daysInYear year))).
    { unfold main, computeAnalemmaPoints. rewrite map_map. reflexivity. }
    rewrite Hmain. apply loop_dates_span. assumption.
  - intros Hy.
    assert (Heot : eot = map (dateFromDayOfYear y) (loopDays (daysInYear y))).
    { unfold eot, computeEquationOfTime. rewrite map_map. reflexivity. }
    rewrite Heot. apply loop_dates_span. assumption.
Qed.

Lemma series_span_the_year_witness :
  let main := map (@AnalemmaPoint.dateISO R)
                  (computeAnalemmaPoints 2026 equatorNoon2024) in
  hd_error main = Some "2024-01-01"%string /\
  last main ""%string = "2024-12-31"%string /\
  NoDup main.
Proof.
  apply (series_span_the_year R _ _ 2026 equatorNoon2024 2024).
  unfold plainYear. change (yearOrCurrent 2026 equatorNoon2024) with 2024. lia.
Defined.
End Dates.

(* ------------------------------------------------------------------ *)
(** ** Reading the dates back *)

Section ReadingDates.
Local Open Scope Z_scope.

Lemma optZ_eqb_eq (a b : option Z) : optZ_eqb a b = true -> a = b.
Proof.
  destruct a, b; cbn; intros Heq; try discriminate; [|reflexivity].
  apply Z.eqb_eq in Heq. congruence.
Qed.

Lemma parseInt_pad2 (v : Z) : 0 <= v <= 99 -> parseInt (pad2 v) 0 = Some v.
Proof.
  intros Hv. apply optZ_eqb_eq.
  apply (Zrange_forallb (fun v => optZ_eqb (parseInt (pad2 v) 0) (Some v)) 0 100);
    [lia | vm_compute; reflexivity | lia].
Qed.

Lemma parseInt_pad4 (v : Z) : 1000 <= v <= 9999 -> parseInt (pad4 v) 10 = Some v.
Proof.
  intros Hv. apply optZ_eqb_eq.
  apply (Zrange_forallb (fun v => optZ_eqb (parseInt (pad4 v) 10) (Some v))
                        1000 9000);
    [lia | vm_compute; reflexivity | lia].
Qed.

Lemma iso8601_fields (dt : IsoCalendar.date) :
  js_slice (IsoCalendar.iso8601 dt) 0 4 = pad4 (IsoCalendar.y dt) /\
  js_substring (IsoCalendar.iso8601 dt) 5 7 = pad2 (IsoCalendar.m dt) /\
  js_substring (IsoCalendar.iso8601 dt) 8 10 = pad2 (IsoCalendar.d dt).
Proof. repeat split. Qed.

Lemma addDays_fields (year n : Z) :
  1 <= n <= daysInYear year ->
  let dt := IsoCalendar.addDays (Z.to_nat (n - 1)) (IsoCalendar.mkDate year 1 1) in
  IsoCalendar.y dt = year /\ 1 <= IsoCalendar.m dt <= 12 /\
  1 <= IsoCalendar.d dt <= 31.
Proof.
  intros Hn dt. unfold dt. rewrite addDays_in_year by lia.
  rewrite Z2Nat.id by lia. cbn [IsoCalendar.y IsoCalendar.m IsoCalendar.d].
  split; [reflexivity|]. apply monthOfK_dayOfK_range.
  unfold daysInYear in Hn. destruct (isLeapYear year); lia.
Qed.

(** X9: for a year of four digits, the label code of the East-Up view
    reads back, from the date of the n-th point, the month and the day of
    the month reached by counting [n - 1] days from 1 January. *)
Theorem labels_read_the_date_back :
  forall (num : Type) (M : Number num) (L : @NumberLib num M)
         (currentYear : Z) (inputs : AnalemmaInputs num),
    let year := yearOrCurrent currentYear inputs in
    1000 <= year <= 9999 ->
    map (fun p => (labelMonth p, labelDay p))
        (computeAnalemmaPoints currentYear inputs) =
    map (fun n =>
           let dt := IsoCalendar.addDays (Z.to_nat (n - 1))
                       (IsoCalendar.mkDate year 1 1) in
           (Some (IsoCalendar.m dt), Some (IsoCalendar.d dt)))
        (loopDays (daysInYear year)).
Proof.
  intros num M L currentYear inputs year Hy.
  unfold computeAnalemmaPoints. fold year. rewrite map_map.
  apply map_ext_in. intros n Hn. apply loopDays_In in Hn. cbv zeta.
  unfold labelMonth, labelDay, analemmaPoint. cbn [AnalemmaPoint.dateISO].
  rewrite dateFromDayOfYear_iso by assumption. unfold isoDayOfYear.
  set (dt := IsoCalendar.addDays (Z.to_nat (n - 1))
               (IsoCalendar.mkDate year 1 1)).
  destruct (iso8601_fields dt) as [_ [Hm Hd]]. rewrite Hm, Hd.
  destruct (addDays_fields year n Hn) as [_ [Hmr Hdr]]. fold dt in Hmr, Hdr.
  rewrite !parseInt_pad2 by lia. reflexivity.
Qed.

Lemma labels_read_the_date_back_witness :
  map (fun p => (labelMonth p, labelDay p))
      (computeAnalemmaPoints 2026 equatorNoon2024) =
  map (fun n =>
         let dt := IsoCalendar.addDays (Z.to_nat (n - 1))
                     (IsoCalendar.mkDate 2024 1 1) in
         (Some (IsoCalendar.m dt), Some (IsoCalendar.d dt)))
      (loopDays (daysInYear 2024)).
Proof.
  apply (labels_read_the_date_back R _ _ 2026 equatorNoon2024).
  change (yearOrCurrent 2026 equatorNoon2024) with 2024. lia.
Defined.

(** X10: for a year of four digits, the chart computes its inset for the
    year of the points it is given, whatever the current year is, so the
    inset has one position for each point of the chart. *)
Theorem inset_year_is_chart_year :
  forall (num : Type) (M : Number num) (L : @NumberLib num M)
         (currentYear chartYear : Z) (lat lon tz : num) (timeMode : TimeMode num)
         (includeObliquity includeEccentricity : bool),
    let points := @computeEquationOfTime num M chartYear in
    let inset := computeAnalemmaInset currentYear
                   (mkInputs lat lon timeMode tz
                             (Some (insetYear currentYear points)))
                   includeObliquity includeEccentricity in
    1000 <= chartYear <= 9999 ->
    insetYear currentYear points = chartYear /\
    List.length inset = List.length points.
Proof.
  intros num M L currentYear chartYear lat lon tz timeMode o e points inset Hy.
  pose proof (daysInYear_cases chartYear) as Hc.
  assert (Hyear : insetYear currentYear points = chartYear).
  { pose proof (loopDays_head (daysInYear chartYear) _
                  (@eotPoint num M chartYear (daysInYear chartYear)) ltac:(lia)) as Hhd.
    fold (@computeEquationOfTime num M chartYear) in Hhd. fold points in Hhd.
    unfold insetYear. destruct points as [|p0 rest]; [discriminate|].
    cbn [hd_error] in Hhd. injection Hhd as Hhd. subst p0.
    unfold eotPoint. cbn [EotPoint.dateISO].
    rewrite dateFromDayOfYear_iso by lia. unfold isoDayOfYear.
    change (Z.to_nat (1 - 1)) with 0%nat. cbn [IsoCalendar.addDays].
    destruct (iso8601_fields (IsoCalendar.mkDate chartYear 1 1)) as [Hs _].
    rewrite Hs. cbn [IsoCalendar.y]. rewrite parseInt_pad4 by lia.
    reflexivity. }
  split; [exact Hyear|].
  unfold inset, computeAnalemmaInset, yearOrCurrent. cbn [year].
  rewrite Hyear. unfold points, computeEquationOfTime.
  rewrite !length_map. reflexivity.
Qed.

Lemma inset_year_is_chart_year_witness :
  insetYear 2026 (@computeEquationOfTime R _ 2024) = 2024 /\
  List.length (computeAnalemmaInset 2026
                 (mkInputs 0%R 0%R (fixedLocalTime 12%R 0%R) 0%R
                    (Some (insetYear 2026 (@computeEquationOfTime R _ 2024))))
                 true false) =
  List.length (@computeEquationOfTime R _ 2024).
Proof.
  apply (inset_year_is_chart_year R _ _ 2026 2024 0%R 0%R 0%R
           (fixedLocalTime 12%R 0%R) true false).
  lia.
Defined.
End ReadingDates.

(* ------------------------------------------------------------------ *)
(** ** The helpers of the application *)

Section Application.
Local Open Scope R_scope.

Lemma clamp_R (n lo hi : R) : clamp n lo hi = Rmin hi (Rmax lo n).
Proof. reflexivity. Qed.

Lemma clamp_range (n lo hi : R) : lo <= hi -> lo <= clamp n lo hi <= hi.
Proof.
  intros Hlh. rewrite clamp_R. split.
  - apply Rmin_glb; [assumption | apply Rmax_l].
  - apply Rmin_l.
Qed.

(** X11: the clock time the form stores is in range, so the clamping of
    [computeAnalemmaPoints] leaves it alone and the generator that does
    not clamp computes from the same clock minutes. *)
Theorem form_clock_time_is_in_range
    (lat lon tz typedHh typedMm : R) (y : option Z) :
  let hh := clamp typedHh 0 23 in
  let mm := clamp typedMm 0 59 in
  let inputs := mkInputs lat lon (fixedLocalTime hh mm) tz y in
  0 <= hh <= 23 /\ 0 <= mm <= 59 /\
  clampedClockMinutes inputs = hh * 60 + mm /\
  insetClockMinutes inputs = clampedClockMinutes inputs.
Proof.
  intros hh mm inputs.
  assert (Hh : 0 <= hh <= 23) by (apply clamp_range; lra).
  assert (Hm : 0 <= mm <= 59) by (apply clamp_range; lra).
  assert (Hin : insetClockMinutes inputs = clampedClockMinutes inputs)
    by (apply insetClockMinutes_in_range; assumption).
  split; [assumption|]. split; [assumption|].
  split; [rewrite <- Hin; reflexivity | assumption].
Qed.

Lemma fmod_nonneg (x m : R) : 0 < m -> 0 <= x -> Real.fmod x m = Rmodulo x m.
Proof.
  intros Hm Hx. unfold Real.fmod, Rmodulo. rewrite trunc_nonneg; [reflexivity|].
  apply Rmult_le_pos; [assumption|]. left. apply Rinv_0_lt_compat. assumption.
Qed.

Lemma azLabelFor_R (a : R) : azLabelFor a = Rmodulo a 360.
Proof. unfold azLabelFor. cbn. apply normalise_Rmodulo. lra. Qed.

(** X12: in exact real arithmetic, in the azimuth-altitude view,
    unwrapping an azimuth around the reference azimuth moves it by whole
    turns to within half a turn of the reference, and the axis label of
    the unwrapped value is the azimuth itself.  On doubles the round trip
    is not exact, whatever the library functions are: around the
    reference 180 the label of 123.4 is 123.39999999999998. *)
Theorem unwrapAz_round_trip (refAz azDeg : R) :
  0 <= refAz < 360 -> 0 <= azDeg < 360 ->
  (-180 <= unwrapAz refAz azDeg - refAz < 180 /\
   (exists k : Z, unwrapAz refAz azDeg = azDeg + 360 * IZR k) /\
   azLabelFor (unwrapAz refAz azDeg) = azDeg) /\
  (forall (libm_sin libm_cos libm_asin : float -> float)
          (libm_atan2 : float -> float -> float),
     let M := Binary64.number libm_sin libm_cos in
     let L := Binary64Lib.numberLib libm_sin libm_cos libm_asin libm_atan2 in
     let label := @azLabelFor float M L
                    (@unwrapAz float M L (Binary64.from_Z 180)
                               (@dec float M 1234 1)) in
     label = 0x1.ed99999999998p+6%float /\
     PrimFloat.eqb label (@dec float M 1234 1) = false).
Proof.
  intros Href Haz. split.
  - assert (Hu : unwrapAz refAz azDeg
                 = refAz + (Rmodulo (azDeg - refAz + 540) 360 - 180)).
    { unfold unwrapAz. cbn. rewrite fmod_nonneg by lra. reflexivity. }
    pose proof (Rmodulo_range (azDeg - refAz + 540) 360 ltac:(lra)) as Hr.
    assert (Hk : exists k : Z, unwrapAz refAz azDeg = azDeg + 360 * IZR k).
    { exists (1 - Int_part ((azDeg - refAz + 540) / 360))%Z.
      rewrite Hu. unfold Rmodulo. rewrite minus_IZR. lra. }
    split; [rewrite Hu; lra|]. split; [exact Hk|].
    destruct Hk as [k Hk]. rewrite azLabelFor_R, Hk.
    rewrite Rmodulo_shift by lra. apply Rmodulo_small. assumption.
  - intros libm_sin libm_cos libm_asin libm_atan2 M L label.
    split; vm_compute; reflexivity.
Qed.

Lemma unwrapAz_round_trip_witness :
  -180 <= unwrapAz 10 350 - 10 < 180 /\
  (exists k : Z, unwrapAz 10 350 = 350 + 360 * IZR k) /\
  azLabelFor (unwrapAz 10 350) = 350.
Proof.
  apply (unwrapAz_round_trip 10 350); lra.
Defined.

Lemma azimuthToDirection_R (az : R) :
  let a := Rmodulo az 360 in
  azimuthToDirection az =
  (if RealUI.lesseqb 337.5 a || Real.lessb a 22.5 then "North"
   else if RealUI.lesseqb 22.5 a && Real.lessb a 67.5 then "Northeast"
   else if RealUI.lesseqb 67.5 a && Real.lessb a 112.5 then "East"
   else if RealUI.lesseqb 112.5 a && Real.lessb a 157.5 then "Southeast"
   else if RealUI.lesseqb 157.5 a && Real.lessb a 202.5 then "South"
   else if RealUI.lesseqb 202.5 a && Real.lessb a 247.5 then "Southwest"
   else if RealUI.lesseqb 247.5 a && Real.lessb a 292.5 then "West"
   else "Northwest")%string.
Proof.
  cbv zeta. rewrite <- (normalise_Rmodulo az 360) by lra. reflexivity.
Qed.

(** X13: the direction the export names is the compass point nearest to
    the azimuth, within 22.5 degrees of it up to whole turns, and it does
    not change when the azimuth is given a whole number of turns away. *)
Theorem azimuthToDirection_nearest (az : R) (turns : Z) :
  (exists (bearing k : Z),
     In (azimuthToDirection az, bearing) compassPoints /\
     -22.5 <= az - IZR bearing - 360 * IZR k < 22.5) /\
  azimuthToDirection (az + 360 * IZR turns) = azimuthToDirection az.
Proof.
  split.
  - rewrite azimuthToDirection_R. cbv zeta.
    pose proof (Rmodulo_range az 360 ltac:(lra)) as Hr.
    assert (Ha : az = Rmodulo az 360 + 360 * IZR (Int_part (az / 360)))
      by (unfold Rmodulo; ring).
    set (a := Rmodulo az 360) in *. set (j := Int_part (az / 360)) in *.
    unfold RealUI.lesseqb, Real.lessb.
    destruct (Rle_dec 337.5 a) as [H1 | H1].
    { exists 0%Z, (j + 1)%Z. cbn [orb]. split; [cbn; auto 12|].
      rewrite plus_IZR. lra. }
    destruct (Rlt_dec a 22.5) as [H2 | H2].
    { exists 0%Z, j. cbn [orb]. split; [cbn; auto 12|]. lra. }
    cbn [orb].
    destruct (Rle_dec 22.5 a) as [L1 | L1]; [|lra].
    destruct (Rlt_dec a 67.5) as [U1 | U1].
    { exists 45%Z, j. cbn [andb]. split; [cbn; auto 12|]. lra. }
    cbn [andb].
    destruct (Rle_dec 67.5 a) as [L2 | L2]; [|lra].
    destruct (Rlt_dec a 112.5) as [U2 | U2].
    { exists 90%Z, j. cbn [andb]. split; [cbn; auto 12|]. lra. }
    cbn [andb].
    destruct (Rle_dec 112.5 a) as [L3 | L3]; [|lra].
    destruct (Rlt_dec a 157.5) as [U3 | U3].
    { exists 135%Z, j. cbn [andb]. split; [cbn; auto 12|]. lra. }
    cbn [andb].
    destruct (Rle_dec 157.5 a) as [L4 | L4]; [|lra].
    destruct (Rlt_dec a 202.5) as [U4 | U4].
    { exists 180%Z, j. cbn [andb]. split; [cbn; auto 12|]. lra. }
    cbn [andb].
    destruct (Rle_dec 202.5 a) as [L5 | L5]; [|lra].
    destruct (Rlt_dec a 247.5) as [U5 | U5].
    { exists 225%Z, j. cbn [andb]. split; [cbn; auto 12|]. lra. }
    cbn [andb].
    destruct (Rle_dec 247.5 a) as [L6 | L6]; [|lra].
    destruct (Rlt_dec a 292.5) as [U6 | U6].
    { exists 270%Z, j. cbn [andb]. split; [cbn; auto 12|]. lra. }
    cbn [andb].
    exists 315%Z, j. split; [cbn; auto 12|]. lra.
  - rewrite !azimuthToDirection_R. cbv zeta.
    rewrite Rmodulo_shift by lra. reflexivity.
Qed.

(** The estimate before the final clamp: a whole or a half hour within 0.4
    hours of the ideal offset. *)
Lemma offset_estimate (x : R) :
  let wholeHour := RealUI.round x in
  let halfHour := RealUI.floor x + 5 / 10 in
  let wholeHourDiff := Rabs (x - wholeHour) in
  let halfHourDiff := Rabs (x - halfHour) in
  let result := if Real.lessb halfHourDiff (1 / 10)
                   && Real.lessb halfHourDiff wholeHourDiff
                then halfHour else wholeHour in
  (exists k : Z, result = IZR k / 2) /\ Rabs (x - result) <= 4 / 10.
Proof.
  cbv zeta. unfold RealUI.round, RealUI.floor.
  pose proof (Int_part_bounds x) as Hx.
  set (z := Int_part x) in *.
  assert (Hround : (x < IZR z + 1 / 2 /\ Int_part (x + 1 / 2) = z) \/
                   (IZR z + 1 / 2 <= x /\ Int_part (x + 1 / 2) = (z + 1)%Z)).
  { destruct (Rlt_dec x (IZR z + 1 / 2)) as [Hlt | Hge].
    - left. split; [assumption|]. apply Int_part_unique. lra.
    - right. split; [lra|]. apply Int_part_unique. rewrite plus_IZR. lra. }
  unfold Real.lessb.
  destruct Hround as [[Hf Hr] | [Hf Hr]]; rewrite Hr; rewrite ?plus_IZR.
  - destruct (Rlt_dec (Rabs (x - (IZR z + 5 / 10))) (1 / 10)) as [Hh | Hh];
      cbn [andb].
    + destruct (Rlt_dec _ _) as [Hw | Hw].
      * split; [exists (2 * z + 1)%Z; rewrite plus_IZR, mult_IZR; lra|].
        lra.
      * split; [exists (2 * z)%Z; rewrite mult_IZR; lra|].
        unfold Rabs in *. repeat destruct (Rcase_abs _); lra.
    + split; [exists (2 * z)%Z; rewrite mult_IZR; lra|].
      unfold Rabs in *. repeat destruct (Rcase_abs _); lra.
  - destruct (Rlt_dec (Rabs (x - (IZR z + 5 / 10))) (1 / 10)) as [Hh | Hh];
      cbn [andb].
    + destruct (Rlt_dec _ _) as [Hw | Hw].
      * split; [exists (2 * z + 1)%Z; rewrite plus_IZR, mult_IZR; lra|].
        lra.
      * split; [exists (2 * z + 2)%Z; rewrite plus_IZR, mult_IZR; lra|].
        unfold Rabs in *. repeat destruct (Rcase_abs _); lra.
    + split; [exists (2 * z + 2)%Z; rewrite plus_IZR, mult_IZR; lra|].
      unfold Rabs in *. repeat destruct (Rcase_abs _); lra.
Qed.

Lemma getTimeZoneOffset_R (lat lon : R) :
  let x := lon / 15 in
  getTimeZoneOffset lat lon =
  Rmax (-12) (Rmin 14
    (if Real.lessb (Rabs (x - (RealUI.floor x + 5 / 10))) (1 / 10)
        && Real.lessb (Rabs (x - (RealUI.floor x + 5 / 10)))
                      (Rabs (x - RealUI.round x))
     then RealUI.floor x + 5 / 10 else RealUI.round x)).
Proof. reflexivity. Qed.

Lemma half_integer_between (k : Z) (lo hi : Z) (r : R) :
  r = IZR k / 2 -> IZR lo - 1 / 2 < r < IZR hi + 1 / 2 ->
  IZR lo <= r <= IZR hi.
Proof.
  intros Hr [Hlo Hhi]. subst r.
  assert (H1 : (2 * lo - 1 < k)%Z).
  { apply lt_IZR. rewrite minus_IZR, mult_IZR. lra. }
  assert (H2 : (k < 2 * hi + 1)%Z).
  { apply lt_IZR. rewrite plus_IZR, mult_IZR. lra. }
  assert (H3 : (2 * lo <= k)%Z) by lia.
  assert (H4 : (k <= 2 * hi)%Z) by lia.
  apply IZR_le in H3, H4. rewrite mult_IZR in H3, H4. lra.
Qed.

Lemma zone_estimate (lat lon : R) :
  let tz := getTimeZoneOffset lat lon in
  (exists k : Z, tz = IZR k / 2) /\
  -12 <= tz <= 14 /\
  (-180 <= lon <= 180 -> -12 <= tz <= 12 /\ Rabs (lon - 15 * tz) <= 6).
Proof.
  cbv zeta. rewrite getTimeZoneOffset_R. cbv zeta.
  destruct (offset_estimate (lon / 15)) as [[k Hk] Hnear]. cbv zeta in Hk, Hnear.
  match goal with |- context [Rmin 14 ?r] => set (result := r) in * end.
  split; [| split].
  - unfold Rmax, Rmin.
    destruct (Rle_dec 14 result); destruct (Rle_dec _ _);
      solve [ exists k; assumption
            | exists 28%Z; lra
            | exists (-24)%Z; lra ].
  - split; [apply Rmax_l|].
    apply Rmax_lub; [lra | apply Rmin_l].
  - intros Hlon.
    assert (Hx : -12 <= lon / 15 <= 12) by lra.
    assert (Hres : -12 <= result <= 12).
    { apply (half_integer_between k (-12) 12); [assumption|].
      unfold Rabs in Hnear. destruct (Rcase_abs _); lra. }
    rewrite Rmin_right by lra. rewrite Rmax_right by lra.
    split; [assumption|].
    replace (lon - 15 * result) with (15 * (lon / 15 - result)) by field.
    rewrite Rabs_mult, (Rabs_right 15) by lra. lra.
Qed.


(** X14: the time zone estimated from the longitude is a whole or a half
    number of hours between -12 and +14; for a longitude between -180 and
    180 degrees it lies between -12 and +12 and its meridian is within 6
    degrees of the longitude. *)
Theorem getTimeZoneOffset_estimate (lat lon : R) :
  let tz := getTimeZoneOffset lat lon in
  (exists k : Z, tz = IZR k / 2) /\
  -12 <= tz <= 14 /\
  (-180 <= lon <= 180 -> -12 <= tz <= 12 /\ Rabs (lon - 15 * tz) <= 6).
Proof. apply zone_estimate. Qed.

Lemma getTimeZoneOffset_estimate_witness :
  let tz := getTimeZoneOffset 13.7524938 100.5 in
  -12 <= tz <= 12 /\ Rabs (100.5 - 15 * tz) <= 6.
Proof.
  apply (getTimeZoneOffset_estimate 13.7524938 100.5). lra.
Defined.

(** X15: with the estimated time zone, clock noon is near solar noon: for
    a longitude between -180 and 180 degrees the hour angle at 12:00 stays
    within 11.15 degrees of the meridian on every day of the year (6
    degrees of longitude and at most 20.6 minutes of equation of time). *)
Theorem estimated_zone_noon_is_near_meridian (lat lon g : R) :
  -180 <= lon <= 180 ->
  let tz := getTimeZoneOffset lat lon in
  Rabs (H_deg 720 (eotMin g) lon tz) <= 11.15.
Proof.
  intros Hlon tz.
  destruct (zone_estimate lat lon) as [_ [_ Hest]].
  destruct (Hest Hlon) as [_ Hmer]. fold tz in Hmer.
  pose proof (eotMin_bound g) as Heot.
  rewrite H_deg_R.
  assert (Hd : -6 <= lon - 15 * tz <= 6)
    by (unfold Rabs in Hmer; destruct (Rcase_abs _); lra).
  rewrite Rmodulo_small by lra.
  unfold Rabs. destruct (Rcase_abs _); lra.
Qed.

Lemma estimated_zone_noon_is_near_meridian_witness :
  Rabs (H_deg 720 (eotMin 0) 100.5 (getTimeZoneOffset 13.7524938 100.5))
  <= 11.15.
Proof.
  apply (estimated_zone_noon_is_near_meridian 13.7524938 100.5 0). lra.
Defined.
End Application.

(* ------------------------------------------------------------------ *)
(** ** The debug sink *)

Section DebugSink.
Context {A : Type}.

Lemma setHas_In (s : list string) (key : string) :
  setHas s key = true <-> In key s.
Proof.
  unfold setHas. rewrite existsb_exists. split.
  - intros [k [Hin Heq]]. apply String.eqb_eq in Heq. subst k. exact Hin.
  - intros Hin. exists key. split; [exact Hin | apply String.eqb_refl].
Qed.

Lemma debugRun_disabled (env : DebugEnv) (calls : list (string * A))
    (st : DebugState A) :
  _debugEnabled env = false -> debugRun env calls st = st.
Proof.
  intros Hoff. revert st. induction calls as [|c rest IH]; intros st.
  - reflexivity.
  - cbn [debugRun fold_left]. unfold _debugOnce at 2. rewrite Hoff.
    cbn [negb]. apply IH.
Qed.

Lemma debugRun_enabled (env : DebugEnv) (calls : list (string * A))
    (st : DebugState A) :
  _debugEnabled env = true ->
  debugRun env calls st =
  mkDebugState
    (_debugPrintedKeys st ++ map fst (firstCalls (_debugPrintedKeys st) calls))
    (console st ++ map snd (firstCalls (_debugPrintedKeys st) calls)).
Proof.
  intros Hon. revert st. induction calls as [|c rest IH]; intros st.
  - cbn. rewrite !app_nil_r. destruct st; reflexivity.
  - cbn [debugRun fold_left firstCalls]. unfold _debugOnce at 2. rewrite Hon.
    cbn [negb].
    destruct (setHas (_debugPrintedKeys st) (fst c)) eqn:Hhas.
    + apply IH.
    + fold (debugRun env rest
              (mkDebugState (_debugPrintedKeys st ++ [fst c])
                            (console st ++ [snd c]))).
      rewrite IH. cbn [_debugPrintedKeys console map].
      rewrite <- !app_assoc. reflexivity.
Qed.

Lemma firstCalls_NoDup (seen : list string) (calls : list (string * A)) :
  NoDup seen -> NoDup (seen ++ map fst (firstCalls seen calls)).
Proof.
  revert seen. induction calls as [|c rest IH]; intros seen Hseen.
  - cbn. rewrite app_nil_r. exact Hseen.
  - cbn [firstCalls]. destruct (setHas seen (fst c)) eqn:Hhas.
    + apply IH. exact Hseen.
    + cbn [map].
      replace (seen ++ fst c :: map fst (firstCalls (seen ++ [fst c]) rest))
        with ((seen ++ [fst c]) ++ map fst (firstCalls (seen ++ [fst c]) rest))
        by (rewrite <- app_assoc; reflexivity).
      apply IH. apply NoDup_app; [exact Hseen | repeat constructor; auto |].
      intros k Hk [Hk' | []]. subst k.
      apply setHas_In in Hk. congruence.
Qed.

Lemma firstCalls_keys (seen : list string) (calls : list (string * A))
    (key : string) :
  In key (seen ++ map fst (firstCalls seen calls)) <->
  In key seen \/ In key (map fst calls).
Proof.
  revert seen. induction calls as [|c rest IH]; intros seen.
  - cbn. rewrite app_nil_r. tauto.
  - cbn [firstCalls map]. destruct (setHas seen (fst c)) eqn:Hhas.
    + rewrite IH. cbn [In]. apply setHas_In in Hhas.
      split; [tauto|]. intros [H | [H | H]]; auto. subst key. auto.
    + cbn [map].
      replace (seen ++ fst c :: map fst (firstCalls (seen ++ [fst c]) rest))
        with ((seen ++ [fst c]) ++ map fst (firstCalls (seen ++ [fst c]) rest))
        by (rewrite <- app_assoc; reflexivity).
      rewrite IH, in_app_iff. cbn [In]. tauto.
Qed.

(** X16: the debug sink logs each key once.  Disabled (no flag, and a
    storage that is missing, throws or holds another value), a run of
    calls logs nothing and remembers nothing; enabled, it logs exactly the
    payloads of the calls that are the first with their key, in call
    order, and remembers every key once. *)
Theorem debugOnce_logs_each_key_once
    (env : DebugEnv) (calls : list (string * A)) :
  let final := debugRun env calls (mkDebugState [] []) in
  (_debugEnabled env = false -> final = mkDebugState [] []) /\
  (_debugEnabled env = true ->
   console final = map snd (firstCalls [] calls) /\
   _debugPrintedKeys final = map fst (firstCalls [] calls) /\
   NoDup (_debugPrintedKeys final) /\
   List.length (console final) = List.length (_debugPrintedKeys final) /\
   forall key, In key (_debugPrintedKeys final) <-> In key (map fst calls)).
Proof.
  intros final. split.
  - intros Hoff. apply debugRun_disabled. exact Hoff.
  - intros Hon. unfold final. rewrite debugRun_enabled by exact Hon.
    cbn [_debugPrintedKeys console app].
    split; [reflexivity|]. split; [reflexivity|].
    split; [apply (firstCalls_NoDup [] calls); constructor|].
    split; [rewrite !length_map; reflexivity|].
    intros key. pose proof (firstCalls_keys [] calls key) as Hk.
    cbn [app In] in Hk. tauto.
Qed.
End DebugSink.

Lemma debugOnce_logs_each_key_once_witness :
  let env := mkDebugEnv false (storageItem (Some "1"%string)) in
  let calls := [("main"%string, 1%Z); ("inset"%string, 2%Z); ("main"%string, 3%Z)] in
  console (debugRun env calls (mkDebugState [] [])) = [1%Z; 2%Z].
Proof.
  apply (debugOnce_logs_each_key_once
           (mkDebugEnv false (storageItem (Some "1"%string)))
           [("main"%string, 1%Z); ("inset"%string, 2%Z); ("main"%string, 3%Z)]).
  reflexivity.
Defined.

(* ------------------------------------------------------------------ *)
(** ** Directions: [atan2], azimuth and altitude *)

Section Directions.
Local Open Scope R_scope.

Lemma sqrt_scaled (x t : R) :
  0 <= x -> R_sqrt.sqrt (x * x * (1 + Rsqr t)) = x * R_sqrt.sqrt (1 + Rsqr t).
Proof.
  intros Hx. rewrite sqrt_mult; [| nra | unfold Rsqr; nra].
  rewrite sqrt_square by assumption. reflexivity.
Qed.

Lemma sqrt_one_plus_sqr_pos (t : R) : 0 < R_sqrt.sqrt (1 + Rsqr t).
Proof. apply sqrt_lt_R0. unfold Rsqr. nra. Qed.

Lemma cos_minus_PI (a : R) : cos (a - PI) = - cos a.
Proof. rewrite cos_minus, cos_PI, sin_PI. ring. Qed.

Lemma sin_minus_PI (a : R) : sin (a - PI) = - sin a.
Proof. rewrite sin_minus, cos_PI, sin_PI. ring. Qed.

(** [atan2 y x] is the angle of the point [(x, y)]. *)
Lemma atan2_polar (y x : R) :
  let r := R_sqrt.sqrt (x * x + y * y) in
  r * cos (Real.atan2 y x) = x /\ r * sin (Real.atan2 y x) = y.
Proof.
  cbv zeta. unfold Real.atan2.
  destruct (Rlt_dec 0 x) as [Hpos | Hnpos].
  - assert (Hr : x * x + y * y = x * x * (1 + Rsqr (y / x)))
      by (unfold Rsqr; field; lra).
    rewrite Hr, sqrt_scaled by lra.
    pose proof (sqrt_one_plus_sqr_pos (y / x)) as Hs.
    rewrite cos_atan, sin_atan. split; field; lra.
  - destruct (Rlt_dec x 0) as [Hneg | Hnneg].
    + assert (Hr : x * x + y * y = (- x) * (- x) * (1 + Rsqr (y / x)))
        by (unfold Rsqr; field; lra).
      rewrite Hr, sqrt_scaled by lra.
      pose proof (sqrt_one_plus_sqr_pos (y / x)) as Hs.
      destruct (Rle_dec 0 y).
      * rewrite neg_cos, neg_sin, cos_atan, sin_atan. split; field; lra.
      * rewrite cos_minus_PI, sin_minus_PI, cos_atan, sin_atan.
        split; field; lra.
    + assert (Hx : x = 0) by lra. subst x.
      replace (0 * 0 + y * y) with (y * y) by ring.
      destruct (Rlt_dec 0 y) as [Hy | Hy].
      * rewrite sqrt_square by lra. rewrite cos_PI2, sin_PI2. lra.
      * destruct (Rlt_dec y 0) as [Hy' | Hy'].
        -- replace (y * y) with ((- y) * (- y)) by ring.
           rewrite sqrt_square by lra.
           rewrite cos_neg, sin_neg, cos_PI2, sin_PI2. lra.
        -- assert (Hy0 : y = 0) by lra. subst y.
           rewrite Rmult_0_r, sqrt_0. lra.
Qed.

Lemma sin_cos_turns (x : R) (k : Z) :
  sin (x + 2 * IZR k * PI) = sin x /\ cos (x + 2 * IZR k * PI) = cos x.
Proof.
  destruct (Z.le_gt_cases 0 k) as [Hk | Hk].
  - rewrite <- (Z2Nat.id k Hk), <- INR_IZR_INZ.
    split; [apply sin_period | apply cos_period].
  - assert (Hn : IZR k = - INR (Z.to_nat (- k))).
    { rewrite INR_IZR_INZ, Z2Nat.id by lia. rewrite opp_IZR. ring. }
    rewrite Hn.
    set (m := Z.to_nat (- k)).
    split.
    + rewrite <- (sin_period (x + 2 * - INR m * PI) m). f_equal. ring.
    + rewrite <- (cos_period (x + 2 * - INR m * PI) m). f_equal. ring.
Qed.

(** An azimuth in degrees, read back in radians, has the sine and the
    cosine of the angle it normalises. *)
Lemma normalised_direction (a : R) :
  let az := Rmodulo (a * 180 / PI) 360 in
  sin (az * PI / 180) = sin a /\ cos (az * PI / 180) = cos a.
Proof.
  cbv zeta. pose proof PI_RGT_0 as Hpi. unfold Rmodulo.
  set (j := Int_part (a * 180 / PI / 360)).
  replace ((a * 180 / PI - 360 * IZR j) * PI / 180)
    with (a + 2 * IZR (- j) * PI) by (rewrite opp_IZR; field; lra).
  apply sin_cos_turns.
Qed.

Lemma unit_third (E N U : R) :
  E * E + N * N + U * U = 1 -> -1 <= U <= 1 /\ 1 - Rsqr U = N * N + E * E.
Proof. intros Hu. unfold Rsqr. split; [nra | lra]. Qed.

(** The direction fields of a horizontal position agree with its
    East-North-Up vector. *)
Lemma horizontal_direction (phi delta H : R) :
  let h := horizontal phi delta H in
  let azRad := hAzimuthDeg h * PI / 180 in
  let altRad := hAltitudeDeg h * PI / 180 in
  cos altRad * sin azRad = hE h /\
  cos altRad * cos azRad = hN h /\
  sin altRad = hU h.
Proof.
  cbv zeta. rewrite horizontal_R. cbn [hAzimuthDeg hAltitudeDeg hE hN hU].
  pose proof PI_RGT_0 as Hpi.
  set (E := cos delta * sin H).
  set (N := cos phi * sin delta - sin phi * cos delta * cos H).
  set (U := sin phi * sin delta + cos phi * cos delta * cos H).
  assert (Hunit : E * E + N * N + U * U = 1)
    by (unfold E, N, U; apply unit_vector; apply sin_cos_unit).
  destruct (unit_third E N U Hunit) as [HU Hsq].
  replace (Rmax (-1) (Rmin 1 U)) with U
    by (rewrite Rmin_right by lra; rewrite Rmax_right by lra; reflexivity).
  replace (asin U * 180 / PI * PI / 180) with (asin U) by (field; lra).
  rewrite sin_asin, cos_asin by assumption. rewrite Hsq.
  destruct (normalised_direction (Real.atan2 E N)) as [Hs Hc].
  cbv zeta in Hs, Hc. rewrite Hs, Hc.
  destruct (atan2_polar E N) as [Hx Hy]. cbv zeta in Hx, Hy.
  split; [exact Hy|]. split; [exact Hx | reflexivity].
Qed.

(** X17: in exact real arithmetic, azimuth and altitude determine the
    position: the unit vector that the formulas of the camera-angle code
    rebuild from the azimuth and the altitude of a point is the
    East-North-Up vector of that point, also at the zenith.  Nothing is
    stated about the rounded values on doubles. *)
Theorem cameraVector_is_the_ENU_vector
    (currentYear : Z) (inputs : AnalemmaInputs R) :
  Forall (fun p => cameraVector p =
                   (AnalemmaPoint.E p, AnalemmaPoint.N p, AnalemmaPoint.U p))
         (computeAnalemmaPoints currentYear inputs).
Proof.
  apply Forall_forall. intros p Hp.
  unfold computeAnalemmaPoints in Hp. apply in_map_iff in Hp.
  destruct Hp as [n [Hn _]]. subst p. unfold analemmaPoint, cameraVector.
  cbn [AnalemmaPoint.azimuthDeg AnalemmaPoint.altitudeDeg
       AnalemmaPoint.E AnalemmaPoint.N AnalemmaPoint.U].
  match goal with
  | |- context [horizontal ?phi ?d ?H] =>
      destruct (horizontal_direction phi d H) as [HE [HN HU]];
      set (h := horizontal phi d H) in *
  end.
  cbv zeta in HE, HN, HU.
  change (Math_sin (hAltitudeDeg h * Math_PI / of_Z 180)%js)
    with (sin (hAltitudeDeg h * PI / 180)).
  change (Math_cos (hAltitudeDeg h * Math_PI / of_Z 180)%js)
    with (cos (hAltitudeDeg h * PI / 180)).
  change (Math_sin (hAzimuthDeg h * Math_PI / of_Z 180)%js)
    with (sin (hAzimuthDeg h * PI / 180)).
  change (Math_cos (hAzimuthDeg h * Math_PI / of_Z 180)%js)
    with (cos (hAzimuthDeg h * PI / 180)).
  change mul with Rmult.
  rewrite HE, HN, HU. reflexivity.
Qed.
End Directions.

(* ------------------------------------------------------------------ *)
(** ** The polar view and the sky dome *)

Section Dome.
Local Open Scope R_scope.

Lemma project_R (cx cy R0 azDeg altDeg : R) :
  project cx cy R0 azDeg altDeg =
  (cx + R0 * (1 - altDeg / 90) * sin (azDeg * PI / 180),
   cy - R0 * (1 - altDeg / 90) * cos (azDeg * PI / 180)).
Proof. reflexivity. Qed.

(** X18: in the polar view and on the sky dome, every visible point of a
    series is drawn strictly inside the horizon circle, and in the
    direction of its East and North components: East to the right, North
    up. *)
Theorem project_keeps_visible_points_inside
    (currentYear : Z) (inputs : AnalemmaInputs R) (w h : R) :
  let cx := w / 2 in
  let cy := h / 2 in
  let R0 := domeRadius w h viewPadding in
  Forall (fun p =>
            let xy := project cx cy R0 (AnalemmaPoint.azimuthDeg p)
                              (AnalemmaPoint.altitudeDeg p) in
            let dx := fst xy - cx in
            let dy := cy - snd xy in
            dx * dx + dy * dy < R0 * R0 /\
            dx * AnalemmaPoint.N p = dy * AnalemmaPoint.E p /\
            0 <= dx * AnalemmaPoint.E p /\ 0 <= dy * AnalemmaPoint.N p)
         (filter (@AnalemmaPoint.visible R)
                 (computeAnalemmaPoints currentYear inputs)).
Proof.
  intros cx cy R0. apply Forall_forall. intros p Hp.
  apply filter_In in Hp. destruct Hp as [Hp Hvis].
  assert (HR : 1 <= R0) by apply Rmax_l.
  unfold computeAnalemmaPoints in Hp. apply in_map_iff in Hp.
  destruct Hp as [n [Hn _]]. subst p. unfold analemmaPoint in *.
  cbn [AnalemmaPoint.azimuthDeg AnalemmaPoint.altitudeDeg AnalemmaPoint.visible
       AnalemmaPoint.E AnalemmaPoint.N] in *.
  match goal with
  | |- context [horizontal ?phi ?d ?H] =>
      destruct (horizontal_direction phi d H) as [HE [HN _]];
      pose proof (horizontal_wellFormed phi d H) as Hwf;
      set (hz := horizontal phi d H) in *
  end.
  cbv zeta in HE, HN, Hwf. destruct Hwf as [_ [Halt [_ Hv]]].
  apply Hv in Hvis.
  rewrite project_R. cbv zeta. cbn [fst snd].
  set (s := sin (hAzimuthDeg hz * PI / 180)) in *.
  set (c := cos (hAzimuthDeg hz * PI / 180)) in *.
  set (ca := cos (hAltitudeDeg hz * PI / 180)) in *.
  assert (Hsc : s * s + c * c = 1) by apply sin_cos_unit.
  assert (Hca : 0 <= ca).
  { unfold ca. apply cos_ge_0; pose proof PI_RGT_0; nra. }
  set (r := R0 * (1 - hAltitudeDeg hz / 90)).
  assert (Hr : 0 <= r < R0) by (unfold r; nra).
  rewrite <- HE, <- HN.
  replace (cx + r * s - cx) with (r * s) by ring.
  replace (cy - (cy - r * c)) with (r * c) by ring.
  split; [| split; [ring | split]].
  - replace (r * s * (r * s) + r * c * (r * c)) with (r * r * (s * s + c * c))
      by ring.
    rewrite Hsc. nra.
  - replace (r * s * (ca * s)) with (r * ca * (s * s)) by ring.
    apply Rmult_le_pos; [apply Rmult_le_pos; lra | nra].
  - replace (r * c * (ca * c)) with (r * ca * (c * c)) by ring.
    apply Rmult_le_pos; [apply Rmult_le_pos; lra | nra].
Qed.
End Dome.

(* ------------------------------------------------------------------ *)
(** ** The Bangkok scripts against [solar.ts] *)

Section Scripts.
Local Open Scope R_scope.

Lemma decl_bound (g : R) : -0.488929 <= decl g <= 0.488929.
Proof.
  rewrite decl_R.
  pose proof (SIN_bound g). pose proof (COS_bound g).
  pose proof (SIN_bound (2 * g)). pose proof (COS_bound (2 * g)).
  pose proof (SIN_bound (3 * g)). pose proof (COS_bound (3 * g)).
  lra.
Qed.

Lemma cos_decl_pos (g : R) : 0 < cos (decl g).
Proof.
  pose proof (decl_bound g). pose proof PI_lower.
  apply cos_gt_0; lra.
Qed.

Lemma atan2_scale (c y x : R) :
  0 < c -> Real.atan2 (c * y) (c * x) = Real.atan2 y x.
Proof.
  intros Hc. unfold Real.atan2.
  assert (Hq : x <> 0 -> c * y / (c * x) = y / x) by (intros; field; lra).
  destruct (Rlt_dec 0 x) as [Hx | Hx].
  - destruct (Rlt_dec 0 (c * x)) as [_ | Hcx]; [| exfalso; nra].
    rewrite Hq by lra. reflexivity.
  - destruct (Rlt_dec 0 (c * x)) as [Hcx | _]; [exfalso; nra|].
    destruct (Rlt_dec x 0) as [Hx' | Hx'].
    + destruct (Rlt_dec (c * x) 0) as [_ | Hcx]; [| exfalso; nra].
      rewrite Hq by lra.
      destruct (Rle_dec 0 y); destruct (Rle_dec 0 (c * y));
        try reflexivity; exfalso; nra.
    + destruct (Rlt_dec (c * x) 0) as [Hcx | _]; [exfalso; nra|].
      destruct (Rlt_dec 0 y); destruct (Rlt_dec 0 (c * y));
        try (exfalso; nra); [reflexivity|].
      destruct (Rlt_dec y 0); destruct (Rlt_dec (c * y) 0);
        try reflexivity; exfalso; nra.
Qed.

(** Turning a vector round turns its angle by half a turn. *)
Lemma atan2_opposite (y x : R) :
  x <> 0 \/ y <> 0 ->
  Real.atan2 (- y) (- x) = Real.atan2 y x + PI \/
  Real.atan2 (- y) (- x) = Real.atan2 y x - PI.
Proof.
  intros Hne. unfold Real.atan2.
  assert (Hq : x <> 0 -> - y / - x = y / x) by (intros; field; lra).
  destruct (Rlt_dec 0 x) as [Hx | Hx].
  - destruct (Rlt_dec 0 (- x)); [lra|].
    destruct (Rlt_dec (- x) 0); [|lra].
    rewrite Hq by lra. destruct (Rle_dec 0 (- y)); [left | right]; reflexivity.
  - destruct (Rlt_dec x 0) as [Hx' | Hx'].
    + destruct (Rlt_dec 0 (- x)); [|lra]. rewrite Hq by lra.
      destruct (Rle_dec 0 y); [right | left]; lra.
    + assert (x = 0) by lra. subst x.
      destruct (Rlt_dec 0 (- 0)); [lra|].
      destruct (Rlt_dec (- 0) 0); [lra|].
      destruct (Rlt_dec 0 y).
      * destruct (Rlt_dec 0 (- y)); [lra|].
        destruct (Rlt_dec (- y) 0); [|lra]. right. lra.
      * destruct (Rlt_dec y 0); [| exfalso; destruct Hne; lra].
        destruct (Rlt_dec 0 (- y)); [|lra]. left. lra.
Qed.

Lemma opposite_bearing (c y x : R) :
  0 < c -> x <> 0 \/ y <> 0 ->
  Rmodulo (Real.atan2 (c * - y) (c * - x) * 180 / PI) 360 =
  Rmodulo (Real.atan2 y x * 180 / PI + 180) 360.
Proof.
  intros Hc Hne. pose proof PI_RGT_0 as Hpi.
  rewrite atan2_scale by assumption.
  destruct (atan2_opposite y x Hne) as [Ha | Ha]; rewrite Ha.
  - f_equal. field. lra.
  - replace ((Real.atan2 y x - PI) * 180 / PI)
      with (Real.atan2 y x * 180 / PI + 180 + 360 * IZR (-1))
      by (simpl; field; lra).
    apply Rmodulo_shift. lra.
Qed.

Lemma Rmodulo_inner (a b : R) :
  Rmodulo (Rmodulo a 360 + b) 360 = Rmodulo (a + b) 360.
Proof.
  unfold Rmodulo at 2.
  replace (a - 360 * IZR (Int_part (a / 360)) + b)
    with (a + b + 360 * IZR (- Int_part (a / 360)))
    by (rewrite opp_IZR; ring).
  apply Rmodulo_shift. lra.
Qed.

(** One row of either script against the point [solar.ts] computes for
    the same day at 12:00 on the zone meridian. *)
Lemma scriptRow_point (year n : Z) (tz : R) :
  let inputs := mkInputs 13.7524938 (15 * tz) (fixedLocalTime 12 0) tz
                         (Some year) in
  let p := analemmaPoint inputs year 365 (deg2rad 13.7524938) 720 n in
  rowAltitudeDeg (scriptRow true n) = AnalemmaPoint.altitudeDeg p /\
  rowH_deg (scriptRow true n)
    = - H_deg 720 (eotMin (gamma 365 n)) (15 * tz) tz /\
  (AnalemmaPoint.E p <> 0 \/ AnalemmaPoint.N p <> 0 ->
   rowA (scriptRow true n) = AnalemmaPoint.azimuthDeg p /\
   normalizeDeg (rowA (scriptRow false n) + 180) = AnalemmaPoint.azimuthDeg p).
Proof.
  intros inputs p. unfold p, analemmaPoint.
  cbn [AnalemmaPoint.altitudeDeg AnalemmaPoint.azimuthDeg
       AnalemmaPoint.E AnalemmaPoint.N].
  cbn [tzOffsetHours longitudeDeg inputs].
  set (g := gamma 365 n).
  pose proof (eotMin_bound g) as He. pose proof (cos_decl_pos g) as Hc.
  pose proof PI_RGT_0 as Hpi.
  assert (HH : H_deg 720 (eotMin g) (15 * tz) tz = eotMin g / 4).
  { rewrite H_deg_R. rewrite Rmodulo_small by lra. field. }
  rewrite !HH. rewrite horizontal_R. cbn [hAltitudeDeg hAzimuthDeg hE hN].
  set (phi := deg2rad 13.7524938).
  set (H := deg2rad (eotMin g / 4)).
  assert (HHs : deg2rad (15 * (12 - 12) - eotMin g / 4) = - H)
    by (unfold H; rewrite !deg2rad_R; field).
  assert (Hrow : forall fixed, scriptRow fixed n =
            mkRow (rad2deg (decl g)) (15 * (12 - 12) - eotMin g / 4)
              (asin (Rmax (-1) (Rmin 1
                 (sin phi * sin (decl g) + cos phi * cos (decl g) * cos (- H))))
               * 180 / PI)
              (if fixed
               then normalizeDeg
                      (Real.atan2 (sin (- H))
                         (cos (- H) * sin phi - tan (decl g) * cos phi)
                       * 180 / PI + 180)
               else normalizeDeg
                      (Real.atan2 (sin (- H))
                         (cos (- H) * sin phi - tan (decl g) * cos phi)
                       * 180 / PI))).
  { intros fixed. rewrite <- HHs. destruct fixed; reflexivity. }
  rewrite !Hrow. cbn [rowAltitudeDeg rowH_deg rowA].
  rewrite cos_neg, sin_neg.
  split; [reflexivity|]. split; [lra|].
  set (y := - sin H).
  set (x := cos H * sin phi - tan (decl g) * cos phi).
  assert (HE : cos (decl g) * sin H = cos (decl g) * - y) by (unfold y; ring).
  assert (HN : cos phi * sin (decl g) - sin phi * cos (decl g) * cos H
               = cos (decl g) * - x).
  { unfold x, tan. field. lra. }
  rewrite HE, HN. intros Hne.
  assert (Hxy : x <> 0 \/ y <> 0).
  { destruct Hne as [Hne | Hne]; [right | left]; intros H0; apply Hne;
      rewrite H0; ring. }
  rewrite !normalizeDeg_R, Rmodulo_inner.
  rewrite opposite_bearing by assumption.
  split; reflexivity.
Qed.

Lemma scriptDays_in_year : incl scriptDays (loopDays 365).
Proof.
  intros n Hn.
  assert (Hr : (1 <= n <= 365)%Z) by (vm_compute in Hn; intuition lia).
  unfold loopDays. apply in_map_iff. exists (Z.to_nat n).
  split; [lia | apply in_seq; lia].
Qed.

(** X19: in exact real arithmetic the rows of [test-bangkok-fixed.js]
    are the points of [solar.ts]: for a year of 365 days, at 12:00 on the
    meridian of the time zone and at the latitude of the script, the hour
    angle of row [n] is the opposite of the hour angle that [solar.ts]
    computes for day [n], the altitude of the row is the altitude of the
    n-th point, and so is the azimuth unless the sun is at the zenith or
    the nadir; the script before the fix reports the opposite azimuth.
    Nothing is stated about the rounded values on doubles.  The days the
    scripts print, 1, 31, ..., 361, are days of the series. *)
Theorem bangkok_script_agrees_with_solar (currentYear year : Z) (tz : R) :
  daysInYear year = 365%Z ->
  let inputs := mkInputs 13.7524938 (15 * tz) (fixedLocalTime 12 0) tz
                         (Some year) in
  Forall2 (fun p n =>
             rowH_deg (scriptRow true n)
               = - H_deg (clampedClockMinutes inputs) (eotMin (gamma 365 n))
                         (longitudeDeg inputs) (tzOffsetHours inputs) /\
             rowAltitudeDeg (scriptRow true n) = AnalemmaPoint.altitudeDeg p /\
             (AnalemmaPoint.E p <> 0 \/ AnalemmaPoint.N p <> 0 ->
              rowA (scriptRow true n) = AnalemmaPoint.azimuthDeg p /\
              normalizeDeg (rowA (scriptRow false n) + 180)
                = AnalemmaPoint.azimuthDeg p))
          (computeAnalemmaPoints currentYear inputs) (loopDays 365) /\
  incl scriptDays (loopDays 365).
Proof.
  intros Hdays inputs. split; [| apply scriptDays_in_year].
  assert (Hclock : clampedClockMinutes inputs = 720)
    by apply clampedClockMinutes_noon.
  unfold computeAnalemmaPoints.
  change (yearOrCurrent currentYear inputs) with year.
  rewrite Hdays, Hclock.
  change (latitudeDeg inputs) with 13.7524938.
  change (longitudeDeg inputs) with (15 * tz).
  change (tzOffsetHours inputs) with tz.
  induction (loopDays 365) as [|n rest IH]; [constructor|].
  cbn [map]. constructor; [| exact IH].
  destruct (scriptRow_point year n tz) as [Halt [HH Haz]].
  split; [exact HH|]. split; [exact Halt | exact Haz].
Qed.

Lemma bangkok_script_agrees_with_solar_witness :
  let inputs := mkInputs 13.7524938 (15 * 7) (fixedLocalTime 12 0) 7
                         (Some 2023%Z) in
  Forall2 (fun p n =>
             rowH_deg (scriptRow true n)
               = - H_deg (clampedClockMinutes inputs) (eotMin (gamma 365 n))
                         (longitudeDeg inputs) (tzOffsetHours inputs) /\
             rowAltitudeDeg (scriptRow true n) = AnalemmaPoint.altitudeDeg p /\
             (AnalemmaPoint.E p <> 0 \/ AnalemmaPoint.N p <> 0 ->
              rowA (scriptRow true n) = AnalemmaPoint.azimuthDeg p /\
              normalizeDeg (rowA (scriptRow false n) + 180)
                = AnalemmaPoint.azimuthDeg p))
          (computeAnalemmaPoints 2026 inputs) (loopDays 365) /\
  incl scriptDays (loopDays 365).
Proof.
  apply (bangkok_script_agrees_with_solar 2026 2023 7). reflexivity.
Defined.
End Scripts.

(* ------------------------------------------------------------------ *)
(** ** Which side of the meridian *)

Section Sides.
Local Open Scope R_scope.

Lemma atan_pos (t : R) : 0 < t -> 0 < atan t.
Proof. intros Ht. rewrite <- atan_0. apply atan_increasing. exact Ht. Qed.

Lemma atan_neg (t : R) : t < 0 -> atan t < 0.
Proof. intros Ht. rewrite <- atan_0. apply atan_increasing. exact Ht. Qed.

Lemma atan2_east (e n : R) : 0 < e -> 0 < Real.atan2 e n < PI.
Proof.
  intros He. pose proof PI_RGT_0 as Hpi. unfold Real.atan2.
  pose proof (atan_bound (e / n)) as Hb.
  destruct (Rlt_dec 0 n) as [Hn | Hn].
  - assert (0 < atan (e / n)) by (apply atan_pos, Rdiv_lt_0_compat; lra). lra.
  - destruct (Rlt_dec n 0) as [Hn' | Hn'].
    + destruct (Rle_dec 0 e); [|lra].
      assert (atan (e / n) < 0).
      { apply atan_neg. unfold Rdiv.
        replace (e * / n) with (- (e * / - n)) by (field; lra).
        assert (0 < e * / - n)
          by (apply Rmult_lt_0_compat; [lra | apply Rinv_0_lt_compat; lra]).
        lra. }
      lra.
    + destruct (Rlt_dec 0 e); [lra | lra].
Qed.

Lemma atan2_west (e n : R) : e < 0 -> - PI < Real.atan2 e n < 0.
Proof.
  intros He. pose proof PI_RGT_0 as Hpi. unfold Real.atan2.
  pose proof (atan_bound (e / n)) as Hb.
  destruct (Rlt_dec 0 n) as [Hn | Hn].
  - assert (atan (e / n) < 0).
    { apply atan_neg. unfold Rdiv.
      replace (e * / n) with (- ((- e) * / n)) by (field; lra).
      assert (0 < (- e) * / n)
        by (apply Rmult_lt_0_compat; [lra | apply Rinv_0_lt_compat; lra]).
      lra. }
    lra.
  - destruct (Rlt_dec n 0) as [Hn' | Hn'].
    + destruct (Rle_dec 0 e); [lra|].
      assert (0 < atan (e / n)).
      { apply atan_pos. unfold Rdiv.
        replace (e * / n) with ((- e) * / - n) by (field; lra).
        apply Rmult_lt_0_compat; [lra | apply Rinv_0_lt_compat; lra]. }
      lra.
    + destruct (Rlt_dec 0 e); [lra|].
      destruct (Rlt_dec e 0); lra.
Qed.

Lemma degrees_scale (a lo hi : R) :
  lo * PI < a * 180 < hi * PI -> lo < a * 180 / PI < hi.
Proof.
  intros [H1 H2]. pose proof PI_RGT_0 as Hpi. split.
  - apply (Rmult_lt_reg_r PI); [assumption|].
    unfold Rdiv. rewrite Rmult_assoc, Rinv_l by lra. lra.
  - apply (Rmult_lt_reg_r PI); [assumption|].
    unfold Rdiv. rewrite Rmult_assoc, Rinv_l by lra. lra.
Qed.

(** X20: the side of the meridian follows the true solar time.  On every
    day of the main series, a true solar time after 720 minutes gives a
    positive East component and an azimuth strictly between 0 and 180
    degrees, a true solar time between 0 and 720 minutes a negative East
    component and an azimuth strictly between 180 and 360 degrees, and at
    720 minutes the East component is 0. *)
Theorem side_follows_true_solar_time
    (currentYear : Z) (inputs : AnalemmaInputs R) :
  let nDays := daysInYear (yearOrCurrent currentYear inputs) in
  Forall2 (fun p n =>
             let tst := trueSolarTimeMin (clampedClockMinutes inputs)
                          (eotMin (gamma nDays n)) (longitudeDeg inputs)
                          (tzOffsetHours inputs) in
             (720 < tst -> 0 < AnalemmaPoint.E p /\
                           0 < AnalemmaPoint.azimuthDeg p < 180) /\
             (0 < tst < 720 -> AnalemmaPoint.E p < 0 /\
                               180 < AnalemmaPoint.azimuthDeg p < 360) /\
             (tst = 720 -> AnalemmaPoint.E p = 0))
          (computeAnalemmaPoints currentYear inputs) (loopDays nDays).
Proof.
  intros nDays. unfold computeAnalemmaPoints. fold nDays.
  induction (loopDays nDays) as [|n rest IH]; [constructor|].
  cbn [map]. constructor; [| exact IH]. clear IH.
  unfold analemmaPoint.
  cbn [AnalemmaPoint.E AnalemmaPoint.azimuthDeg]. cbv zeta.
  set (g := gamma nDays n).
  pose proof (cos_decl_pos g) as Hc. pose proof PI_RGT_0 as Hpi.
  unfold H_deg.
  set (tst := trueSolarTimeMin (clampedClockMinutes inputs) (eotMin g)
                (longitudeDeg inputs) (tzOffsetHours inputs)).
  assert (Htst : 0 <= tst < 1440).
  { unfold tst. rewrite trueSolarTimeMin_R. apply Rmodulo_range. lra. }
  change (tst / of_Z 4 - of_Z 180)%js with (tst / 4 - 180).
  rewrite horizontal_R. cbn [hE hAzimuthDeg].
  set (H := deg2rad (tst / 4 - 180)).
  assert (HH : H = (tst - 720) * PI / 720)
    by (unfold H; rewrite deg2rad_R; field).
  set (N := cos (deg2rad (latitudeDeg inputs)) * sin (decl g)
            - sin (deg2rad (latitudeDeg inputs)) * cos (decl g) * cos H).
  split; [| split].
  - intros Hpm.
    assert (Hs : 0 < sin H).
    { apply sin_gt_0; rewrite HH; [| apply (Rmult_lt_reg_r 720); [lra|]];
        unfold Rdiv; [apply Rmult_lt_0_compat;
                        [nra | apply Rinv_0_lt_compat; lra] |].
      rewrite Rmult_assoc, Rinv_l by lra. nra. }
    assert (HE : 0 < cos (decl g) * sin H) by (apply Rmult_lt_0_compat; lra).
    split; [exact HE|].
    destruct (atan2_east _ N HE) as [Ha1 Ha2].
    assert (Hd : 0 < Real.atan2 (cos (decl g) * sin H) N * 180 / PI < 180)
      by (apply degrees_scale; lra).
    rewrite Rmodulo_small by lra. exact Hd.
  - intros Ham.
    assert (Hs : sin H < 0).
    { apply sin_lt_0_var; rewrite HH; [apply (Rmult_lt_reg_r 720); [lra|] |];
        unfold Rdiv; [rewrite Rmult_assoc, Rinv_l by lra; nra |].
      replace ((tst - 720) * PI * / 720) with (- ((720 - tst) * PI * / 720))
        by (field; lra).
      assert (0 < (720 - tst) * PI * / 720).
      { apply Rmult_lt_0_compat; [nra | apply Rinv_0_lt_compat; lra]. }
      lra. }
    assert (HE : cos (decl g) * sin H < 0) by nra.
    split; [exact HE|].
    destruct (atan2_west _ N HE) as [Ha1 Ha2].
    assert (Hd : -180 < Real.atan2 (cos (decl g) * sin H) N * 180 / PI < 0)
      by (apply degrees_scale; lra).
    set (a := Real.atan2 (cos (decl g) * sin H) N * 180 / PI) in *.
    rewrite <- (Rmodulo_shift a 360 1) by lra.
    rewrite Rmodulo_small by (simpl; lra). simpl. lra.
  - intros Hnoon.
    assert (H0 : H = 0) by (rewrite HH, Hnoon; field).
    rewrite H0, sin_0. ring.
Qed.
End Sides.

(* ------------------------------------------------------------------ *)
(** ** The charts: the solar-noon tooltip and the azimuth axis *)

Section Charts.
Local Open Scope R_scope.

Lemma eotMinutes_bound (year nDays n : Z) :
  -20.6 <= EotPoint.eotMinutes (@eotPoint R _ year nDays n) <= 20.6.
Proof.
  unfold eotPoint. cbn [EotPoint.eotMinutes].
  rewrite obliquityComponent_R, eccentricityComponent_R.
  set (g := gamma nDays n). change add with Rplus.
  pose proof (SIN_bound g). pose proof (COS_bound g).
  pose proof (SIN_bound (2 * g)). pose proof (COS_bound (2 * g)).
  lra.
Qed.

Lemma solarNoon_R (eot : R) :
  solarNoonHour eot = 12 + IZR (Int_part (eot / 60)) /\
  solarNoonMin eot = Rabs (IZR (Int_part (Real.fmod eot 60 + 1 / 2))).
Proof. split; reflexivity. Qed.

Lemma fmod_small_neg (x m : R) : 0 < m -> - m < x < 0 -> Real.fmod x m = x.
Proof.
  intros Hm Hx. unfold Real.fmod, Real.trunc.
  assert (Hq : -1 < x / m < 0).
  { split.
    - apply (Rmult_lt_reg_r m); [lra|].
      unfold Rdiv. rewrite Rmult_assoc, Rinv_l by lra. lra.
    - apply (Rmult_lt_reg_r m); [lra|].
      unfold Rdiv. rewrite Rmult_assoc, Rinv_l by lra. lra. }
  destruct (Rle_dec 0 (x / m)); [lra|].
  rewrite (Int_part_unique (- (x / m)) 0) by (simpl; lra).
  simpl. lra.
Qed.

(** X21: the solar-noon time of the tooltip.  For an equation of time
    that is not negative the hour is 12 and the minute is the equation of
    time to the nearest minute: the time shown is 12:00 plus the equation
    of time.  For a negative one the hour is 11 and the minute is the
    magnitude of the rounded value, so the time shown is 18 to 61 minutes
    before 12:00 plus the equation of time (and an hour before 12:00 minus
    it); this holds on every point of the series. *)
Theorem tooltip_solar_noon_time (year : Z) :
  Forall (fun p =>
            let eot := EotPoint.eotMinutes p in
            let shown := 60 * solarNoonHour eot + solarNoonMin eot in
            (0 <= eot ->
             solarNoonHour eot = 12 /\
             0 <= solarNoonMin eot <= 21 /\
             Rabs (shown - (720 + eot)) <= 1 / 2) /\
            (eot < 0 ->
             solarNoonHour eot = 11 /\
             0 <= solarNoonMin eot <= 21 /\
             -60.5 <= shown - (720 + eot) <= -18.3 /\
             -60.5 <= shown - (720 - eot) <= -59.5))
         (@computeEquationOfTime R _ year).
Proof.
  apply Forall_forall. intros p Hp.
  unfold computeEquationOfTime in Hp. apply in_map_iff in Hp.
  destruct Hp as [n [Hn _]]. subst p.
  pose proof (eotMinutes_bound year (daysInYear year) n) as Hb.
  cbv zeta. set (eot := EotPoint.eotMinutes _) in *.
  destruct (solarNoon_R eot) as [Hh Hm]. rewrite Hh, Hm.
  split.
  - intros Hpos.
    rewrite (Int_part_unique (eot / 60) 0) by (simpl; lra).
    rewrite fmod_small by lra.
    pose proof (Int_part_bounds (eot + 1 / 2)) as Hr.
    set (r := Int_part (eot + 1 / 2)) in *.
    assert (Hr0 : (0 <= r)%Z).
    { apply le_IZR. apply Rnot_lt_le. intros Hneg.
      assert (Hle : (r <= -1)%Z) by (apply lt_IZR in Hneg; lia).
      apply IZR_le in Hle. lra. }
    assert (Hr1 : (r <= 21)%Z).
    { assert (Hlt : IZR r < IZR 22) by lra. apply lt_IZR in Hlt. lia. }
    apply IZR_le in Hr0, Hr1. rewrite Rabs_right by lra.
    split; [simpl; lra|]. split; [lra|].
    simpl. unfold Rabs. destruct (Rcase_abs _); lra.
  - intros Hneg.
    rewrite (Int_part_unique (eot / 60) (-1)) by (simpl; lra).
    rewrite fmod_small_neg by lra.
    pose proof (Int_part_bounds (eot + 1 / 2)) as Hr.
    set (r := Int_part (eot + 1 / 2)) in *.
    assert (Hr0 : (r <= 0)%Z).
    { apply le_IZR. apply Rnot_lt_le. intros Hpos.
      assert (Hle : (1 <= r)%Z) by (apply lt_IZR in Hpos; lia).
      apply IZR_le in Hle. lra. }
    assert (Hr1 : (-21 <= r)%Z).
    { assert (Hlt : IZR (-22) < IZR r) by lra. apply lt_IZR in Hlt. lia. }
    apply IZR_le in Hr0, Hr1. rewrite Rabs_left1 by lra.
    split; [simpl; lra|]. split; [lra|].
    simpl. split; lra.
Qed.

Lemma azimuthDomain_R (azMin azMax : R) :
  azMin <= azMax ->
  let pad := Rmax 10 ((azMax - azMin) * (15 / 100)) in
  let lo := azMin - pad in
  let hi := azMax + pad in
  azimuthDomain azMin azMax =
  if Rlt_dec (hi - lo) 120
  then mkAzDomain ((lo + hi) / 2 - 60) ((lo + hi) / 2 + 60) 120
  else mkAzDomain lo hi (hi - lo).
Proof.
  intros Hle. cbv zeta. unfold azimuthDomain.
  change (dec 1 6) with (1 / 1000000). change (dec 15 2) with (15 / 100).
  change (of_Z 10) with 10. change (of_Z 120) with 120. change (of_Z 2) with 2.
  change Math_max with Rmax. change sub with Rminus. change add with Rplus.
  change mul with Rmult. change div with Rdiv. change ltb with Real.lessb.
  destruct (Rle_dec (1 / 1000000) (azMax - azMin)) as [Hs | Hs].
  - rewrite (Rmax_right (1 / 1000000) (azMax - azMin)) by lra.
    pose proof (Rmax_l 10 ((azMax - azMin) * (15 / 100))) as Hp.
    set (pad := Rmax 10 ((azMax - azMin) * (15 / 100))) in *.
    rewrite (Rmax_right (1 / 1000000) (azMax + pad - (azMin - pad))) by lra.
    unfold Real.lessb. destruct (Rlt_dec _ 120); [|reflexivity].
    f_equal; try lra. rewrite Rmax_right by lra. lra.
  - rewrite (Rmax_left (1 / 1000000) (azMax - azMin)) by lra.
    rewrite (Rmax_left 10 (1 / 1000000 * (15 / 100))) by lra.
    rewrite (Rmax_left 10 ((azMax - azMin) * (15 / 100))) by nra.
    rewrite (Rmax_right (1 / 1000000) (azMax + 10 - (azMin - 10))) by lra.
    unfold Real.lessb. destruct (Rlt_dec _ 120); [|reflexivity].
    f_equal; try lra. rewrite Rmax_right by lra. lra.
Qed.

(** X22: the azimuth axis of the azimuth-altitude view spans at least 120
    degrees, keeps every azimuth of the data at least 10 degrees inside,
    and so draws it strictly inside the plot box. *)
Theorem azimuth_axis_keeps_data_inside (w azMin azMax : R) :
  azMin <= azMax ->
  let d := azimuthDomain azMin azMax in
  let W := viewPlotWidthPx w in
  azDomainSpan d = azDomainMax d - azDomainMin d /\
  120 <= azDomainSpan d /\
  azDomainMin d <= azMin - 10 /\ azMax + 10 <= azDomainMax d /\
  forall az, azMin <= az <= azMax ->
             viewPadding < azXScale viewPadding W d az < viewPadding + W.
Proof.
  intros Hle d W. unfold d. rewrite azimuthDomain_R by assumption. cbv zeta.
  pose proof (Rmax_l 10 ((azMax - azMin) * (15 / 100))) as Hp.
  set (pad := Rmax 10 ((azMax - azMin) * (15 / 100))) in *.
  assert (HW : 1 <= W) by apply Rmax_l.
  assert (Hscale : forall lo span az,
             0 < span -> lo < az < lo + span ->
             40 < 40 + (az - lo) / span * W < 40 + W).
  { intros lo span az Hs Haz.
    assert (Hq : 0 < (az - lo) / span < 1).
    { split; [apply Rdiv_lt_0_compat; lra|].
      apply (Rmult_lt_reg_r span); [lra|].
      unfold Rdiv. rewrite Rmult_assoc, Rinv_l by lra. lra. }
    nra. }
  change viewPadding with 40.
  destruct (Rlt_dec _ 120) as [Hnarrow | Hwide];
    cbn [azDomainSpan azDomainMax azDomainMin].
  - split; [lra|]. split; [lra|]. split; [lra|]. split; [lra|].
    intros az Haz. unfold azXScale. cbn [azDomainSpan azDomainMin].
    apply Hscale; lra.
  - split; [lra|]. split; [lra|]. split; [lra|]. split; [lra|].
    intros az Haz. unfold azXScale. cbn [azDomainSpan azDomainMin].
    apply Hscale; lra.
Qed.

Lemma azimuth_axis_keeps_data_inside_witness :
  let d := azimuthDomain 170 190 in
  let W := viewPlotWidthPx 800 in
  azDomainSpan d = azDomainMax d - azDomainMin d /\
  120 <= azDomainSpan d /\
  azDomainMin d <= 170 - 10 /\ 190 + 10 <= azDomainMax d /\
  forall az, 170 <= az <= 190 ->
             viewPadding < azXScale viewPadding W d az < viewPadding + W.
Proof.
  apply (azimuth_axis_keeps_data_inside 800 170 190). lra.
Defined.
End Charts.
